(** * Name-classification pipeline: a shallow embedding of the three endpoints

    The repository holds three variants of one Flask endpoint, [/predict]:
    - [app.py]: normalise, check the model, ask the remote model, parse its
      JSON reply ([extract_json_from_response]);
    - [app-precheck.py]: the same with a deterministic pre-check
      ([precheck_name]) between normalisation and the model check;
    - [app-precheck-prompt-enhanment.py]: model check first, then the
      pre-check, then a one-token reply ([1] or [0]).

    Each variant is embedded in a module of its own ([App], [AppPrecheck],
    [AppPrecheckPrompt]) over a common model of the Python built-ins the
    sources call ([Py], [Re]) and of the values and services they exchange
    ([Json]).  The two scripts that measure the endpoint on a dataset,
    [test_models.py] and [test_models_parallel.py], are embedded in
    [TestModels] and [TestModelsParallel].

    Modelling choices:
    - a [str] is a list of Unicode code points; the blank code points
      ([str.isspace], [\s]), the case mappings ([str.upper], [str.lower],
      with the final-sigma rule of [str.lower]) and the word characters
      ([\w]) are those of the Unicode database of CPython 3.11 (Unicode
      14.0.0), for every code point;
    - [json.loads], the remote completion call and the formatting of a
      value in an f-string are parameters of the endpoints ([services]);
    - an endpoint returns its response together with the list of remote
      calls it made ([run]); logging is not modelled;
    - the scripts post to a service that is a parameter ([network]); reading
      the dataset and scikit-learn's [accuracy_score] are not modelled, nor
      are the pauses between requests. *)

From Stdlib Require Import NArith ZArith List String Ascii Floats Lia Bool.
From stdpp Require Import base option list gmap.
Import ListNotations.

#[local] Set Warnings "-register-all".
#[local] Open Scope N_scope.

(** ** The Unicode database

    What [str.upper], [str.lower] and the class [\w] do above U+00FF is
    data of the Unicode database the interpreter is built with (CPython
    3.11, Unicode 14.0.0); the code points up to U+00FF are written out
    in [Py]. *)

Module Unicode.

(** Intervals of code points, both bounds included. *)
Definition in_ranges (ranges : list (N * N)) (c : N) : bool :=
  existsb (fun r => (fst r <=? c) && (c <=? snd r)) ranges.

(** A run [(first, last, step, image)] of a case mapping: the code points
    [first], [first + step], ... up to [last] are mapped to [image],
    [image + step], ... *)
Definition in_run (c : N) (r : N * N * N * N) : bool :=
  let '(first, last, step, _) := r in
  (first <=? c) && (c <=? last) && ((c - first) mod step =? 0).

Definition map_run (c : N) (r : N * N * N * N) : N :=
  let '(first, _, _, image) := r in image + (c - first).

(** A case mapping: the code points with an image of several code points
    are listed one by one, the others lie in a run or are left unchanged. *)
Definition case_map (runs : list (N * N * N * N)) (special : list (N * list N)) (c : N)
  : list N :=
  match List.find (fun e => fst e =? c) special with
  | Some e => snd e
  | None =>
      match List.find (in_run c) runs with
      | Some r => [map_run c r]
      | None => [c]
      end
  end.

(** Upper case above U+00FF. *)
Definition upper_runs : list (N * N * N * N) :=
  [
   (0x101, 0x12F, 2, 0x100); (0x131, 0x131, 1, 0x49); (0x133, 0x137, 2, 0x132);
   (0x13A, 0x148, 2, 0x139); (0x14B, 0x177, 2, 0x14A); (0x17A, 0x17E, 2, 0x179);
   (0x17F, 0x17F, 1, 0x53); (0x180, 0x180, 1, 0x243); (0x183, 0x185, 2, 0x182);
   (0x188, 0x188, 1, 0x187); (0x18C, 0x18C, 1, 0x18B); (0x192, 0x192, 1, 0x191);
   (0x195, 0x195, 1, 0x1F6); (0x199, 0x199, 1, 0x198); (0x19A, 0x19A, 1, 0x23D);
   (0x19E, 0x19E, 1, 0x220); (0x1A1, 0x1A5, 2, 0x1A0); (0x1A8, 0x1A8, 1, 0x1A7);
   (0x1AD, 0x1AD, 1, 0x1AC); (0x1B0, 0x1B0, 1, 0x1AF); (0x1B4, 0x1B6, 2, 0x1B3);
   (0x1B9, 0x1B9, 1, 0x1B8); (0x1BD, 0x1BD, 1, 0x1BC); (0x1BF, 0x1BF, 1, 0x1F7);
   (0x1C5, 0x1C5, 1, 0x1C4); (0x1C6, 0x1C6, 1, 0x1C4); (0x1C8, 0x1C8, 1, 0x1C7);
   (0x1C9, 0x1C9, 1, 0x1C7); (0x1CB, 0x1CB, 1, 0x1CA); (0x1CC, 0x1CC, 1, 0x1CA);
   (0x1CE, 0x1DC, 2, 0x1CD); (0x1DD, 0x1DD, 1, 0x18E); (0x1DF, 0x1EF, 2, 0x1DE);
   (0x1F2, 0x1F2, 1, 0x1F1); (0x1F3, 0x1F3, 1, 0x1F1); (0x1F5, 0x1F5, 1, 0x1F4);
   (0x1F9, 0x21F, 2, 0x1F8); (0x223, 0x233, 2, 0x222); (0x23C, 0x23C, 1, 0x23B);
   (0x23F, 0x240, 1, 0x2C7E); (0x242, 0x242, 1, 0x241); (0x247, 0x24F, 2, 0x246);
   (0x250, 0x250, 1, 0x2C6F); (0x251, 0x251, 1, 0x2C6D); (0x252, 0x252, 1, 0x2C70);
   (0x253, 0x253, 1, 0x181); (0x254, 0x254, 1, 0x186); (0x256, 0x257, 1, 0x189);
   (0x259, 0x259, 1, 0x18F); (0x25B, 0x25B, 1, 0x190); (0x25C, 0x25C, 1, 0xA7AB);
   (0x260, 0x260, 1, 0x193); (0x261, 0x261, 1, 0xA7AC); (0x263, 0x263, 1, 0x194);
   (0x265, 0x265, 1, 0xA78D); (0x266, 0x266, 1, 0xA7AA); (0x268, 0x268, 1, 0x197);
   (0x269, 0x269, 1, 0x196); (0x26A, 0x26A, 1, 0xA7AE); (0x26B, 0x26B, 1, 0x2C62);
   (0x26C, 0x26C, 1, 0xA7AD); (0x26F, 0x26F, 1, 0x19C); (0x271, 0x271, 1, 0x2C6E);
   (0x272, 0x272, 1, 0x19D); (0x275, 0x275, 1, 0x19F); (0x27D, 0x27D, 1, 0x2C64);
   (0x280, 0x280, 1, 0x1A6); (0x282, 0x282, 1, 0xA7C5); (0x283, 0x283, 1, 0x1A9);
   (0x287, 0x287, 1, 0xA7B1); (0x288, 0x288, 1, 0x1AE); (0x289, 0x289, 1, 0x244);
   (0x28A, 0x28B, 1, 0x1B1); (0x28C, 0x28C, 1, 0x245); (0x292, 0x292, 1, 0x1B7);
   (0x29D, 0x29D, 1, 0xA7B2); (0x29E, 0x29E, 1, 0xA7B0); (0x345, 0x345, 1, 0x399);
   (0x371, 0x373, 2, 0x370); (0x377, 0x377, 1, 0x376); (0x37B, 0x37D, 1, 0x3FD);
   (0x3AC, 0x3AC, 1, 0x386); (0x3AD, 0x3AF, 1, 0x388); (0x3B1, 0x3C1, 1, 0x391);
   (0x3C2, 0x3C2, 1, 0x3A3); (0x3C3, 0x3CB, 1, 0x3A3); (0x3CC, 0x3CC, 1, 0x38C);
   (0x3CD, 0x3CE, 1, 0x38E); (0x3D0, 0x3D0, 1, 0x392); (0x3D1, 0x3D1, 1, 0x398);
   (0x3D5, 0x3D5, 1, 0x3A6); (0x3D6, 0x3D6, 1, 0x3A0); (0x3D7, 0x3D7, 1, 0x3CF);
   (0x3D9, 0x3EF, 2, 0x3D8); (0x3F0, 0x3F0, 1, 0x39A); (0x3F1, 0x3F1, 1, 0x3A1);
   (0x3F2, 0x3F2, 1, 0x3F9); (0x3F3, 0x3F3, 1, 0x37F); (0x3F5, 0x3F5, 1, 0x395);
   (0x3F8, 0x3F8, 1, 0x3F7); (0x3FB, 0x3FB, 1, 0x3FA); (0x430, 0x44F, 1, 0x410);
   (0x450, 0x45F, 1, 0x400); (0x461, 0x481, 2, 0x460); (0x48B, 0x4BF, 2, 0x48A);
   (0x4C2, 0x4CE, 2, 0x4C1); (0x4CF, 0x4CF, 1, 0x4C0); (0x4D1, 0x52F, 2, 0x4D0);
   (0x561, 0x586, 1, 0x531); (0x10D0, 0x10FA, 1, 0x1C90); (0x10FD, 0x10FF, 1, 0x1CBD);
   (0x13F8, 0x13FD, 1, 0x13F0); (0x1C80, 0x1C80, 1, 0x412); (0x1C81, 0x1C81, 1, 0x414);
   (0x1C82, 0x1C82, 1, 0x41E); (0x1C83, 0x1C84, 1, 0x421); (0x1C85, 0x1C85, 1, 0x422);
   (0x1C86, 0x1C86, 1, 0x42A); (0x1C87, 0x1C87, 1, 0x462); (0x1C88, 0x1C88, 1, 0xA64A);
   (0x1D79, 0x1D79, 1, 0xA77D); (0x1D7D, 0x1D7D, 1, 0x2C63); (0x1D8E, 0x1D8E, 1, 0xA7C6);
   (0x1E01, 0x1E95, 2, 0x1E00); (0x1E9B, 0x1E9B, 1, 0x1E60); (0x1EA1, 0x1EFF, 2, 0x1EA0);
   (0x1F00, 0x1F07, 1, 0x1F08); (0x1F10, 0x1F15, 1, 0x1F18); (0x1F20, 0x1F27, 1, 0x1F28);
   (0x1F30, 0x1F37, 1, 0x1F38); (0x1F40, 0x1F45, 1, 0x1F48); (0x1F51, 0x1F57, 2, 0x1F59);
   (0x1F60, 0x1F67, 1, 0x1F68); (0x1F70, 0x1F71, 1, 0x1FBA); (0x1F72, 0x1F75, 1, 0x1FC8);
   (0x1F76, 0x1F77, 1, 0x1FDA); (0x1F78, 0x1F79, 1, 0x1FF8); (0x1F7A, 0x1F7B, 1, 0x1FEA);
   (0x1F7C, 0x1F7D, 1, 0x1FFA); (0x1FB0, 0x1FB1, 1, 0x1FB8); (0x1FBE, 0x1FBE, 1, 0x399);
   (0x1FD0, 0x1FD1, 1, 0x1FD8); (0x1FE0, 0x1FE1, 1, 0x1FE8); (0x1FE5, 0x1FE5, 1, 0x1FEC);
   (0x214E, 0x214E, 1, 0x2132); (0x2170, 0x217F, 1, 0x2160); (0x2184, 0x2184, 1, 0x2183);
   (0x24D0, 0x24E9, 1, 0x24B6); (0x2C30, 0x2C5F, 1, 0x2C00); (0x2C61, 0x2C61, 1, 0x2C60);
   (0x2C65, 0x2C65, 1, 0x23A); (0x2C66, 0x2C66, 1, 0x23E); (0x2C68, 0x2C6C, 2, 0x2C67);
   (0x2C73, 0x2C73, 1, 0x2C72); (0x2C76, 0x2C76, 1, 0x2C75); (0x2C81, 0x2CE3, 2, 0x2C80);
   (0x2CEC, 0x2CEE, 2, 0x2CEB); (0x2CF3, 0x2CF3, 1, 0x2CF2); (0x2D00, 0x2D25, 1, 0x10A0);
   (0x2D27, 0x2D27, 1, 0x10C7); (0x2D2D, 0x2D2D, 1, 0x10CD); (0xA641, 0xA66D, 2, 0xA640);
   (0xA681, 0xA69B, 2, 0xA680); (0xA723, 0xA72F, 2, 0xA722); (0xA733, 0xA76F, 2, 0xA732);
   (0xA77A, 0xA77C, 2, 0xA779); (0xA77F, 0xA787, 2, 0xA77E); (0xA78C, 0xA78C, 1, 0xA78B);
   (0xA791, 0xA793, 2, 0xA790); (0xA794, 0xA794, 1, 0xA7C4); (0xA797, 0xA7A9, 2, 0xA796);
   (0xA7B5, 0xA7C3, 2, 0xA7B4); (0xA7C8, 0xA7CA, 2, 0xA7C7); (0xA7D1, 0xA7D1, 1, 0xA7D0);
   (0xA7D7, 0xA7D9, 2, 0xA7D6); (0xA7F6, 0xA7F6, 1, 0xA7F5); (0xAB53, 0xAB53, 1, 0xA7B3);
   (0xAB70, 0xABBF, 1, 0x13A0); (0xFF41, 0xFF5A, 1, 0xFF21); (0x10428, 0x1044F, 1, 0x10400);
   (0x104D8, 0x104FB, 1, 0x104B0); (0x10597, 0x105A1, 1, 0x10570);
   (0x105A3, 0x105B1, 1, 0x1057C); (0x105B3, 0x105B9, 1, 0x1058C);
   (0x105BB, 0x105BC, 1, 0x10594); (0x10CC0, 0x10CF2, 1, 0x10C80);
   (0x118C0, 0x118DF, 1, 0x118A0); (0x16E60, 0x16E7F, 1, 0x16E40);
   (0x1E922, 0x1E943, 1, 0x1E900)
  ].

Definition upper_special : list (N * list N) :=
  [
   (0x149, [0x2BC; 0x4E]); (0x1F0, [0x4A; 0x30C]); (0x390, [0x399; 0x308; 0x301]);
   (0x3B0, [0x3A5; 0x308; 0x301]); (0x587, [0x535; 0x552]); (0x1E96, [0x48; 0x331]);
   (0x1E97, [0x54; 0x308]); (0x1E98, [0x57; 0x30A]); (0x1E99, [0x59; 0x30A]);
   (0x1E9A, [0x41; 0x2BE]); (0x1F50, [0x3A5; 0x313]); (0x1F52, [0x3A5; 0x313; 0x300]);
   (0x1F54, [0x3A5; 0x313; 0x301]); (0x1F56, [0x3A5; 0x313; 0x342]); (0x1F80, [0x1F08; 0x399]);
   (0x1F81, [0x1F09; 0x399]); (0x1F82, [0x1F0A; 0x399]); (0x1F83, [0x1F0B; 0x399]);
   (0x1F84, [0x1F0C; 0x399]); (0x1F85, [0x1F0D; 0x399]); (0x1F86, [0x1F0E; 0x399]);
   (0x1F87, [0x1F0F; 0x399]); (0x1F88, [0x1F08; 0x399]); (0x1F89, [0x1F09; 0x399]);
   (0x1F8A, [0x1F0A; 0x399]); (0x1F8B, [0x1F0B; 0x399]); (0x1F8C, [0x1F0C; 0x399]);
   (0x1F8D, [0x1F0D; 0x399]); (0x1F8E, [0x1F0E; 0x399]); (0x1F8F, [0x1F0F; 0x399]);
   (0x1F90, [0x1F28; 0x399]); (0x1F91, [0x1F29; 0x399]); (0x1F92, [0x1F2A; 0x399]);
   (0x1F93, [0x1F2B; 0x399]); (0x1F94, [0x1F2C; 0x399]); (0x1F95, [0x1F2D; 0x399]);
   (0x1F96, [0x1F2E; 0x399]); (0x1F97, [0x1F2F; 0x399]); (0x1F98, [0x1F28; 0x399]);
   (0x1F99, [0x1F29; 0x399]); (0x1F9A, [0x1F2A; 0x399]); (0x1F9B, [0x1F2B; 0x399]);
   (0x1F9C, [0x1F2C; 0x399]); (0x1F9D, [0x1F2D; 0x399]); (0x1F9E, [0x1F2E; 0x399]);
   (0x1F9F, [0x1F2F; 0x399]); (0x1FA0, [0x1F68; 0x399]); (0x1FA1, [0x1F69; 0x399]);
   (0x1FA2, [0x1F6A; 0x399]); (0x1FA3, [0x1F6B; 0x399]); (0x1FA4, [0x1F6C; 0x399]);
   (0x1FA5, [0x1F6D; 0x399]); (0x1FA6, [0x1F6E; 0x399]); (0x1FA7, [0x1F6F; 0x399]);
   (0x1FA8, [0x1F68; 0x399]); (0x1FA9, [0x1F69; 0x399]); (0x1FAA, [0x1F6A; 0x399]);
   (0x1FAB, [0x1F6B; 0x399]); (0x1FAC, [0x1F6C; 0x399]); (0x1FAD, [0x1F6D; 0x399]);
   (0x1FAE, [0x1F6E; 0x399]); (0x1FAF, [0x1F6F; 0x399]); (0x1FB2, [0x1FBA; 0x399]);
   (0x1FB3, [0x391; 0x399]); (0x1FB4, [0x386; 0x399]); (0x1FB6, [0x391; 0x342]);
   (0x1FB7, [0x391; 0x342; 0x399]); (0x1FBC, [0x391; 0x399]); (0x1FC2, [0x1FCA; 0x399]);
   (0x1FC3, [0x397; 0x399]); (0x1FC4, [0x389; 0x399]); (0x1FC6, [0x397; 0x342]);
   (0x1FC7, [0x397; 0x342; 0x399]); (0x1FCC, [0x397; 0x399]); (0x1FD2, [0x399; 0x308; 0x300]);
   (0x1FD3, [0x399; 0x308; 0x301]); (0x1FD6, [0x399; 0x342]); (0x1FD7, [0x399; 0x308; 0x342]);
   (0x1FE2, [0x3A5; 0x308; 0x300]); (0x1FE3, [0x3A5; 0x308; 0x301]); (0x1FE4, [0x3A1; 0x313]);
   (0x1FE6, [0x3A5; 0x342]); (0x1FE7, [0x3A5; 0x308; 0x342]); (0x1FF2, [0x1FFA; 0x399]);
   (0x1FF3, [0x3A9; 0x399]); (0x1FF4, [0x38F; 0x399]); (0x1FF6, [0x3A9; 0x342]);
   (0x1FF7, [0x3A9; 0x342; 0x399]); (0x1FFC, [0x3A9; 0x399]); (0xFB00, [0x46; 0x46]);
   (0xFB01, [0x46; 0x49]); (0xFB02, [0x46; 0x4C]); (0xFB03, [0x46; 0x46; 0x49]);
   (0xFB04, [0x46; 0x46; 0x4C]); (0xFB05, [0x53; 0x54]); (0xFB06, [0x53; 0x54]);
   (0xFB13, [0x544; 0x546]); (0xFB14, [0x544; 0x535]); (0xFB15, [0x544; 0x53B]);
   (0xFB16, [0x54E; 0x546]); (0xFB17, [0x544; 0x53D])
  ].

(** Lower case above U+00FF, of a code point taken alone. *)
Definition lower_runs : list (N * N * N * N) :=
  [
   (0x100, 0x12E, 2, 0x101); (0x132, 0x136, 2, 0x133); (0x139, 0x147, 2, 0x13A);
   (0x14A, 0x176, 2, 0x14B); (0x178, 0x178, 1, 0xFF); (0x179, 0x17D, 2, 0x17A);
   (0x181, 0x181, 1, 0x253); (0x182, 0x184, 2, 0x183); (0x186, 0x186, 1, 0x254);
   (0x187, 0x187, 1, 0x188); (0x189, 0x18A, 1, 0x256); (0x18B, 0x18B, 1, 0x18C);
   (0x18E, 0x18E, 1, 0x1DD); (0x18F, 0x18F, 1, 0x259); (0x190, 0x190, 1, 0x25B);
   (0x191, 0x191, 1, 0x192); (0x193, 0x193, 1, 0x260); (0x194, 0x194, 1, 0x263);
   (0x196, 0x196, 1, 0x269); (0x197, 0x197, 1, 0x268); (0x198, 0x198, 1, 0x199);
   (0x19C, 0x19C, 1, 0x26F); (0x19D, 0x19D, 1, 0x272); (0x19F, 0x19F, 1, 0x275);
   (0x1A0, 0x1A4, 2, 0x1A1); (0x1A6, 0x1A6, 1, 0x280); (0x1A7, 0x1A7, 1, 0x1A8);
   (0x1A9, 0x1A9, 1, 0x283); (0x1AC, 0x1AC, 1, 0x1AD); (0x1AE, 0x1AE, 1, 0x288);
   (0x1AF, 0x1AF, 1, 0x1B0); (0x1B1, 0x1B2, 1, 0x28A); (0x1B3, 0x1B5, 2, 0x1B4);
   (0x1B7, 0x1B7, 1, 0x292); (0x1B8, 0x1B8, 1, 0x1B9); (0x1BC, 0x1BC, 1, 0x1BD);
   (0x1C4, 0x1C4, 1, 0x1C6); (0x1C5, 0x1C5, 1, 0x1C6); (0x1C7, 0x1C7, 1, 0x1C9);
   (0x1C8, 0x1C8, 1, 0x1C9); (0x1CA, 0x1CA, 1, 0x1CC); (0x1CB, 0x1DB, 2, 0x1CC);
   (0x1DE, 0x1EE, 2, 0x1DF); (0x1F1, 0x1F1, 1, 0x1F3); (0x1F2, 0x1F4, 2, 0x1F3);
   (0x1F6, 0x1F6, 1, 0x195); (0x1F7, 0x1F7, 1, 0x1BF); (0x1F8, 0x21E, 2, 0x1F9);
   (0x220, 0x220, 1, 0x19E); (0x222, 0x232, 2, 0x223); (0x23A, 0x23A, 1, 0x2C65);
   (0x23B, 0x23B, 1, 0x23C); (0x23D, 0x23D, 1, 0x19A); (0x23E, 0x23E, 1, 0x2C66);
   (0x241, 0x241, 1, 0x242); (0x243, 0x243, 1, 0x180); (0x244, 0x244, 1, 0x289);
   (0x245, 0x245, 1, 0x28C); (0x246, 0x24E, 2, 0x247); (0x370, 0x372, 2, 0x371);
   (0x376, 0x376, 1, 0x377); (0x37F, 0x37F, 1, 0x3F3); (0x386, 0x386, 1, 0x3AC);
   (0x388, 0x38A, 1, 0x3AD); (0x38C, 0x38C, 1, 0x3CC); (0x38E, 0x38F, 1, 0x3CD);
   (0x391, 0x3A1, 1, 0x3B1); (0x3A3, 0x3AB, 1, 0x3C3); (0x3CF, 0x3CF, 1, 0x3D7);
   (0x3D8, 0x3EE, 2, 0x3D9); (0x3F4, 0x3F4, 1, 0x3B8); (0x3F7, 0x3F7, 1, 0x3F8);
   (0x3F9, 0x3F9, 1, 0x3F2); (0x3FA, 0x3FA, 1, 0x3FB); (0x3FD, 0x3FF, 1, 0x37B);
   (0x400, 0x40F, 1, 0x450); (0x410, 0x42F, 1, 0x430); (0x460, 0x480, 2, 0x461);
   (0x48A, 0x4BE, 2, 0x48B); (0x4C0, 0x4C0, 1, 0x4CF); (0x4C1, 0x4CD, 2, 0x4C2);
   (0x4D0, 0x52E, 2, 0x4D1); (0x531, 0x556, 1, 0x561); (0x10A0, 0x10C5, 1, 0x2D00);
   (0x10C7, 0x10C7, 1, 0x2D27); (0x10CD, 0x10CD, 1, 0x2D2D); (0x13A0, 0x13EF, 1, 0xAB70);
   (0x13F0, 0x13F5, 1, 0x13F8); (0x1C90, 0x1CBA, 1, 0x10D0); (0x1CBD, 0x1CBF, 1, 0x10FD);
   (0x1E00, 0x1E94, 2, 0x1E01); (0x1E9E, 0x1E9E, 1, 0xDF); (0x1EA0, 0x1EFE, 2, 0x1EA1);
   (0x1F08, 0x1F0F, 1, 0x1F00); (0x1F18, 0x1F1D, 1, 0x1F10); (0x1F28, 0x1F2F, 1, 0x1F20);
   (0x1F38, 0x1F3F, 1, 0x1F30); (0x1F48, 0x1F4D, 1, 0x1F40); (0x1F59, 0x1F5F, 2, 0x1F51);
   (0x1F68, 0x1F6F, 1, 0x1F60); (0x1F88, 0x1F8F, 1, 0x1F80); (0x1F98, 0x1F9F, 1, 0x1F90);
   (0x1FA8, 0x1FAF, 1, 0x1FA0); (0x1FB8, 0x1FB9, 1, 0x1FB0); (0x1FBA, 0x1FBB, 1, 0x1F70);
   (0x1FBC, 0x1FBC, 1, 0x1FB3); (0x1FC8, 0x1FCB, 1, 0x1F72); (0x1FCC, 0x1FCC, 1, 0x1FC3);
   (0x1FD8, 0x1FD9, 1, 0x1FD0); (0x1FDA, 0x1FDB, 1, 0x1F76); (0x1FE8, 0x1FE9, 1, 0x1FE0);
   (0x1FEA, 0x1FEB, 1, 0x1F7A); (0x1FEC, 0x1FEC, 1, 0x1FE5); (0x1FF8, 0x1FF9, 1, 0x1F78);
   (0x1FFA, 0x1FFB, 1, 0x1F7C); (0x1FFC, 0x1FFC, 1, 0x1FF3); (0x2126, 0x2126, 1, 0x3C9);
   (0x212A, 0x212A, 1, 0x6B); (0x212B, 0x212B, 1, 0xE5); (0x2132, 0x2132, 1, 0x214E);
   (0x2160, 0x216F, 1, 0x2170); (0x2183, 0x2183, 1, 0x2184); (0x24B6, 0x24CF, 1, 0x24D0);
   (0x2C00, 0x2C2F, 1, 0x2C30); (0x2C60, 0x2C60, 1, 0x2C61); (0x2C62, 0x2C62, 1, 0x26B);
   (0x2C63, 0x2C63, 1, 0x1D7D); (0x2C64, 0x2C64, 1, 0x27D); (0x2C67, 0x2C6B, 2, 0x2C68);
   (0x2C6D, 0x2C6D, 1, 0x251); (0x2C6E, 0x2C6E, 1, 0x271); (0x2C6F, 0x2C6F, 1, 0x250);
   (0x2C70, 0x2C70, 1, 0x252); (0x2C72, 0x2C72, 1, 0x2C73); (0x2C75, 0x2C75, 1, 0x2C76);
   (0x2C7E, 0x2C7F, 1, 0x23F); (0x2C80, 0x2CE2, 2, 0x2C81); (0x2CEB, 0x2CED, 2, 0x2CEC);
   (0x2CF2, 0x2CF2, 1, 0x2CF3); (0xA640, 0xA66C, 2, 0xA641); (0xA680, 0xA69A, 2, 0xA681);
   (0xA722, 0xA72E, 2, 0xA723); (0xA732, 0xA76E, 2, 0xA733); (0xA779, 0xA77B, 2, 0xA77A);
   (0xA77D, 0xA77D, 1, 0x1D79); (0xA77E, 0xA786, 2, 0xA77F); (0xA78B, 0xA78B, 1, 0xA78C);
   (0xA78D, 0xA78D, 1, 0x265); (0xA790, 0xA792, 2, 0xA791); (0xA796, 0xA7A8, 2, 0xA797);
   (0xA7AA, 0xA7AA, 1, 0x266); (0xA7AB, 0xA7AB, 1, 0x25C); (0xA7AC, 0xA7AC, 1, 0x261);
   (0xA7AD, 0xA7AD, 1, 0x26C); (0xA7AE, 0xA7AE, 1, 0x26A); (0xA7B0, 0xA7B0, 1, 0x29E);
   (0xA7B1, 0xA7B1, 1, 0x287); (0xA7B2, 0xA7B2, 1, 0x29D); (0xA7B3, 0xA7B3, 1, 0xAB53);
   (0xA7B4, 0xA7C2, 2, 0xA7B5); (0xA7C4, 0xA7C4, 1, 0xA794); (0xA7C5, 0xA7C5, 1, 0x282);
   (0xA7C6, 0xA7C6, 1, 0x1D8E); (0xA7C7, 0xA7C9, 2, 0xA7C8); (0xA7D0, 0xA7D0, 1, 0xA7D1);
   (0xA7D6, 0xA7D8, 2, 0xA7D7); (0xA7F5, 0xA7F5, 1, 0xA7F6); (0xFF21, 0xFF3A, 1, 0xFF41);
   (0x10400, 0x10427, 1, 0x10428); (0x104B0, 0x104D3, 1, 0x104D8);
   (0x10570, 0x1057A, 1, 0x10597); (0x1057C, 0x1058A, 1, 0x105A3);
   (0x1058C, 0x10592, 1, 0x105B3); (0x10594, 0x10595, 1, 0x105BB);
   (0x10C80, 0x10CB2, 1, 0x10CC0); (0x118A0, 0x118BF, 1, 0x118C0);
   (0x16E40, 0x16E5F, 1, 0x16E60); (0x1E900, 0x1E921, 1, 0x1E922)
  ].

Definition lower_special : list (N * list N) :=
  [
   (0x130, [0x69; 0x307])
  ].

(** The alphanumeric code points above U+00FF ([str.isalnum]). *)
Definition word_ranges : list (N * N) :=
  [
   (0x100, 0x2C1); (0x2C6, 0x2D1); (0x2E0, 0x2E4); (0x2EC, 0x2EC); (0x2EE, 0x2EE);
   (0x370, 0x374); (0x376, 0x377); (0x37A, 0x37D); (0x37F, 0x37F); (0x386, 0x386);
   (0x388, 0x38A); (0x38C, 0x38C); (0x38E, 0x3A1); (0x3A3, 0x3F5); (0x3F7, 0x481);
   (0x48A, 0x52F); (0x531, 0x556); (0x559, 0x559); (0x560, 0x588); (0x5D0, 0x5EA);
   (0x5EF, 0x5F2); (0x620, 0x64A); (0x660, 0x669); (0x66E, 0x66F); (0x671, 0x6D3);
   (0x6D5, 0x6D5); (0x6E5, 0x6E6); (0x6EE, 0x6FC); (0x6FF, 0x6FF); (0x710, 0x710);
   (0x712, 0x72F); (0x74D, 0x7A5); (0x7B1, 0x7B1); (0x7C0, 0x7EA); (0x7F4, 0x7F5);
   (0x7FA, 0x7FA); (0x800, 0x815); (0x81A, 0x81A); (0x824, 0x824); (0x828, 0x828);
   (0x840, 0x858); (0x860, 0x86A); (0x870, 0x887); (0x889, 0x88E); (0x8A0, 0x8C9);
   (0x904, 0x939); (0x93D, 0x93D); (0x950, 0x950); (0x958, 0x961); (0x966, 0x96F);
   (0x971, 0x980); (0x985, 0x98C); (0x98F, 0x990); (0x993, 0x9A8); (0x9AA, 0x9B0);
   (0x9B2, 0x9B2); (0x9B6, 0x9B9); (0x9BD, 0x9BD); (0x9CE, 0x9CE); (0x9DC, 0x9DD);
   (0x9DF, 0x9E1); (0x9E6, 0x9F1); (0x9F4, 0x9F9); (0x9FC, 0x9FC); (0xA05, 0xA0A);
   (0xA0F, 0xA10); (0xA13, 0xA28); (0xA2A, 0xA30); (0xA32, 0xA33); (0xA35, 0xA36);
   (0xA38, 0xA39); (0xA59, 0xA5C); (0xA5E, 0xA5E); (0xA66, 0xA6F); (0xA72, 0xA74);
   (0xA85, 0xA8D); (0xA8F, 0xA91); (0xA93, 0xAA8); (0xAAA, 0xAB0); (0xAB2, 0xAB3);
   (0xAB5, 0xAB9); (0xABD, 0xABD); (0xAD0, 0xAD0); (0xAE0, 0xAE1); (0xAE6, 0xAEF);
   (0xAF9, 0xAF9); (0xB05, 0xB0C); (0xB0F, 0xB10); (0xB13, 0xB28); (0xB2A, 0xB30);
   (0xB32, 0xB33); (0xB35, 0xB39); (0xB3D, 0xB3D); (0xB5C, 0xB5D); (0xB5F, 0xB61);
   (0xB66, 0xB6F); (0xB71, 0xB77); (0xB83, 0xB83); (0xB85, 0xB8A); (0xB8E, 0xB90);
   (0xB92, 0xB95); (0xB99, 0xB9A); (0xB9C, 0xB9C); (0xB9E, 0xB9F); (0xBA3, 0xBA4);
   (0xBA8, 0xBAA); (0xBAE, 0xBB9); (0xBD0, 0xBD0); (0xBE6, 0xBF2); (0xC05, 0xC0C);
   (0xC0E, 0xC10); (0xC12, 0xC28); (0xC2A, 0xC39); (0xC3D, 0xC3D); (0xC58, 0xC5A);
   (0xC5D, 0xC5D); (0xC60, 0xC61); (0xC66, 0xC6F); (0xC78, 0xC7E); (0xC80, 0xC80);
   (0xC85, 0xC8C); (0xC8E, 0xC90); (0xC92, 0xCA8); (0xCAA, 0xCB3); (0xCB5, 0xCB9);
   (0xCBD, 0xCBD); (0xCDD, 0xCDE); (0xCE0, 0xCE1); (0xCE6, 0xCEF); (0xCF1, 0xCF2);
   (0xD04, 0xD0C); (0xD0E, 0xD10); (0xD12, 0xD3A); (0xD3D, 0xD3D); (0xD4E, 0xD4E);
   (0xD54, 0xD56); (0xD58, 0xD61); (0xD66, 0xD78); (0xD7A, 0xD7F); (0xD85, 0xD96);
   (0xD9A, 0xDB1); (0xDB3, 0xDBB); (0xDBD, 0xDBD); (0xDC0, 0xDC6); (0xDE6, 0xDEF);
   (0xE01, 0xE30); (0xE32, 0xE33); (0xE40, 0xE46); (0xE50, 0xE59); (0xE81, 0xE82);
   (0xE84, 0xE84); (0xE86, 0xE8A); (0xE8C, 0xEA3); (0xEA5, 0xEA5); (0xEA7, 0xEB0);
   (0xEB2, 0xEB3); (0xEBD, 0xEBD); (0xEC0, 0xEC4); (0xEC6, 0xEC6); (0xED0, 0xED9);
   (0xEDC, 0xEDF); (0xF00, 0xF00); (0xF20, 0xF33); (0xF40, 0xF47); (0xF49, 0xF6C);
   (0xF88, 0xF8C); (0x1000, 0x102A); (0x103F, 0x1049); (0x1050, 0x1055); (0x105A, 0x105D);
   (0x1061, 0x1061); (0x1065, 0x1066); (0x106E, 0x1070); (0x1075, 0x1081); (0x108E, 0x108E);
   (0x1090, 0x1099); (0x10A0, 0x10C5); (0x10C7, 0x10C7); (0x10CD, 0x10CD); (0x10D0, 0x10FA);
   (0x10FC, 0x1248); (0x124A, 0x124D); (0x1250, 0x1256); (0x1258, 0x1258); (0x125A, 0x125D);
   (0x1260, 0x1288); (0x128A, 0x128D); (0x1290, 0x12B0); (0x12B2, 0x12B5); (0x12B8, 0x12BE);
   (0x12C0, 0x12C0); (0x12C2, 0x12C5); (0x12C8, 0x12D6); (0x12D8, 0x1310); (0x1312, 0x1315);
   (0x1318, 0x135A); (0x1369, 0x137C); (0x1380, 0x138F); (0x13A0, 0x13F5); (0x13F8, 0x13FD);
   (0x1401, 0x166C); (0x166F, 0x167F); (0x1681, 0x169A); (0x16A0, 0x16EA); (0x16EE, 0x16F8);
   (0x1700, 0x1711); (0x171F, 0x1731); (0x1740, 0x1751); (0x1760, 0x176C); (0x176E, 0x1770);
   (0x1780, 0x17B3); (0x17D7, 0x17D7); (0x17DC, 0x17DC); (0x17E0, 0x17E9); (0x17F0, 0x17F9);
   (0x1810, 0x1819); (0x1820, 0x1878); (0x1880, 0x1884); (0x1887, 0x18A8); (0x18AA, 0x18AA);
   (0x18B0, 0x18F5); (0x1900, 0x191E); (0x1946, 0x196D); (0x1970, 0x1974); (0x1980, 0x19AB);
   (0x19B0, 0x19C9); (0x19D0, 0x19DA); (0x1A00, 0x1A16); (0x1A20, 0x1A54); (0x1A80, 0x1A89);
   (0x1A90, 0x1A99); (0x1AA7, 0x1AA7); (0x1B05, 0x1B33); (0x1B45, 0x1B4C); (0x1B50, 0x1B59);
   (0x1B83, 0x1BA0); (0x1BAE, 0x1BE5); (0x1C00, 0x1C23); (0x1C40, 0x1C49); (0x1C4D, 0x1C7D);
   (0x1C80, 0x1C88); (0x1C90, 0x1CBA); (0x1CBD, 0x1CBF); (0x1CE9, 0x1CEC); (0x1CEE, 0x1CF3);
   (0x1CF5, 0x1CF6); (0x1CFA, 0x1CFA); (0x1D00, 0x1DBF); (0x1E00, 0x1F15); (0x1F18, 0x1F1D);
   (0x1F20, 0x1F45); (0x1F48, 0x1F4D); (0x1F50, 0x1F57); (0x1F59, 0x1F59); (0x1F5B, 0x1F5B);
   (0x1F5D, 0x1F5D); (0x1F5F, 0x1F7D); (0x1F80, 0x1FB4); (0x1FB6, 0x1FBC); (0x1FBE, 0x1FBE);
   (0x1FC2, 0x1FC4); (0x1FC6, 0x1FCC); (0x1FD0, 0x1FD3); (0x1FD6, 0x1FDB); (0x1FE0, 0x1FEC);
   (0x1FF2, 0x1FF4); (0x1FF6, 0x1FFC); (0x2070, 0x2071); (0x2074, 0x2079); (0x207F, 0x2089);
   (0x2090, 0x209C); (0x2102, 0x2102); (0x2107, 0x2107); (0x210A, 0x2113); (0x2115, 0x2115);
   (0x2119, 0x211D); (0x2124, 0x2124); (0x2126, 0x2126); (0x2128, 0x2128); (0x212A, 0x212D);
   (0x212F, 0x2139); (0x213C, 0x213F); (0x2145, 0x2149); (0x214E, 0x214E); (0x2150, 0x2189);
   (0x2460, 0x249B); (0x24EA, 0x24FF); (0x2776, 0x2793); (0x2C00, 0x2CE4); (0x2CEB, 0x2CEE);
   (0x2CF2, 0x2CF3); (0x2CFD, 0x2CFD); (0x2D00, 0x2D25); (0x2D27, 0x2D27); (0x2D2D, 0x2D2D);
   (0x2D30, 0x2D67); (0x2D6F, 0x2D6F); (0x2D80, 0x2D96); (0x2DA0, 0x2DA6); (0x2DA8, 0x2DAE);
   (0x2DB0, 0x2DB6); (0x2DB8, 0x2DBE); (0x2DC0, 0x2DC6); (0x2DC8, 0x2DCE); (0x2DD0, 0x2DD6);
   (0x2DD8, 0x2DDE); (0x2E2F, 0x2E2F); (0x3005, 0x3007); (0x3021, 0x3029); (0x3031, 0x3035);
   (0x3038, 0x303C); (0x3041, 0x3096); (0x309D, 0x309F); (0x30A1, 0x30FA); (0x30FC, 0x30FF);
   (0x3105, 0x312F); (0x3131, 0x318E); (0x3192, 0x3195); (0x31A0, 0x31BF); (0x31F0, 0x31FF);
   (0x3220, 0x3229); (0x3248, 0x324F); (0x3251, 0x325F); (0x3280, 0x3289); (0x32B1, 0x32BF);
   (0x3400, 0x4DBF); (0x4E00, 0xA48C); (0xA4D0, 0xA4FD); (0xA500, 0xA60C); (0xA610, 0xA62B);
   (0xA640, 0xA66E); (0xA67F, 0xA69D); (0xA6A0, 0xA6EF); (0xA717, 0xA71F); (0xA722, 0xA788);
   (0xA78B, 0xA7CA); (0xA7D0, 0xA7D1); (0xA7D3, 0xA7D3); (0xA7D5, 0xA7D9); (0xA7F2, 0xA801);
   (0xA803, 0xA805); (0xA807, 0xA80A); (0xA80C, 0xA822); (0xA830, 0xA835); (0xA840, 0xA873);
   (0xA882, 0xA8B3); (0xA8D0, 0xA8D9); (0xA8F2, 0xA8F7); (0xA8FB, 0xA8FB); (0xA8FD, 0xA8FE);
   (0xA900, 0xA925); (0xA930, 0xA946); (0xA960, 0xA97C); (0xA984, 0xA9B2); (0xA9CF, 0xA9D9);
   (0xA9E0, 0xA9E4); (0xA9E6, 0xA9FE); (0xAA00, 0xAA28); (0xAA40, 0xAA42); (0xAA44, 0xAA4B);
   (0xAA50, 0xAA59); (0xAA60, 0xAA76); (0xAA7A, 0xAA7A); (0xAA7E, 0xAAAF); (0xAAB1, 0xAAB1);
   (0xAAB5, 0xAAB6); (0xAAB9, 0xAABD); (0xAAC0, 0xAAC0); (0xAAC2, 0xAAC2); (0xAADB, 0xAADD);
   (0xAAE0, 0xAAEA); (0xAAF2, 0xAAF4); (0xAB01, 0xAB06); (0xAB09, 0xAB0E); (0xAB11, 0xAB16);
   (0xAB20, 0xAB26); (0xAB28, 0xAB2E); (0xAB30, 0xAB5A); (0xAB5C, 0xAB69); (0xAB70, 0xABE2);
   (0xABF0, 0xABF9); (0xAC00, 0xD7A3); (0xD7B0, 0xD7C6); (0xD7CB, 0xD7FB); (0xF900, 0xFA6D);
   (0xFA70, 0xFAD9); (0xFB00, 0xFB06); (0xFB13, 0xFB17); (0xFB1D, 0xFB1D); (0xFB1F, 0xFB28);
   (0xFB2A, 0xFB36); (0xFB38, 0xFB3C); (0xFB3E, 0xFB3E); (0xFB40, 0xFB41); (0xFB43, 0xFB44);
   (0xFB46, 0xFBB1); (0xFBD3, 0xFD3D); (0xFD50, 0xFD8F); (0xFD92, 0xFDC7); (0xFDF0, 0xFDFB);
   (0xFE70, 0xFE74); (0xFE76, 0xFEFC); (0xFF10, 0xFF19); (0xFF21, 0xFF3A); (0xFF41, 0xFF5A);
   (0xFF66, 0xFFBE); (0xFFC2, 0xFFC7); (0xFFCA, 0xFFCF); (0xFFD2, 0xFFD7); (0xFFDA, 0xFFDC);
   (0x10000, 0x1000B); (0x1000D, 0x10026); (0x10028, 0x1003A); (0x1003C, 0x1003D);
   (0x1003F, 0x1004D); (0x10050, 0x1005D); (0x10080, 0x100FA); (0x10107, 0x10133);
   (0x10140, 0x10178); (0x1018A, 0x1018B); (0x10280, 0x1029C); (0x102A0, 0x102D0);
   (0x102E1, 0x102FB); (0x10300, 0x10323); (0x1032D, 0x1034A); (0x10350, 0x10375);
   (0x10380, 0x1039D); (0x103A0, 0x103C3); (0x103C8, 0x103CF); (0x103D1, 0x103D5);
   (0x10400, 0x1049D); (0x104A0, 0x104A9); (0x104B0, 0x104D3); (0x104D8, 0x104FB);
   (0x10500, 0x10527); (0x10530, 0x10563); (0x10570, 0x1057A); (0x1057C, 0x1058A);
   (0x1058C, 0x10592); (0x10594, 0x10595); (0x10597, 0x105A1); (0x105A3, 0x105B1);
   (0x105B3, 0x105B9); (0x105BB, 0x105BC); (0x10600, 0x10736); (0x10740, 0x10755);
   (0x10760, 0x10767); (0x10780, 0x10785); (0x10787, 0x107B0); (0x107B2, 0x107BA);
   (0x10800, 0x10805); (0x10808, 0x10808); (0x1080A, 0x10835); (0x10837, 0x10838);
   (0x1083C, 0x1083C); (0x1083F, 0x10855); (0x10858, 0x10876); (0x10879, 0x1089E);
   (0x108A7, 0x108AF); (0x108E0, 0x108F2); (0x108F4, 0x108F5); (0x108FB, 0x1091B);
   (0x10920, 0x10939); (0x10980, 0x109B7); (0x109BC, 0x109CF); (0x109D2, 0x10A00);
   (0x10A10, 0x10A13); (0x10A15, 0x10A17); (0x10A19, 0x10A35); (0x10A40, 0x10A48);
   (0x10A60, 0x10A7E); (0x10A80, 0x10A9F); (0x10AC0, 0x10AC7); (0x10AC9, 0x10AE4);
   (0x10AEB, 0x10AEF); (0x10B00, 0x10B35); (0x10B40, 0x10B55); (0x10B58, 0x10B72);
   (0x10B78, 0x10B91); (0x10BA9, 0x10BAF); (0x10C00, 0x10C48); (0x10C80, 0x10CB2);
   (0x10CC0, 0x10CF2); (0x10CFA, 0x10D23); (0x10D30, 0x10D39); (0x10E60, 0x10E7E);
   (0x10E80, 0x10EA9); (0x10EB0, 0x10EB1); (0x10F00, 0x10F27); (0x10F30, 0x10F45);
   (0x10F51, 0x10F54); (0x10F70, 0x10F81); (0x10FB0, 0x10FCB); (0x10FE0, 0x10FF6);
   (0x11003, 0x11037); (0x11052, 0x1106F); (0x11071, 0x11072); (0x11075, 0x11075);
   (0x11083, 0x110AF); (0x110D0, 0x110E8); (0x110F0, 0x110F9); (0x11103, 0x11126);
   (0x11136, 0x1113F); (0x11144, 0x11144); (0x11147, 0x11147); (0x11150, 0x11172);
   (0x11176, 0x11176); (0x11183, 0x111B2); (0x111C1, 0x111C4); (0x111D0, 0x111DA);
   (0x111DC, 0x111DC); (0x111E1, 0x111F4); (0x11200, 0x11211); (0x11213, 0x1122B);
   (0x11280, 0x11286); (0x11288, 0x11288); (0x1128A, 0x1128D); (0x1128F, 0x1129D);
   (0x1129F, 0x112A8); (0x112B0, 0x112DE); (0x112F0, 0x112F9); (0x11305, 0x1130C);
   (0x1130F, 0x11310); (0x11313, 0x11328); (0x1132A, 0x11330); (0x11332, 0x11333);
   (0x11335, 0x11339); (0x1133D, 0x1133D); (0x11350, 0x11350); (0x1135D, 0x11361);
   (0x11400, 0x11434); (0x11447, 0x1144A); (0x11450, 0x11459); (0x1145F, 0x11461);
   (0x11480, 0x114AF); (0x114C4, 0x114C5); (0x114C7, 0x114C7); (0x114D0, 0x114D9);
   (0x11580, 0x115AE); (0x115D8, 0x115DB); (0x11600, 0x1162F); (0x11644, 0x11644);
   (0x11650, 0x11659); (0x11680, 0x116AA); (0x116B8, 0x116B8); (0x116C0, 0x116C9);
   (0x11700, 0x1171A); (0x11730, 0x1173B); (0x11740, 0x11746); (0x11800, 0x1182B);
   (0x118A0, 0x118F2); (0x118FF, 0x11906); (0x11909, 0x11909); (0x1190C, 0x11913);
   (0x11915, 0x11916); (0x11918, 0x1192F); (0x1193F, 0x1193F); (0x11941, 0x11941);
   (0x11950, 0x11959); (0x119A0, 0x119A7); (0x119AA, 0x119D0); (0x119E1, 0x119E1);
   (0x119E3, 0x119E3); (0x11A00, 0x11A00); (0x11A0B, 0x11A32); (0x11A3A, 0x11A3A);
   (0x11A50, 0x11A50); (0x11A5C, 0x11A89); (0x11A9D, 0x11A9D); (0x11AB0, 0x11AF8);
   (0x11C00, 0x11C08); (0x11C0A, 0x11C2E); (0x11C40, 0x11C40); (0x11C50, 0x11C6C);
   (0x11C72, 0x11C8F); (0x11D00, 0x11D06); (0x11D08, 0x11D09); (0x11D0B, 0x11D30);
   (0x11D46, 0x11D46); (0x11D50, 0x11D59); (0x11D60, 0x11D65); (0x11D67, 0x11D68);
   (0x11D6A, 0x11D89); (0x11D98, 0x11D98); (0x11DA0, 0x11DA9); (0x11EE0, 0x11EF2);
   (0x11FB0, 0x11FB0); (0x11FC0, 0x11FD4); (0x12000, 0x12399); (0x12400, 0x1246E);
   (0x12480, 0x12543); (0x12F90, 0x12FF0); (0x13000, 0x1342E); (0x14400, 0x14646);
   (0x16800, 0x16A38); (0x16A40, 0x16A5E); (0x16A60, 0x16A69); (0x16A70, 0x16ABE);
   (0x16AC0, 0x16AC9); (0x16AD0, 0x16AED); (0x16B00, 0x16B2F); (0x16B40, 0x16B43);
   (0x16B50, 0x16B59); (0x16B5B, 0x16B61); (0x16B63, 0x16B77); (0x16B7D, 0x16B8F);
   (0x16E40, 0x16E96); (0x16F00, 0x16F4A); (0x16F50, 0x16F50); (0x16F93, 0x16F9F);
   (0x16FE0, 0x16FE1); (0x16FE3, 0x16FE3); (0x17000, 0x187F7); (0x18800, 0x18CD5);
   (0x18D00, 0x18D08); (0x1AFF0, 0x1AFF3); (0x1AFF5, 0x1AFFB); (0x1AFFD, 0x1AFFE);
   (0x1B000, 0x1B122); (0x1B150, 0x1B152); (0x1B164, 0x1B167); (0x1B170, 0x1B2FB);
   (0x1BC00, 0x1BC6A); (0x1BC70, 0x1BC7C); (0x1BC80, 0x1BC88); (0x1BC90, 0x1BC99);
   (0x1D2E0, 0x1D2F3); (0x1D360, 0x1D378); (0x1D400, 0x1D454); (0x1D456, 0x1D49C);
   (0x1D49E, 0x1D49F); (0x1D4A2, 0x1D4A2); (0x1D4A5, 0x1D4A6); (0x1D4A9, 0x1D4AC);
   (0x1D4AE, 0x1D4B9); (0x1D4BB, 0x1D4BB); (0x1D4BD, 0x1D4C3); (0x1D4C5, 0x1D505);
   (0x1D507, 0x1D50A); (0x1D50D, 0x1D514); (0x1D516, 0x1D51C); (0x1D51E, 0x1D539);
   (0x1D53B, 0x1D53E); (0x1D540, 0x1D544); (0x1D546, 0x1D546); (0x1D54A, 0x1D550);
   (0x1D552, 0x1D6A5); (0x1D6A8, 0x1D6C0); (0x1D6C2, 0x1D6DA); (0x1D6DC, 0x1D6FA);
   (0x1D6FC, 0x1D714); (0x1D716, 0x1D734); (0x1D736, 0x1D74E); (0x1D750, 0x1D76E);
   (0x1D770, 0x1D788); (0x1D78A, 0x1D7A8); (0x1D7AA, 0x1D7C2); (0x1D7C4, 0x1D7CB);
   (0x1D7CE, 0x1D7FF); (0x1DF00, 0x1DF1E); (0x1E100, 0x1E12C); (0x1E137, 0x1E13D);
   (0x1E140, 0x1E149); (0x1E14E, 0x1E14E); (0x1E290, 0x1E2AD); (0x1E2C0, 0x1E2EB);
   (0x1E2F0, 0x1E2F9); (0x1E7E0, 0x1E7E6); (0x1E7E8, 0x1E7EB); (0x1E7ED, 0x1E7EE);
   (0x1E7F0, 0x1E7FE); (0x1E800, 0x1E8C4); (0x1E8C7, 0x1E8CF); (0x1E900, 0x1E943);
   (0x1E94B, 0x1E94B); (0x1E950, 0x1E959); (0x1EC71, 0x1ECAB); (0x1ECAD, 0x1ECAF);
   (0x1ECB1, 0x1ECB4); (0x1ED01, 0x1ED2D); (0x1ED2F, 0x1ED3D); (0x1EE00, 0x1EE03);
   (0x1EE05, 0x1EE1F); (0x1EE21, 0x1EE22); (0x1EE24, 0x1EE24); (0x1EE27, 0x1EE27);
   (0x1EE29, 0x1EE32); (0x1EE34, 0x1EE37); (0x1EE39, 0x1EE39); (0x1EE3B, 0x1EE3B);
   (0x1EE42, 0x1EE42); (0x1EE47, 0x1EE47); (0x1EE49, 0x1EE49); (0x1EE4B, 0x1EE4B);
   (0x1EE4D, 0x1EE4F); (0x1EE51, 0x1EE52); (0x1EE54, 0x1EE54); (0x1EE57, 0x1EE57);
   (0x1EE59, 0x1EE59); (0x1EE5B, 0x1EE5B); (0x1EE5D, 0x1EE5D); (0x1EE5F, 0x1EE5F);
   (0x1EE61, 0x1EE62); (0x1EE64, 0x1EE64); (0x1EE67, 0x1EE6A); (0x1EE6C, 0x1EE72);
   (0x1EE74, 0x1EE77); (0x1EE79, 0x1EE7C); (0x1EE7E, 0x1EE7E); (0x1EE80, 0x1EE89);
   (0x1EE8B, 0x1EE9B); (0x1EEA1, 0x1EEA3); (0x1EEA5, 0x1EEA9); (0x1EEAB, 0x1EEBB);
   (0x1F100, 0x1F10C); (0x1FBF0, 0x1FBF9); (0x20000, 0x2A6DF); (0x2A700, 0x2B738);
   (0x2B740, 0x2B81D); (0x2B820, 0x2CEA1); (0x2CEB0, 0x2EBE0); (0x2F800, 0x2FA1D);
   (0x30000, 0x3134A)
  ].

(** The final-sigma rule of [str.lower] looks for a cased code point
    across case-ignorable ones; it tests for cased only a code point that
    is not case-ignorable, and [cased_ranges] lists those (above U+00FF). *)
Definition cased_ranges : list (N * N) :=
  [
   (0x100, 0x1BA); (0x1BC, 0x1BF); (0x1C4, 0x293); (0x295, 0x2AF); (0x370, 0x373);
   (0x376, 0x377); (0x37B, 0x37D); (0x37F, 0x37F); (0x386, 0x386); (0x388, 0x38A);
   (0x38C, 0x38C); (0x38E, 0x3A1); (0x3A3, 0x3F5); (0x3F7, 0x481); (0x48A, 0x52F);
   (0x531, 0x556); (0x560, 0x588); (0x10A0, 0x10C5); (0x10C7, 0x10C7); (0x10CD, 0x10CD);
   (0x10D0, 0x10FA); (0x10FD, 0x10FF); (0x13A0, 0x13F5); (0x13F8, 0x13FD); (0x1C80, 0x1C88);
   (0x1C90, 0x1CBA); (0x1CBD, 0x1CBF); (0x1D00, 0x1D2B); (0x1D6B, 0x1D77); (0x1D79, 0x1D9A);
   (0x1E00, 0x1F15); (0x1F18, 0x1F1D); (0x1F20, 0x1F45); (0x1F48, 0x1F4D); (0x1F50, 0x1F57);
   (0x1F59, 0x1F59); (0x1F5B, 0x1F5B); (0x1F5D, 0x1F5D); (0x1F5F, 0x1F7D); (0x1F80, 0x1FB4);
   (0x1FB6, 0x1FBC); (0x1FBE, 0x1FBE); (0x1FC2, 0x1FC4); (0x1FC6, 0x1FCC); (0x1FD0, 0x1FD3);
   (0x1FD6, 0x1FDB); (0x1FE0, 0x1FEC); (0x1FF2, 0x1FF4); (0x1FF6, 0x1FFC); (0x2102, 0x2102);
   (0x2107, 0x2107); (0x210A, 0x2113); (0x2115, 0x2115); (0x2119, 0x211D); (0x2124, 0x2124);
   (0x2126, 0x2126); (0x2128, 0x2128); (0x212A, 0x212D); (0x212F, 0x2134); (0x2139, 0x2139);
   (0x213C, 0x213F); (0x2145, 0x2149); (0x214E, 0x214E); (0x2160, 0x217F); (0x2183, 0x2184);
   (0x24B6, 0x24E9); (0x2C00, 0x2C7B); (0x2C7E, 0x2CE4); (0x2CEB, 0x2CEE); (0x2CF2, 0x2CF3);
   (0x2D00, 0x2D25); (0x2D27, 0x2D27); (0x2D2D, 0x2D2D); (0xA640, 0xA66D); (0xA680, 0xA69B);
   (0xA722, 0xA76F); (0xA771, 0xA787); (0xA78B, 0xA78E); (0xA790, 0xA7CA); (0xA7D0, 0xA7D1);
   (0xA7D3, 0xA7D3); (0xA7D5, 0xA7D9); (0xA7F5, 0xA7F6); (0xA7FA, 0xA7FA); (0xAB30, 0xAB5A);
   (0xAB60, 0xAB68); (0xAB70, 0xABBF); (0xFB00, 0xFB06); (0xFB13, 0xFB17); (0xFF21, 0xFF3A);
   (0xFF41, 0xFF5A); (0x10400, 0x1044F); (0x104B0, 0x104D3); (0x104D8, 0x104FB);
   (0x10570, 0x1057A); (0x1057C, 0x1058A); (0x1058C, 0x10592); (0x10594, 0x10595);
   (0x10597, 0x105A1); (0x105A3, 0x105B1); (0x105B3, 0x105B9); (0x105BB, 0x105BC);
   (0x10C80, 0x10CB2); (0x10CC0, 0x10CF2); (0x118A0, 0x118DF); (0x16E40, 0x16E7F);
   (0x1D400, 0x1D454); (0x1D456, 0x1D49C); (0x1D49E, 0x1D49F); (0x1D4A2, 0x1D4A2);
   (0x1D4A5, 0x1D4A6); (0x1D4A9, 0x1D4AC); (0x1D4AE, 0x1D4B9); (0x1D4BB, 0x1D4BB);
   (0x1D4BD, 0x1D4C3); (0x1D4C5, 0x1D505); (0x1D507, 0x1D50A); (0x1D50D, 0x1D514);
   (0x1D516, 0x1D51C); (0x1D51E, 0x1D539); (0x1D53B, 0x1D53E); (0x1D540, 0x1D544);
   (0x1D546, 0x1D546); (0x1D54A, 0x1D550); (0x1D552, 0x1D6A5); (0x1D6A8, 0x1D6C0);
   (0x1D6C2, 0x1D6DA); (0x1D6DC, 0x1D6FA); (0x1D6FC, 0x1D714); (0x1D716, 0x1D734);
   (0x1D736, 0x1D74E); (0x1D750, 0x1D76E); (0x1D770, 0x1D788); (0x1D78A, 0x1D7A8);
   (0x1D7AA, 0x1D7C2); (0x1D7C4, 0x1D7CB); (0x1DF00, 0x1DF09); (0x1DF0B, 0x1DF1E);
   (0x1E900, 0x1E943); (0x1F130, 0x1F149); (0x1F150, 0x1F169); (0x1F170, 0x1F189)
  ].

Definition case_ignorable_ranges : list (N * N) :=
  [
   (0x2B0, 0x36F); (0x374, 0x375); (0x37A, 0x37A); (0x384, 0x385); (0x387, 0x387);
   (0x483, 0x489); (0x559, 0x559); (0x55F, 0x55F); (0x591, 0x5BD); (0x5BF, 0x5BF);
   (0x5C1, 0x5C2); (0x5C4, 0x5C5); (0x5C7, 0x5C7); (0x5F4, 0x5F4); (0x600, 0x605);
   (0x610, 0x61A); (0x61C, 0x61C); (0x640, 0x640); (0x64B, 0x65F); (0x670, 0x670);
   (0x6D6, 0x6DD); (0x6DF, 0x6E8); (0x6EA, 0x6ED); (0x70F, 0x70F); (0x711, 0x711);
   (0x730, 0x74A); (0x7A6, 0x7B0); (0x7EB, 0x7F5); (0x7FA, 0x7FA); (0x7FD, 0x7FD);
   (0x816, 0x82D); (0x859, 0x85B); (0x888, 0x888); (0x890, 0x891); (0x898, 0x89F);
   (0x8C9, 0x902); (0x93A, 0x93A); (0x93C, 0x93C); (0x941, 0x948); (0x94D, 0x94D);
   (0x951, 0x957); (0x962, 0x963); (0x971, 0x971); (0x981, 0x981); (0x9BC, 0x9BC);
   (0x9C1, 0x9C4); (0x9CD, 0x9CD); (0x9E2, 0x9E3); (0x9FE, 0x9FE); (0xA01, 0xA02);
   (0xA3C, 0xA3C); (0xA41, 0xA42); (0xA47, 0xA48); (0xA4B, 0xA4D); (0xA51, 0xA51);
   (0xA70, 0xA71); (0xA75, 0xA75); (0xA81, 0xA82); (0xABC, 0xABC); (0xAC1, 0xAC5);
   (0xAC7, 0xAC8); (0xACD, 0xACD); (0xAE2, 0xAE3); (0xAFA, 0xAFF); (0xB01, 0xB01);
   (0xB3C, 0xB3C); (0xB3F, 0xB3F); (0xB41, 0xB44); (0xB4D, 0xB4D); (0xB55, 0xB56);
   (0xB62, 0xB63); (0xB82, 0xB82); (0xBC0, 0xBC0); (0xBCD, 0xBCD); (0xC00, 0xC00);
   (0xC04, 0xC04); (0xC3C, 0xC3C); (0xC3E, 0xC40); (0xC46, 0xC48); (0xC4A, 0xC4D);
   (0xC55, 0xC56); (0xC62, 0xC63); (0xC81, 0xC81); (0xCBC, 0xCBC); (0xCBF, 0xCBF);
   (0xCC6, 0xCC6); (0xCCC, 0xCCD); (0xCE2, 0xCE3); (0xD00, 0xD01); (0xD3B, 0xD3C);
   (0xD41, 0xD44); (0xD4D, 0xD4D); (0xD62, 0xD63); (0xD81, 0xD81); (0xDCA, 0xDCA);
   (0xDD2, 0xDD4); (0xDD6, 0xDD6); (0xE31, 0xE31); (0xE34, 0xE3A); (0xE46, 0xE4E);
   (0xEB1, 0xEB1); (0xEB4, 0xEBC); (0xEC6, 0xEC6); (0xEC8, 0xECD); (0xF18, 0xF19);
   (0xF35, 0xF35); (0xF37, 0xF37); (0xF39, 0xF39); (0xF71, 0xF7E); (0xF80, 0xF84);
   (0xF86, 0xF87); (0xF8D, 0xF97); (0xF99, 0xFBC); (0xFC6, 0xFC6); (0x102D, 0x1030);
   (0x1032, 0x1037); (0x1039, 0x103A); (0x103D, 0x103E); (0x1058, 0x1059); (0x105E, 0x1060);
   (0x1071, 0x1074); (0x1082, 0x1082); (0x1085, 0x1086); (0x108D, 0x108D); (0x109D, 0x109D);
   (0x10FC, 0x10FC); (0x135D, 0x135F); (0x1712, 0x1714); (0x1732, 0x1733); (0x1752, 0x1753);
   (0x1772, 0x1773); (0x17B4, 0x17B5); (0x17B7, 0x17BD); (0x17C6, 0x17C6); (0x17C9, 0x17D3);
   (0x17D7, 0x17D7); (0x17DD, 0x17DD); (0x180B, 0x180F); (0x1843, 0x1843); (0x1885, 0x1886);
   (0x18A9, 0x18A9); (0x1920, 0x1922); (0x1927, 0x1928); (0x1932, 0x1932); (0x1939, 0x193B);
   (0x1A17, 0x1A18); (0x1A1B, 0x1A1B); (0x1A56, 0x1A56); (0x1A58, 0x1A5E); (0x1A60, 0x1A60);
   (0x1A62, 0x1A62); (0x1A65, 0x1A6C); (0x1A73, 0x1A7C); (0x1A7F, 0x1A7F); (0x1AA7, 0x1AA7);
   (0x1AB0, 0x1ACE); (0x1B00, 0x1B03); (0x1B34, 0x1B34); (0x1B36, 0x1B3A); (0x1B3C, 0x1B3C);
   (0x1B42, 0x1B42); (0x1B6B, 0x1B73); (0x1B80, 0x1B81); (0x1BA2, 0x1BA5); (0x1BA8, 0x1BA9);
   (0x1BAB, 0x1BAD); (0x1BE6, 0x1BE6); (0x1BE8, 0x1BE9); (0x1BED, 0x1BED); (0x1BEF, 0x1BF1);
   (0x1C2C, 0x1C33); (0x1C36, 0x1C37); (0x1C78, 0x1C7D); (0x1CD0, 0x1CD2); (0x1CD4, 0x1CE0);
   (0x1CE2, 0x1CE8); (0x1CED, 0x1CED); (0x1CF4, 0x1CF4); (0x1CF8, 0x1CF9); (0x1D2C, 0x1D6A);
   (0x1D78, 0x1D78); (0x1D9B, 0x1DFF); (0x1FBD, 0x1FBD); (0x1FBF, 0x1FC1); (0x1FCD, 0x1FCF);
   (0x1FDD, 0x1FDF); (0x1FED, 0x1FEF); (0x1FFD, 0x1FFE); (0x200B, 0x200F); (0x2018, 0x2019);
   (0x2024, 0x2024); (0x2027, 0x2027); (0x202A, 0x202E); (0x2060, 0x2064); (0x2066, 0x206F);
   (0x2071, 0x2071); (0x207F, 0x207F); (0x2090, 0x209C); (0x20D0, 0x20F0); (0x2C7C, 0x2C7D);
   (0x2CEF, 0x2CF1); (0x2D6F, 0x2D6F); (0x2D7F, 0x2D7F); (0x2DE0, 0x2DFF); (0x2E2F, 0x2E2F);
   (0x3005, 0x3005); (0x302A, 0x302D); (0x3031, 0x3035); (0x303B, 0x303B); (0x3099, 0x309E);
   (0x30FC, 0x30FE); (0xA015, 0xA015); (0xA4F8, 0xA4FD); (0xA60C, 0xA60C); (0xA66F, 0xA672);
   (0xA674, 0xA67D); (0xA67F, 0xA67F); (0xA69C, 0xA69F); (0xA6F0, 0xA6F1); (0xA700, 0xA721);
   (0xA770, 0xA770); (0xA788, 0xA78A); (0xA7F2, 0xA7F4); (0xA7F8, 0xA7F9); (0xA802, 0xA802);
   (0xA806, 0xA806); (0xA80B, 0xA80B); (0xA825, 0xA826); (0xA82C, 0xA82C); (0xA8C4, 0xA8C5);
   (0xA8E0, 0xA8F1); (0xA8FF, 0xA8FF); (0xA926, 0xA92D); (0xA947, 0xA951); (0xA980, 0xA982);
   (0xA9B3, 0xA9B3); (0xA9B6, 0xA9B9); (0xA9BC, 0xA9BD); (0xA9CF, 0xA9CF); (0xA9E5, 0xA9E6);
   (0xAA29, 0xAA2E); (0xAA31, 0xAA32); (0xAA35, 0xAA36); (0xAA43, 0xAA43); (0xAA4C, 0xAA4C);
   (0xAA70, 0xAA70); (0xAA7C, 0xAA7C); (0xAAB0, 0xAAB0); (0xAAB2, 0xAAB4); (0xAAB7, 0xAAB8);
   (0xAABE, 0xAABF); (0xAAC1, 0xAAC1); (0xAADD, 0xAADD); (0xAAEC, 0xAAED); (0xAAF3, 0xAAF4);
   (0xAAF6, 0xAAF6); (0xAB5B, 0xAB5F); (0xAB69, 0xAB6B); (0xABE5, 0xABE5); (0xABE8, 0xABE8);
   (0xABED, 0xABED); (0xFB1E, 0xFB1E); (0xFBB2, 0xFBC2); (0xFE00, 0xFE0F); (0xFE13, 0xFE13);
   (0xFE20, 0xFE2F); (0xFE52, 0xFE52); (0xFE55, 0xFE55); (0xFEFF, 0xFEFF); (0xFF07, 0xFF07);
   (0xFF0E, 0xFF0E); (0xFF1A, 0xFF1A); (0xFF3E, 0xFF3E); (0xFF40, 0xFF40); (0xFF70, 0xFF70);
   (0xFF9E, 0xFF9F); (0xFFE3, 0xFFE3); (0xFFF9, 0xFFFB); (0x101FD, 0x101FD); (0x102E0, 0x102E0);
   (0x10376, 0x1037A); (0x10780, 0x10785); (0x10787, 0x107B0); (0x107B2, 0x107BA);
   (0x10A01, 0x10A03); (0x10A05, 0x10A06); (0x10A0C, 0x10A0F); (0x10A38, 0x10A3A);
   (0x10A3F, 0x10A3F); (0x10AE5, 0x10AE6); (0x10D24, 0x10D27); (0x10EAB, 0x10EAC);
   (0x10F46, 0x10F50); (0x10F82, 0x10F85); (0x11001, 0x11001); (0x11038, 0x11046);
   (0x11070, 0x11070); (0x11073, 0x11074); (0x1107F, 0x11081); (0x110B3, 0x110B6);
   (0x110B9, 0x110BA); (0x110BD, 0x110BD); (0x110C2, 0x110C2); (0x110CD, 0x110CD);
   (0x11100, 0x11102); (0x11127, 0x1112B); (0x1112D, 0x11134); (0x11173, 0x11173);
   (0x11180, 0x11181); (0x111B6, 0x111BE); (0x111C9, 0x111CC); (0x111CF, 0x111CF);
   (0x1122F, 0x11231); (0x11234, 0x11234); (0x11236, 0x11237); (0x1123E, 0x1123E);
   (0x112DF, 0x112DF); (0x112E3, 0x112EA); (0x11300, 0x11301); (0x1133B, 0x1133C);
   (0x11340, 0x11340); (0x11366, 0x1136C); (0x11370, 0x11374); (0x11438, 0x1143F);
   (0x11442, 0x11444); (0x11446, 0x11446); (0x1145E, 0x1145E); (0x114B3, 0x114B8);
   (0x114BA, 0x114BA); (0x114BF, 0x114C0); (0x114C2, 0x114C3); (0x115B2, 0x115B5);
   (0x115BC, 0x115BD); (0x115BF, 0x115C0); (0x115DC, 0x115DD); (0x11633, 0x1163A);
   (0x1163D, 0x1163D); (0x1163F, 0x11640); (0x116AB, 0x116AB); (0x116AD, 0x116AD);
   (0x116B0, 0x116B5); (0x116B7, 0x116B7); (0x1171D, 0x1171F); (0x11722, 0x11725);
   (0x11727, 0x1172B); (0x1182F, 0x11837); (0x11839, 0x1183A); (0x1193B, 0x1193C);
   (0x1193E, 0x1193E); (0x11943, 0x11943); (0x119D4, 0x119D7); (0x119DA, 0x119DB);
   (0x119E0, 0x119E0); (0x11A01, 0x11A0A); (0x11A33, 0x11A38); (0x11A3B, 0x11A3E);
   (0x11A47, 0x11A47); (0x11A51, 0x11A56); (0x11A59, 0x11A5B); (0x11A8A, 0x11A96);
   (0x11A98, 0x11A99); (0x11C30, 0x11C36); (0x11C38, 0x11C3D); (0x11C3F, 0x11C3F);
   (0x11C92, 0x11CA7); (0x11CAA, 0x11CB0); (0x11CB2, 0x11CB3); (0x11CB5, 0x11CB6);
   (0x11D31, 0x11D36); (0x11D3A, 0x11D3A); (0x11D3C, 0x11D3D); (0x11D3F, 0x11D45);
   (0x11D47, 0x11D47); (0x11D90, 0x11D91); (0x11D95, 0x11D95); (0x11D97, 0x11D97);
   (0x11EF3, 0x11EF4); (0x13430, 0x13438); (0x16AF0, 0x16AF4); (0x16B30, 0x16B36);
   (0x16B40, 0x16B43); (0x16F4F, 0x16F4F); (0x16F8F, 0x16F9F); (0x16FE0, 0x16FE1);
   (0x16FE3, 0x16FE4); (0x1AFF0, 0x1AFF3); (0x1AFF5, 0x1AFFB); (0x1AFFD, 0x1AFFE);
   (0x1BC9D, 0x1BC9E); (0x1BCA0, 0x1BCA3); (0x1CF00, 0x1CF2D); (0x1CF30, 0x1CF46);
   (0x1D167, 0x1D169); (0x1D173, 0x1D182); (0x1D185, 0x1D18B); (0x1D1AA, 0x1D1AD);
   (0x1D242, 0x1D244); (0x1DA00, 0x1DA36); (0x1DA3B, 0x1DA6C); (0x1DA75, 0x1DA75);
   (0x1DA84, 0x1DA84); (0x1DA9B, 0x1DA9F); (0x1DAA1, 0x1DAAF); (0x1E000, 0x1E006);
   (0x1E008, 0x1E018); (0x1E01B, 0x1E021); (0x1E023, 0x1E024); (0x1E026, 0x1E02A);
   (0x1E130, 0x1E13D); (0x1E2AE, 0x1E2AE); (0x1E2EC, 0x1E2EF); (0x1E8D0, 0x1E8D6);
   (0x1E944, 0x1E94B); (0x1F3FB, 0x1F3FF); (0xE0001, 0xE0001); (0xE0020, 0xE007F);
   (0xE0100, 0xE01EF)
  ].

Definition to_upper (c : N) : list N := case_map upper_runs upper_special c.
Definition to_lower (c : N) : list N := case_map lower_runs lower_special c.
Definition is_alnum (c : N) : bool := in_ranges word_ranges c.
Definition is_cased (c : N) : bool := in_ranges cased_ranges c.
Definition is_case_ignorable (c : N) : bool := in_ranges case_ignorable_ranges c.

End Unicode.

(** ** Python built-ins *)

Module Py.

(** A Python [str] is a sequence of Unicode code points. *)
Abbreviation char := N.
Abbreviation str := (list N).

Definition ord (a : ascii) : char := N_of_ascii a.
Definition py (s : string) : str := List.map N_of_ascii (list_ascii_of_string s).

(** [str.isspace] on one code point; the same set is what [\s] matches in a
    [str] pattern and what [str.strip()] and [str.split()] treat as blank. *)
Definition isspace (c : char) : bool :=
  (0x09 <=? c) && (c <=? 0x0D) || (0x1C <=? c) && (c <=? 0x20)
  || (c =? 0x85) || (c =? 0xA0) || (c =? 0x1680)
  || (0x2000 <=? c) && (c <=? 0x200A)
  || (c =? 0x2028) || (c =? 0x2029) || (c =? 0x202F) || (c =? 0x205F)
  || (c =? 0x3000).

Definition is_upper_ascii (c : char) : bool := (0x41 <=? c) && (c <=? 0x5A).
Definition is_lower_ascii (c : char) : bool := (0x61 <=? c) && (c <=? 0x7A).
(** The class [[A-Za-z]]. *)
Definition is_ascii_letter (c : char) : bool := is_upper_ascii c || is_lower_ascii c.
Definition is_ascii (c : char) : bool := c <? 0x80.

(** The class [\w] of a [str] pattern: alphanumeric code points and the
    underscore.  The code points up to U+00FF are written out, the others
    are looked up in the table. *)
Definition is_word (c : char) : bool :=
  (0x30 <=? c) && (c <=? 0x39) || is_ascii_letter c || (c =? 0x5F)
  || (c =? 0xAA) || (c =? 0xB2) || (c =? 0xB3) || (c =? 0xB5) || (c =? 0xB9)
  || (c =? 0xBA) || (0xBC <=? c) && (c <=? 0xBE)
  || (0xC0 <=? c) && (c <=? 0xD6) || (0xD8 <=? c) && (c <=? 0xF6)
  || (0xF8 <=? c) && (c <=? 0xFF)
  || (0xFF <? c) && Unicode.is_alnum c.

(** The upper case and the lower case of one code point: one code point
    or several (U+00DF upper-cases to two).  The code points up to U+00FF
    are written out (U+00B5 and U+00FF leave that range), the others are
    looked up in the tables. *)
Definition upper_char (c : char) : str :=
  if is_lower_ascii c then [c - 0x20]
  else if c =? 0xB5 then [0x39C]
  else if c =? 0xDF then [0x53; 0x53]
  else if (0xE0 <=? c) && (c <=? 0xFE) && negb (c =? 0xF7) then [c - 0x20]
  else if c =? 0xFF then [0x178]
  else if c <? 0x100 then [c]
  else Unicode.to_upper c.

Definition lower_char (c : char) : str :=
  if is_upper_ascii c then [c + 0x20]
  else if (0xC0 <=? c) && (c <=? 0xDE) && negb (c =? 0xD7) then [c + 0x20]
  else if c <? 0x100 then [c]
  else Unicode.to_lower c.

(** [s.upper()]: code point by code point. *)
Definition upper (s : str) : str := flat_map upper_char s.

(** Cased and case-ignorable code points, as the final-sigma rule of
    [str.lower] consults them: [is_cased] is only asked of a code point
    that is not case-ignorable. *)
Definition is_cased (c : char) : bool :=
  if c <? 0x100
  then is_ascii_letter c || (c =? 0xAA) || (c =? 0xB5) || (c =? 0xBA)
       || (0xC0 <=? c) && (c <=? 0xD6) || (0xD8 <=? c) && (c <=? 0xF6) || (0xF8 <=? c)
  else Unicode.is_cased c.

Definition is_case_ignorable (c : char) : bool :=
  if c <? 0x100
  then (c =? 0x27) || (c =? 0x2E) || (c =? 0x3A) || (c =? 0x5E) || (c =? 0x60)
       || (c =? 0xA8) || (c =? 0xAD) || (c =? 0xAF) || (c =? 0xB4) || (c =? 0xB7) || (c =? 0xB8)
  else Unicode.is_case_ignorable c.

(** The first code point of [s] that is not case-ignorable is cased. *)
Fixpoint cased_across_ignorable (s : str) : bool :=
  match s with
  | [] => false
  | c :: r => if is_case_ignorable c then cased_across_ignorable r else is_cased c
  end.

(** The lower case of U+03A3 (capital sigma) between [before], the code
    points before it from the nearest one on, and [after]: the final form
    U+03C2 after a cased code point and not before one, case-ignorable
    code points skipped on both sides; U+03C3 otherwise. *)
Definition lower_sigma (before after : str) : char :=
  if cased_across_ignorable before && negb (cased_across_ignorable after)
  then 0x3C2 else 0x3C3.

(** [s.lower()]: code point by code point, but for capital sigma. *)
Fixpoint lower_from (before : str) (s : str) : str :=
  match s with
  | [] => []
  | c :: r =>
      (if c =? 0x3A3 then [lower_sigma before r] else lower_char c)
      ++ lower_from (c :: before) r
  end.

Definition lower (s : str) : str := lower_from [] s.

(** [s.lstrip()], [s.rstrip()], [s.strip()] with no argument. *)
Fixpoint lstrip (s : str) : str :=
  match s with
  | [] => []
  | c :: r => if isspace c then lstrip r else s
  end.

Fixpoint rstrip (s : str) : str :=
  match s with
  | [] => []
  | c :: r =>
      match rstrip r with
      | [] => if isspace c then [] else [c]
      | r' => c :: r'
      end
  end.

Definition strip (s : str) : str := rstrip (lstrip s).

(** [s.split()] with no argument: the maximal runs of non-blank code
    points, in order; [cur] is the run being read. *)
Fixpoint split_from (cur : str) (s : str) : list str :=
  match s with
  | [] => match cur with [] => [] | _ => [cur] end
  | c :: r =>
      if isspace c
      then match cur with [] => split_from [] r | _ => cur :: split_from [] r end
      else split_from (cur ++ [c]) r
  end.

Definition split (s : str) : list str := split_from [] s.

(** [sep.join(parts)]. *)
Fixpoint join (sep : str) (parts : list str) : str :=
  match parts with
  | [] => []
  | [w] => w
  | w :: rest => w ++ sep ++ join sep rest
  end.

(** [s.startswith(prefix)], [s.endswith(suffix)] and [needle in s]. *)
Fixpoint startswith (s prefix : str) : bool :=
  match prefix, s with
  | [], _ => true
  | p :: prefix', c :: s' => (c =? p) && startswith s' prefix'
  | _ :: _, [] => false
  end.

Definition endswith (s suffix : str) : bool := startswith (rev s) (rev suffix).

Fixpoint contains (needle s : str) : bool :=
  startswith s needle
  || match s with
     | [] => false
     | _ :: r => contains needle r
     end.

(** [re.sub(r'\s+', ' ', s)]: every maximal run of blanks becomes one
    space; [in_run] says that the previous code point was a blank. *)
Fixpoint sub_blank_runs (in_run : bool) (s : str) : str :=
  match s with
  | [] => []
  | c :: r =>
      if isspace c
      then (if in_run then sub_blank_runs true r else 0x20 :: sub_blank_runs true r)
      else c :: sub_blank_runs false r
  end.

Definition re_sub_spaces (s : str) : str := sub_blank_runs false s.

(** [re.search(r"[^A-Za-z\s\-.]", s)] finds a match. *)
Definition allowed_char (c : char) : bool :=
  is_ascii_letter c || isspace c || (c =? ord "-") || (c =? ord ".").

Definition search_invalid_char (s : str) : bool := existsb (fun c => negb (allowed_char c)) s.

(** [re.findall(r"[A-Za-z]", s)]. *)
Definition findall_letters (s : str) : list str :=
  List.map (fun c => [c]) (List.filter is_ascii_letter s).

(** [re.search(r"(?<=\w)\.(?=\w)", s)] finds a match: the scan tries each
    position from the left; [prev] is the code point before the current
    position, which the look-behind inspects, and the look-ahead inspects
    the code point after the period. *)
Definition lookahead_word (s : str) : bool :=
  match s with
  | c :: _ => is_word c
  | [] => false
  end.

Definition lookbehind_word (prev : option char) : bool :=
  match prev with
  | Some c => is_word c
  | None => false
  end.

Fixpoint search_dot_from (prev : option char) (s : str) : bool :=
  match s with
  | [] => false
  | c :: r =>
      lookbehind_word prev && (c =? ord ".") && lookahead_word r
      || search_dot_from (Some c) r
  end.

Definition search_dot_between_words (s : str) : bool := search_dot_from None s.

End Py.

(** ** The one regular expression with a capture group

    [re.search(r"```json\s*({.*?})\s*```", text, re.DOTALL | re.IGNORECASE)],
    embedded as a backtracking matcher in continuation-passing style: a
    matcher consumes a prefix of the input and hands the rest to its
    continuation; when the continuation fails, the matcher tries its next
    alternative, in the order Python's engine tries them. *)

Module Re.
Import Py.

Section Matcher.
Context {A : Type}.

Definition cont := str -> option A.
Definition matcher := str -> cont -> option A.

(** One code point of a class. *)
Definition one (p : char -> bool) : matcher :=
  fun s k =>
    match s with
    | c :: r => if p c then k r else None
    | [] => None
    end.

Definition and_then (m1 m2 : matcher) : matcher :=
  fun s k => m1 s (fun r => m2 r k).

Definition nothing : matcher := fun s k => k s.

(** A sequence of classes, one code point each. *)
Definition classes (ps : list (char -> bool)) : matcher :=
  fold_right (fun p m => and_then (one p) m) nothing ps.

(** [p*], greedy: take one more code point when possible, and come back
    to stopping here when the rest fails. *)
Fixpoint star_greedy (p : char -> bool) (s : str) (k : cont) : option A :=
  match s with
  | c :: r =>
      if p c
      then match star_greedy p r k with
           | Some a => Some a
           | None => k s
           end
      else k s
  | [] => k []
  end.

(** [p*?], lazy: stop here when the rest succeeds, else take one more. *)
Fixpoint star_lazy (p : char -> bool) (s : str) (k : cont) : option A :=
  match k s with
  | Some a => Some a
  | None =>
      match s with
      | c :: r => if p c then star_lazy p r k else None
      | [] => None
      end
  end.
End Matcher.

Infix ">>" := and_then (at level 61, left associativity).

Definition exactly (c : char) : char -> bool := fun d => d =? c.

Definition ascii_lower (c : char) : char := if is_upper_ascii c then c + 0x20 else c.

(** A lower-case ASCII letter [p] of the pattern under [re.IGNORECASE]: it
    matches both ASCII cases, and [s] also matches U+017F (long s), the one
    other code point that the engine takes as a case variant of a letter
    of [json]. *)
Definition nocase (p : char) : char -> bool :=
  fun d => (ascii_lower d =? p) || (p =? ord "s") && (d =? 0x17F).

(** [.] under [re.DOTALL]. *)
Definition any : char -> bool := fun _ => true.

Definition text (s : str) : list (char -> bool) := List.map exactly s.
Definition text_nocase (s : str) : list (char -> bool) := List.map nocase s.

(** The end of the pattern, [\s*```], after group 1 has consumed the input
    from [s1] up to [s2]; the result is the text of group 1. *)
Definition closing (s1 : str) : cont :=
  fun s2 =>
    (star_greedy isspace >> classes (text (py "```")))
      s2 (fun _ => Some (take (length s1 - length s2) s1)).

(** Group 1, [({.*?})], and what follows it. *)
Definition group1 : cont :=
  fun s1 =>
    (one (exactly (ord "{")) >> star_lazy any >> one (exactly (ord "}"))) s1 (closing s1).

(** A match of the whole pattern that starts at the head of [s]; the
    result is [match.group(1)]. *)
Definition fence_match_at (s : str) : option str :=
  (classes (text (py "```")) >> classes (text_nocase (py "json")) >> star_greedy isspace)
    s group1.

(** [re.search]: the leftmost start position with a match; [match.group(1)]. *)
Fixpoint search_fence (s : str) : option str :=
  match fence_match_at s with
  | Some g => Some g
  | None =>
      match s with
      | [] => None
      | _ :: r => search_fence r
      end
  end.

End Re.

(** ** JSON values and the services the endpoints call *)

Module Json.
Import Py.

(** What [json.loads] and [request.get_json()] return, and what [jsonify]
    takes: [None], [bool], [int], [float], [str], [list], [dict]. *)
Inductive json :=
| JNull
| JBool (b : bool)
| JInt (z : Z)
| JFloat (f : float)
| JStr (s : str)
| JArr (l : list json)
| JObj (m : gmap str json).

(** Python truth value ([if not data]). *)
Definition truthy (v : json) : bool :=
  match v with
  | JNull => false
  | JBool b => b
  | JInt z => negb (z =? 0)%Z
  | JFloat f => negb (PrimFloat.eqb f 0%float)
  | JStr s => negb (bool_decide (s = []))
  | JArr l => match l with [] => false | _ => true end
  | JObj m => negb (bool_decide (m = ∅))
  end.

(** [type(v).__name__], as it appears in an [AttributeError] message. *)
Definition type_name (v : json) : str :=
  match v with
  | JNull => py "NoneType"
  | JBool _ => py "bool"
  | JInt _ => py "int"
  | JFloat _ => py "float"
  | JStr _ => py "str"
  | JArr _ => py "list"
  | JObj _ => py "dict"
  end.

(** [str(e)] for the [AttributeError] raised by [v.attr] on a value that
    has no such attribute. *)
Definition no_attribute (v : json) (attr : str) : str :=
  py "'" ++ type_name v ++ py "' object has no attribute '" ++ attr ++ py "'".

(** [d.get(key)] and [d.get(key, default)] on a [dict]. *)
Definition get (d : gmap str json) (key : str) : json := default JNull (d !! key).
Definition get_default (d : gmap str json) (key : str) (dflt : json) : json :=
  default dflt (d !! key).

(** [v == s] for a [str] literal [s]: only a [str] can be equal to it. *)
Definition eq_str (v : json) (s : str) : bool :=
  match v with
  | JStr t => bool_decide (t = s)
  | _ => false
  end.

(** [v in strs] for a list of [str] literals. *)
Definition in_strs (v : json) (strs : list str) : bool := existsb (eq_str v) strs.

(** The outcome of [json.loads(text)]. *)
Inductive loads_result :=
| Loaded (v : json)
| JSONDecodeError
| LoadsValueError (msg : str)  (* a [ValueError] of another class, with its [str(e)] *)
| LoadsRaised (msg : str).  (* any other exception, with its [str(e)] *)

(** The outcome of [client.chat.completions.create(...)] followed by
    [response.choices[0].message.content.strip()]: the content before it
    is stripped, or the exception one of these steps raised. *)
Inductive chat_result :=
| Content (reply : str)
| ChatRaised (msg : str).  (* any exception, with its [str(e)] *)

(** One remote call: the value passed as the model identifier, the name
    the prompt template is instantiated with, and the output-token cap. *)
Record chat_request := ChatRequest {
  chat_model : json;
  chat_name : str;
  chat_max_tokens : Z
}.

(** The library and remote behaviour an endpoint depends on; the sources
    reach them through module-level globals. *)
Record services := Services {
  json_loads : str -> loads_result;
  chat_create : chat_request -> chat_result;
  (** [str(v)], as an f-string formats a decoded value *)
  format_value : json -> str
}.

(** What the endpoint hands back to Flask: [jsonify(body), status], or an
    exception that no handler of the endpoint catches. *)
Inductive response :=
| Resp (status : Z) (body : gmap str json)
| Unhandled (msg : str).

(** A run of the endpoint: the remote calls it made, in order, and its
    response. *)
Record run := Run {
  calls : list chat_request;
  result : response
}.

Definition done (r : response) : run := Run [] r.

Definition error_body (msg : str) : gmap str json := {[ py "error" := JStr msg ]}.

End Json.

(** ** [app-precheck.py] *)

Module AppPrecheck.
Import Py Re Json.

Definition VALID_MODELS : list str :=
  [py "gpt-4.1"; py "gpt-4.1-mini"; py "gpt-4.1-nano"; py "gpt-4o-mini"].

(** [f"Invalid model. Choose from {VALID_MODELS}"]. *)
Definition invalid_model_message : str :=
  py "Invalid model. Choose from ['gpt-4.1', 'gpt-4.1-mini', 'gpt-4.1-nano', 'gpt-4o-mini']".

(** [precheck_name(name)]: the pair [(valid, reason)]. *)
Definition precheck_name (name : str) : bool * option str :=
  if search_invalid_char name then
    (false, Some (py "Invalid characters present"))
  else
    let letters := findall_letters name in
    if (length letters <? 3)%nat then
      (false, Some (py "Too few letters"))
    else if contains (py "--") name || contains (py "..") name then
      (false, Some (py "Consecutive punctuation"))
    else if search_dot_between_words name then
      (false, Some (py "Invalid dot formatting, must have spaces after dot(.)"))
    else
      (true, None).

(** [word[:1].upper() + word[1:].lower()]. *)
Definition capitalize_word (word : str) : str := upper (take 1 word) ++ lower (drop 1 word).

(** The normalisation of [predict]: the three assignments to [name]. *)
Definition normalize (raw : str) : str :=
  let name := strip raw in
  let name := strip (re_sub_spaces name) in
  join (py " ") (List.map capitalize_word (split name)).

Definition dict (items : list (str * json)) : gmap str json := list_to_map items.

Definition option_json (o : option str) : json :=
  match o with
  | Some s => JStr s
  | None => JNull
  end.

(** [json_str = match.group(1) if match else reply_content]. *)
Definition json_str (reply_content : str) : str :=
  match search_fence reply_content with
  | Some group1 => group1
  | None => reply_content
  end.

(** The inner [try] of [predict]: fence extraction, [json.loads] and the
    validation of the decoded reply; [reply_content] is already stripped.
    Its two handlers catch [JSONDecodeError] and every other [ValueError];
    any other exception goes to the handler of the [try] around it. *)
Definition parse_reply (sv : services) (name reply_content : str) : response :=
  match json_loads sv (json_str reply_content) with
  | JSONDecodeError =>
      Resp 500 (error_body (py "Invalid JSON response format from model"))
  | LoadsValueError msg =>
      Resp 500 (error_body msg)
  | LoadsRaised msg =>
      Resp 500 (error_body (py "OpenAI API error: " ++ msg))
  | Loaded (JObj result) =>
      let pred := get result (py "prediction") in
      if negb (in_strs pred [py "Realistic"; py "Not Realistic"]) then
        Resp 500 (error_body (py "Invalid prediction value from model: " ++ format_value sv pred))
      else if eq_str pred (py "Realistic") then
        Resp 200 (dict [(py "name", JStr name); (py "prediction", JStr (py "Realistic"))])
      else
        Resp 200 (dict [(py "name", JStr name);
                        (py "prediction", JStr (py "Not Realistic"));
                        (py "reason",
                         get_default result (py "reason") (JStr (py "Reason not provided by AI.")))])
  | Loaded v =>
      Resp 500 (error_body (py "OpenAI API error: " ++ no_attribute v (py "get")))
  end.

(** The remote call and what follows it (the [try] around it). *)
Definition classify (sv : services) (model : json) (name : str) : run :=
  let request := ChatRequest model name 60 in
  Run [request]
      match chat_create sv request with
      | ChatRaised msg => Resp 500 (error_body (py "OpenAI API error: " ++ msg))
      | Content reply => parse_reply sv name (strip reply)
      end.

(** The catch-all handler of [predict]. *)
Definition unexpected : run :=
  done (Resp 500 (error_body (py "An unexpected server error occurred"))).

(** [predict()], on the value [request.get_json()] returned. *)
Definition predict (sv : services) (data : json) : run :=
  if negb (truthy data) then
    done (Resp 400 (error_body (py "Invalid JSON payload")))
  else
    match data with
    | JObj d =>
        match get_default d (py "name") (JStr []) with
        | JStr raw =>
            let model := get_default d (py "model") (JStr (py "gpt-4.1-nano")) in
            let name := normalize raw in
            if bool_decide (name = []) then
              done (Resp 400 (error_body (py "No name provided")))
            else
              match precheck_name name with
              | (false, reason) =>
                  done (Resp 200 (dict [(py "name", JStr name);
                                        (py "prediction", JStr (py "Not Realistic"));
                                        (py "reason", option_json reason)]))
              | (true, _) =>
                  if negb (in_strs model VALID_MODELS) then
                    done (Resp 400 (error_body invalid_model_message))
                  else
                    classify sv model name
              end
        | _ => unexpected  (* [.strip()] on a value that is not a [str] *)
        end
    | _ => unexpected  (* [.get] on a value that is not a [dict] *)
    end.

End AppPrecheck.

(** ** [app-precheck-prompt-enhanment.py] *)

Module AppPrecheckPrompt.
Import Py Re Json.

Definition VALID_MODELS : list str :=
  [py "gpt-4.1"; py "gpt-4.1-mini"; py "gpt-4.1-nano"; py "gpt-4o-mini"].

Definition invalid_model_message : str :=
  py "Invalid model. Choose from ['gpt-4.1', 'gpt-4.1-mini', 'gpt-4.1-nano', 'gpt-4o-mini']".

Definition precheck_name (name : str) : bool * option str :=
  if search_invalid_char name then
    (false, Some (py "Invalid characters"))
  else if (length (findall_letters name) <? 3)%nat then
    (false, Some (py "Too few letters"))
  else if contains (py "--") name || contains (py "..") name then
    (false, Some (py "Consecutive punctuation"))
  else if search_dot_between_words name then
    (false, Some (py "Invalid dot formatting"))
  else
    (true, None).

Definition capitalize_word (word : str) : str := upper (take 1 word) ++ lower (drop 1 word).

Definition normalize (raw : str) : str :=
  let name := strip raw in
  let name := re_sub_spaces name in
  join (py " ") (List.map capitalize_word (split name)).

Definition dict (items : list (str * json)) : gmap str json := list_to_map items.

(** The [try] of [predict]: the call, then the first code point of the
    stripped reply. *)
Definition classify (sv : services) (model : json) (name : str) : run :=
  let request := ChatRequest model name 1 in
  Run [request]
      match chat_create sv request with
      | ChatRaised _ => Resp 500 (error_body (py "OpenAI API error"))
      | Content content =>
          let reply := strip content in
          match reply with
          | digit :: _ =>
              if digit =? ord "1" then
                Resp 200 (dict [(py "name", JStr name); (py "prediction", JStr (py "Realistic"))])
              else if digit =? ord "0" then
                Resp 200 (dict [(py "name", JStr name); (py "prediction", JStr (py "Not Realistic"))])
              else
                Resp 500 (error_body (py "Invalid response from model"))
          | [] => Resp 500 (error_body (py "Invalid response from model"))
          end
      end.

(** [predict()]; nothing catches the errors of the first lines here. *)
Definition predict (sv : services) (data : json) : run :=
  let data := if truthy data then data else JObj ∅ in
  match data with
  | JObj d =>
      match get_default d (py "name") (JStr []) with
      | JStr raw =>
          let model := get_default d (py "model") (JStr (py "gpt-4o-mini")) in
          let name := normalize raw in
          if bool_decide (name = []) then
            done (Resp 400 (error_body (py "No name provided")))
          else if negb (in_strs model VALID_MODELS) then
            done (Resp 400 (error_body invalid_model_message))
          else
            match precheck_name name with
            | (false, reason) =>
                done (Resp 200 (dict [(py "name", JStr name);
                                      (py "prediction", JStr (py "Not Realistic"))]))
            | (true, _) => classify sv model name
            end
      | v => done (Unhandled (no_attribute v (py "strip")))
      end
  | v => done (Unhandled (no_attribute v (py "get")))
  end.

End AppPrecheckPrompt.

(** ** [app.py] *)

Module App.
Import Py Re Json.

Definition VALID_MODELS : list str :=
  [py "gpt-4.1"; py "gpt-4.1-mini"; py "gpt-4.1-nano"; py "gpt-4o-mini"].

Definition invalid_model_message : str :=
  py "Invalid model. Choose from ['gpt-4.1', 'gpt-4.1-mini', 'gpt-4.1-nano', 'gpt-4o-mini']".

(** [extract_json_from_response(text)]. *)
Definition extract_json_from_response (text : str) : str :=
  match search_fence text with
  | Some group1 => group1
  | None =>
      let text := strip text in
      if startswith text (py "{") && endswith text (py "}") then text
      else text
  end.

Definition normalize (raw : str) : str :=
  let name := strip raw in
  strip (re_sub_spaces name).

Definition dict (items : list (str * json)) : gmap str json := list_to_map items.

Definition parse_reply (sv : services) (name reply_content : str) : response :=
  let json_str_to_parse := extract_json_from_response reply_content in
  match json_loads sv json_str_to_parse with
  | JSONDecodeError =>
      Resp 500 (error_body (py "Invalid JSON response format from model"))
  | LoadsValueError msg =>
      Resp 500 (error_body msg)
  | LoadsRaised msg =>
      Resp 500 (error_body (py "OpenAI API error: " ++ msg))
  | Loaded (JObj result) =>
      let prediction_value := get result (py "prediction") in
      if negb (in_strs prediction_value [py "Realistic"; py "Not Realistic"]) then
        Resp 500 (error_body (py "Invalid prediction value from model: "
                              ++ format_value sv prediction_value))
      else if eq_str prediction_value (py "Realistic") then
        Resp 200 (dict [(py "name", JStr name); (py "prediction", JStr (py "Realistic"))])
      else if eq_str prediction_value (py "Not Realistic") then
        Resp 200 (dict [(py "name", JStr name);
                        (py "prediction", JStr (py "Not Realistic"));
                        (py "reason",
                         get_default result (py "reason") (JStr (py "Reason not provided by AI.")))])
      else
        (* no branch returns: the view function returns [None], Flask
           raises a [TypeError] outside every handler of the endpoint *)
        Unhandled (py "The view function did not return a valid response.")
  | Loaded v =>
      Resp 500 (error_body (py "OpenAI API error: " ++ no_attribute v (py "get")))
  end.

Definition classify (sv : services) (model : json) (name : str) : run :=
  let request := ChatRequest model name 60 in
  Run [request]
      match chat_create sv request with
      | ChatRaised msg => Resp 500 (error_body (py "OpenAI API error: " ++ msg))
      | Content reply => parse_reply sv name (strip reply)
      end.

Definition unexpected : run :=
  done (Resp 500 (error_body (py "An unexpected server error occurred"))).

Definition predict (sv : services) (data : json) : run :=
  if negb (truthy data) then
    done (Resp 400 (error_body (py "Invalid JSON payload")))
  else
    match data with
    | JObj d =>
        match get_default d (py "name") (JStr []) with
        | JStr raw =>
            let model := get_default d (py "model") (JStr (py "gpt-4.1-nano")) in
            let name := normalize raw in
            if bool_decide (name = []) then
              done (Resp 400 (error_body (py "No name provided")))
            else if negb (in_strs model VALID_MODELS) then
              done (Resp 400 (error_body invalid_model_message))
            else
              classify sv model name
        | _ => unexpected
        end
    | _ => unexpected
    end.

End App.

(** ** The vocabulary of the specification *)

Module Contract.
Import Py Re Json.

(** The four reason codes of a pre-check rejection. *)
Inductive reason_code :=
| InvalidCharacters
| TooFewLetters
| ConsecutivePunctuation
| InvalidDotFormatting.

(** The rules in the order the specification lists them. *)
Definition rule_order : list reason_code :=
  [InvalidCharacters; TooFewLetters; ConsecutivePunctuation; InvalidDotFormatting].

Definition rank (r : reason_code) : nat :=
  match r with
  | InvalidCharacters => 0
  | TooFewLetters => 1
  | ConsecutivePunctuation => 2
  | InvalidDotFormatting => 3
  end.

(** The number of ASCII letters of a candidate. *)
Definition letter_count (name : str) : nat := length (List.filter is_ascii_letter name).

(** A period with a word character right before and right after it. *)
Definition dot_between_words (name : str) : Prop :=
  exists pre a b post,
    name = pre ++ a :: ord "." :: b :: post /\ is_word a = true /\ is_word b = true.

(** Rule by rule: the candidate fails the rule. *)
Definition rule_fails (r : reason_code) (name : str) : bool :=
  match r with
  | InvalidCharacters => existsb (fun c => negb (allowed_char c)) name
  | TooFewLetters => (letter_count name <? 3)%nat
  | ConsecutivePunctuation => contains (py "--") name || contains (py "..") name
  | InvalidDotFormatting => search_dot_between_words name
  end.

(** The first rule of the list that the candidate fails. *)
Definition first_failing (name : str) : option reason_code :=
  List.find (fun r => rule_fails r name) rule_order.

(** The reason strings the two pre-checking endpoints use for the codes. *)
Definition precheck_text (r : reason_code) : str :=
  match r with
  | InvalidCharacters => py "Invalid characters present"
  | TooFewLetters => py "Too few letters"
  | ConsecutivePunctuation => py "Consecutive punctuation"
  | InvalidDotFormatting => py "Invalid dot formatting, must have spaces after dot(.)"
  end.

Definition prompt_text (r : reason_code) : str :=
  match r with
  | InvalidCharacters => py "Invalid characters"
  | TooFewLetters => py "Too few letters"
  | ConsecutivePunctuation => py "Consecutive punctuation"
  | InvalidDotFormatting => py "Invalid dot formatting"
  end.

(** A token as [str.split()] yields them: not empty and free of blanks. *)
Definition solid (w : str) : Prop := w <> [] /\ Forall (fun c => isspace c = false) w.

(** A string of ASCII characters only. *)
Definition ascii_only (s : str) : Prop := Forall (fun c => is_ascii c = true) s.




(** Services for closed examples: one that reaches nothing, and one whose
    decoder returns a given value whatever the text. *)
Definition offline : services :=
  Services (fun _ => JSONDecodeError) (fun _ => ChatRaised (py "offline")) (fun _ => []).

Definition decoding (v : json) : services :=
  Services (fun _ => Loaded v) (fun _ => ChatRaised (py "offline")) (fun _ => []).

(** A JSON string literal without escapes, and a reply wrapped in a code
    fence annotated as json, with the blanks around the payload. *)
Definition quoted (s : str) : str := [0x22] ++ s ++ [0x22].

Definition fenced (blank_before payload blank_after : str) : str :=
  py "```json" ++ blank_before ++ payload ++ blank_after ++ py "```".

(** A decoder given by a table: the texts it accepts with their values;
    it raises [JSONDecodeError] on every other text. *)
Definition table_decoder (table : list (str * json)) : services :=
  Services
    (fun text =>
       match List.find (fun entry => bool_decide (fst entry = text)) table with
       | Some entry => Loaded (snd entry)
       | None => JSONDecodeError
       end)
    (fun _ => ChatRaised (py "offline"))
    (fun _ => []).

(** A reply object whose reason holds a closing brace followed by three
    backquotes, the value [json.loads] gives for it, and the prefix of it
    up to that brace (which is not valid JSON: its last string is open). *)
Definition tricky_payload : str :=
  py "{" ++ quoted (py "prediction") ++ py ":" ++ quoted (py "Not Realistic") ++ py ","
  ++ quoted (py "reason") ++ py ":" ++ quoted (py "}```") ++ py "}".

Definition tricky_value : json :=
  JObj (list_to_map [(py "prediction", JStr (py "Not Realistic"));
                     (py "reason", JStr (py "}```"))]).

Definition tricky_prefix : str :=
  py "{" ++ quoted (py "prediction") ++ py ":" ++ quoted (py "Not Realistic") ++ py ","
  ++ quoted (py "reason") ++ py ":" ++ [0x22] ++ py "}".

(** A reply object with nothing unusual in it. *)
Definition plain_payload : str :=
  py "{" ++ quoted (py "prediction") ++ py ":" ++ quoted (py "Realistic") ++ py "}".

(** A reply object whose reason is [null], and the value [json.loads]
    gives for it. *)
Definition null_reason_payload : str :=
  py "{" ++ quoted (py "prediction") ++ py ":" ++ quoted (py "Not Realistic") ++ py ","
  ++ quoted (py "reason") ++ py ":null}".

Definition null_reason_value : json :=
  JObj (list_to_map [(py "prediction", JStr (py "Not Realistic")); (py "reason", JNull)]).

(** What a response body may hold beside a prediction: no reason with
    [Realistic], a reason with [Not Realistic]. *)
Definition reason_policy (body : gmap str json) : Prop :=
  (body !! py "prediction" = Some (JStr (py "Realistic")) -> body !! py "reason" = None)
  /\ (body !! py "prediction" = Some (JStr (py "Not Realistic")) ->
      is_Some (body !! py "reason")).

(** A [PrecheckResult] as the pair [precheck_name] returns. *)
Definition precheck_result (text : reason_code -> str) (o : option reason_code)
  : bool * option str :=
  match o with
  | Some r => (false, Some (text r))
  | None => (true, None)
  end.

End Contract.

(** ** [test_models.py] *)

Module TestModels.
Import Py Json.

(** One attempt of [send_prediction_request]: [requests.post],
    [raise_for_status] and [response.json()] give the decoded body, or one
    of them raises. *)
Inductive attempt_result :=
| Answer (v : json)
| Failed (msg : str).

(** The service behind [API_URL]: what an attempt yields, given the
    payloads posted before it and its own payload. *)
Definition network := list json -> json -> attempt_result.

(** A computation that posts: it threads the payloads posted so far. *)
Definition posting (A : Type) := list json -> A * list json.

Definition ret {A} (a : A) : posting A := fun log => (a, log).
Definition bind {A B} (m : posting A) (f : A -> posting B) : posting B :=
  fun log => let (a, log') := m log in f a log'.

Notation "x <- m ;; f" := (bind m (fun x => f))
  (at level 100, m at next level, right associativity).

Definition post (net : network) (payload : json) : posting attempt_result :=
  fun log => (net log payload, log ++ [payload]).

Definition stop_max_attempt_number : nat := 3.

(** [@retry(stop_max_attempt_number=3, wait_fixed=2000)]: the call is made
    again after an exception until an attempt returns or the last allowed
    attempt has raised, whose exception is raised again; [attempts_left]
    counts the attempts allowed after the next one. *)
Fixpoint retry (attempts_left : nat) (fn : posting attempt_result) : posting attempt_result :=
  r <- fn ;;
  match r with
  | Answer v => ret (Answer v)
  | Failed msg =>
      match attempts_left with
      | O => ret (Failed msg)
      | S n => retry n fn
      end
  end.

Definition payload_of (name : json) (model : str) : json :=
  JObj (list_to_map [(py "name", name); (py "model", JStr model)]).

(** [send_prediction_request(name, model)]. *)
Definition send_prediction_request (net : network) (name : json) (model : str)
  : posting attempt_result :=
  retry (stop_max_attempt_number - 1) (post net (payload_of name model)).

(** [key in v]; [None] is the [TypeError] of a value that is not a
    container. *)
Definition py_in (key : str) (v : json) : option bool :=
  match v with
  | JObj d => Some (bool_decide (is_Some (d !! key)))
  | JArr l => Some (existsb (fun x => eq_str x key) l)
  | JStr s => Some (contains key s)
  | _ => None
  end.

(** [v[key]] for a [str] key; [None] is the [KeyError] or [TypeError]. *)
Definition subscript (v : json) (key : str) : option json :=
  match v with
  | JObj d => d !! key
  | _ => None
  end.

(** The body of the loop of [evaluate_model]: the value it appends. *)
Definition predicted_value (r : attempt_result) : Z :=
  match r with
  | Failed _ => 0
  | Answer result =>
      match py_in (py "prediction") result with
      | None => 0
      | Some false => 0
      | Some true =>
          match subscript result (py "prediction") with
          | None => 0
          | Some prediction => if eq_str prediction (py "Realistic") then 1 else 0
          end
      end
  end.

(** The two columns [load_dataset] checks for. *)
Record dataset := Dataset {
  Name : list json;
  Is_Valid : list json
}.

(** The [for] loop of [evaluate_model]. *)
Fixpoint predict_rows (net : network) (model : str) (names : list json)
                      (predictions : list Z) : posting (list Z) :=
  match names with
  | [] => ret predictions
  | name :: rest =>
      r <- send_prediction_request net name model ;;
      predict_rows net model rest (predictions ++ [predicted_value r])
  end.

(** [evaluate_model(df, model)]; [accuracy_score] is scikit-learn's. *)
Definition evaluate_model {A} (accuracy_score : list json -> list Z -> A)
                          (net : network) (df : dataset) (model : str)
  : posting (A * list Z) :=
  let actuals := Is_Valid df in
  predictions <- predict_rows net model (Name df) [] ;;
  ret (accuracy_score actuals predictions, predictions).

End TestModels.

(** ** [test_models_parallel.py] *)

Module TestModelsParallel.
Import Py Json TestModels.

(** [send_prediction_request(name, model, session)] in a worker: the
    same retried post, on the worker's own view of the service. *)
Definition send_prediction_request (net : network) (name : json) (model : str)
  : attempt_result :=
  fst (retry (stop_max_attempt_number - 1) (post net (payload_of name model)) []).

(** The value stored for a finished future: [result.get('prediction')]
    compared with ['Realistic'], 0 when [future.result()] or [.get]
    raises. *)
Definition predicted_value (r : attempt_result) : Z :=
  match r with
  | Failed _ => 0
  | Answer (JObj result) => if eq_str (get result (py "prediction")) (py "Realistic") then 1 else 0
  | Answer _ => 0
  end.

(** [predictions[idx] = v]; [None] is the [IndexError]. *)
Definition set_item (predictions : list (option Z)) (idx : nat) (v : Z)
  : option (list (option Z)) :=
  if (idx <? length predictions)%nat then Some (<[idx := Some v]> predictions) else None.

(** The loop over [as_completed(future_to_index)]: [completed] lists the
    indices of the futures in the order they finish. *)
Fixpoint collect (futures : list attempt_result) (completed : list nat)
                 (predictions : list (option Z)) : option (list (option Z)) :=
  match completed with
  | [] => Some predictions
  | idx :: rest =>
      match futures !! idx with
      | None => None
      | Some r =>
          match set_item predictions idx (predicted_value r) with
          | None => None
          | Some predictions' => collect futures rest predictions'
          end
      end
  end.

(** [evaluate_model(df, model)]: [nets idx] is the service as the worker
    of row [idx] meets it, [completed] the order in which the futures
    finish; [accuracy_score] is scikit-learn's. *)
Definition evaluate_model {A} (accuracy_score : list json -> list (option Z) -> A)
                          (nets : nat -> network) (df : dataset) (model : str)
                          (completed : list nat) : option (A * list (option Z)) :=
  let actuals := Is_Valid df in
  let names := Name df in
  let predictions := replicate (length names) None in
  let futures := imap (fun idx name => send_prediction_request (nets idx) name model) names in
  match collect futures completed predictions with
  | None => None
  | Some predictions => Some (accuracy_score actuals predictions, predictions)
  end.

End TestModelsParallel.

(** ** The vocabulary of the further properties *)

Module Outcomes.
Import Py Re Json TestModels.

(** The client error of an empty name. *)
Definition no_name : run := Run [] (Resp 400 (error_body (py "No name provided"))).

Definition verdict_body (body : gmap str json) : Prop :=
  (exists name, body !! py "name" = Some (JStr name))
  /\ (body !! py "prediction" = Some (JStr (py "Realistic"))
      \/ body !! py "prediction" = Some (JStr (py "Not Realistic")))
  /\ body !! py "error" = None.

Definition well_formed (r : run) : Prop :=
  match result r with
  | Resp status body =>
      (status = 200%Z /\ verdict_body body)
      \/ (status = 400%Z /\ calls r = [] /\ exists msg, body = error_body msg)
      \/ (status = 500%Z /\ exists msg, body = error_body msg)
  | Unhandled _ => False
  end.

Definition valid_prediction (decoded : gmap str json) : Prop :=
  decoded !! py "prediction" = Some (JStr (py "Realistic"))
  \/ decoded !! py "prediction" = Some (JStr (py "Not Realistic")).

Definition malformed_payload (data : json) : Prop :=
  truthy data = true
  /\ match data with
     | JObj d => exists v, d !! py "name" = Some v /\ forall s, v <> JStr s
     | _ => True
     end.

Definition prompt_well_formed (r : run) : Prop :=
  match result r with
  | Resp status body =>
      body !! py "reason" = None
      /\ ((status = 200%Z /\ verdict_body body)
          \/ (status = 400%Z /\ calls r = [] /\ exists msg, body = error_body msg)
          \/ (status = 500%Z
              /\ (body = error_body (py "OpenAI API error")
                  \/ body = error_body (py "Invalid response from model"))))
  | Unhandled _ => calls r = []
  end.

(** Two code points the pre-check cannot tell apart: two ASCII letters, or
    the same code point. *)
Definition same_class (c d : N) : Prop :=
  (is_ascii_letter c = true /\ is_ascii_letter d = true) \/ c = d.

Definition same_classb (c d : N) : bool :=
  is_ascii_letter c && is_ascii_letter d || (c =? d).

(** A code fence annotated as json in any letter case. *)
Definition json_annotation (ann : str) : Prop :=
  Forall2 (fun (p : N -> bool) c => p c = true) (text_nocase (py "json")) ann.

(** The payloads posted for the rows [names] when row [i] takes
    [counts !! i] attempts. *)
Fixpoint posted (counts : list nat) (names : list json) (model : str) : list json :=
  match counts, names with
  | k :: counts', name :: names' =>
      replicate k (payload_of name model) ++ posted counts' names' model
  | _, _ => []
  end.

(** A service and a dataset for closed examples: the service answers by
    the name alone, whatever was posted before. *)
Definition by_name : network :=
  fun _ payload =>
    match payload with
    | JObj d =>
        if eq_str (get d (py "name")) (py "Rahim Uddin")
        then Answer (JObj {[ py "prediction" := JStr (py "Realistic") ]})
        else Answer (JObj {[ py "prediction" := JStr (py "Not Realistic") ]})
    | _ => Failed (py "bad request")
    end.

Definition two_rows : dataset :=
  Dataset [JStr (py "Rahim Uddin"); JStr (py "Qwert")] [JInt 1; JInt 0].

End Outcomes.

(** * Properties *)

Import Py Re Json Contract.

(** ** The pre-check *)

Lemma letter_count_findall name : length (findall_letters name) = letter_count name.
Proof. unfold findall_letters, letter_count. now rewrite length_map. Qed.

Lemma precheck_name_as_rules name :
  AppPrecheck.precheck_name name = precheck_result precheck_text (first_failing name).
Proof.
  unfold AppPrecheck.precheck_name, first_failing, rule_order. cbn [List.find rule_fails].
  unfold search_invalid_char. rewrite letter_count_findall.
  destruct (existsb _ name); [reflexivity|].
  destruct (letter_count name <? 3)%nat; [reflexivity|].
  destruct (contains (py "--") name || contains (py "..") name); [reflexivity|].
  destruct (search_dot_between_words name); reflexivity.
Qed.

Lemma prompt_precheck_name_as_rules name :
  AppPrecheckPrompt.precheck_name name = precheck_result prompt_text (first_failing name).
Proof.
  unfold AppPrecheckPrompt.precheck_name, first_failing, rule_order. cbn [List.find rule_fails].
  unfold search_invalid_char. rewrite letter_count_findall.
  destruct (existsb _ name); [reflexivity|].
  destruct (letter_count name <? 3)%nat; [reflexivity|].
  destruct (contains (py "--") name || contains (py "..") name); [reflexivity|].
  destruct (search_dot_between_words name); reflexivity.
Qed.

Lemma first_failing_spec name r :
  first_failing name = Some r <->
  rule_fails r name = true /\
  forall r', (rank r' < rank r)%nat -> rule_fails r' name = false.
Proof.
  unfold first_failing, rule_order. cbn [List.find].
  destruct (rule_fails InvalidCharacters name) eqn:E1;
  [|destruct (rule_fails TooFewLetters name) eqn:E2;
    [|destruct (rule_fails ConsecutivePunctuation name) eqn:E3;
      [|destruct (rule_fails InvalidDotFormatting name) eqn:E4]]].
  all: split.
  all: try (intros [= <-]; split; [assumption|];
            intros [] Hlt; cbn in Hlt; solve [assumption | lia]).
  all: try discriminate.
  all: intros [Hr Hbefore]; destruct r; try reflexivity; try congruence.
  all: try (specialize (Hbefore InvalidCharacters ltac:(cbn; lia)); congruence).
  all: try (specialize (Hbefore TooFewLetters ltac:(cbn; lia)); congruence).
  all: try (specialize (Hbefore ConsecutivePunctuation ltac:(cbn; lia)); congruence).
Qed.

(** C3: [precheck_name] returns the result of the first rule, in the
    order InvalidCharacters, TooFewLetters, ConsecutivePunctuation,
    InvalidDotFormatting, that the string fails, in both pre-checking
    endpoints; a rule decides the result exactly when the string fails it
    and fails no rule before it, whatever the rules after it say; and a
    string with a digit and fewer than three letters is rejected for its
    characters. *)
Theorem precheck_name_first_failing_rule :
  forall name : str,
    AppPrecheck.precheck_name name = precheck_result precheck_text (first_failing name)
    /\ AppPrecheckPrompt.precheck_name name = precheck_result prompt_text (first_failing name)
    /\ (forall r, first_failing name = Some r <->
                  rule_fails r name = true /\
                  forall r', (rank r' < rank r)%nat -> rule_fails r' name = false)
    /\ (first_failing name = None <-> forall r, rule_fails r name = false)
    /\ AppPrecheck.precheck_name (py "K1") = (false, Some (precheck_text InvalidCharacters)).
Proof.
  intro name. split; [apply precheck_name_as_rules|].
  split; [apply prompt_precheck_name_as_rules|].
  split; [intro r; apply first_failing_spec|].
  split; [|reflexivity].
  unfold first_failing, rule_order. cbn [List.find].
  split.
  - intros H r.
    destruct (rule_fails InvalidCharacters name) eqn:E1; [discriminate|].
    destruct (rule_fails TooFewLetters name) eqn:E2; [discriminate|].
    destruct (rule_fails ConsecutivePunctuation name) eqn:E3; [discriminate|].
    destruct (rule_fails InvalidDotFormatting name) eqn:E4; [discriminate|].
    destruct r; assumption.
  - intros H.
    rewrite (H InvalidCharacters), (H TooFewLetters), (H ConsecutivePunctuation),
      (H InvalidDotFormatting). reflexivity.
Qed.

(** C4, as the code has it: a string with fewer than three ASCII letters is
    always rejected, with TooFewLetters when all its characters are ASCII
    letters, blanks, hyphens or periods, and with InvalidCharacters when
    one of them is not. *)
Theorem few_letters_rejected :
  forall name : str,
    (letter_count name < 3)%nat ->
    AppPrecheck.precheck_name name =
      (false, Some (precheck_text
                      (if search_invalid_char name then InvalidCharacters else TooFewLetters))).
Proof.
  intros name Hfew. rewrite precheck_name_as_rules.
  unfold first_failing, rule_order. cbn [List.find rule_fails].
  fold (search_invalid_char name).
  destruct (search_invalid_char name); [reflexivity|].
  apply Nat.ltb_lt in Hfew. rewrite Hfew. reflexivity.
Qed.

Lemma few_letters_rejected_witness :
  (letter_count (py "Ku") < 3)%nat
  /\ AppPrecheck.precheck_name (py "Ku") = (false, Some (precheck_text TooFewLetters)).
Proof.
  split.
  - vm_compute. lia.
  - apply (few_letters_rejected (py "Ku")). vm_compute. lia.
Defined.

(** C4 as stated fails: [K1] has one letter and is rejected for its
    characters, not for its letter count. *)
Lemma few_letters_with_digit :
  (letter_count (py "K1") < 3)%nat
  /\ AppPrecheck.precheck_name (py "K1") <> (false, Some (precheck_text TooFewLetters)).
Proof.
  split.
  - vm_compute. lia.
  - vm_compute. discriminate.
Qed.

Lemma search_dot_from_spec prev s :
  search_dot_from prev s = true <->
  (exists b post,
      lookbehind_word prev = true /\ s = ord "." :: b :: post /\ is_word b = true)
  \/ dot_between_words s.
Proof.
  revert prev. induction s as [|c r IH]; intro prev; cbn [search_dot_from].
  - split; [discriminate|].
    intros [(b & post & _ & H & _)|(pre & a & b & post & H & _)]; [discriminate|].
    destruct pre; discriminate.
  - rewrite orb_true_iff, !andb_true_iff, IH. split.
    + intros [[[Hp Hc] Hr]|[(b & post & Hc & -> & Hb)|(pre & a & b & post & -> & Ha & Hb)]].
      * apply N.eqb_eq in Hc. subst c.
        destruct r as [|b post]; [discriminate|].
        left. exists b, post. auto.
      * right. exists [], c, b, post. auto.
      * right. exists (c :: pre), a, b, post. auto.
    + intros [(b & post & Hp & [= -> ->] & Hb)|(pre & a & b & post & H & Ha & Hb)].
      * left. cbn. rewrite Hp, Hb. auto.
      * right. destruct pre as [|c' pre]; injection H as -> ->.
        -- left. exists b, post. auto.
        -- right. exists pre, a, b, post. auto.
Qed.

(** The blank code points above U+00FF. *)
Lemma blank_above c :
  0xFF < c -> isspace c = true ->
  In c [0x1680; 0x2000; 0x2001; 0x2002; 0x2003; 0x2004; 0x2005; 0x2006; 0x2007; 0x2008;
        0x2009; 0x200A; 0x2028; 0x2029; 0x202F; 0x205F; 0x3000].
Proof.
  intros Hgt H. unfold isspace in H. cbn [In].
  repeat match type of H with
         | context [N.leb ?a ?b] => destruct (N.leb_spec a b); [|try lia]
         | context [N.eqb ?a ?b] => destruct (N.eqb_spec a b); [|try lia]
         end.
  all: try lia.
  all: cbn in H; discriminate H.
Qed.

(** Among the characters rule 1 lets through, the word characters are
    the ASCII letters. *)
Lemma allowed_word c : allowed_char c = true -> is_word c = is_ascii_letter c.
Proof.
  intro H. destruct (N.le_gt_cases c 0xFF) as [Hle|Hgt].
  - assert (Hall : forallb (fun n => implb (allowed_char n)
                                        (Bool.eqb (is_word n) (is_ascii_letter n)))
                           (List.map N.of_nat (seq 0 256)) = true)
      by (vm_compute; reflexivity).
    rewrite forallb_forall in Hall.
    specialize (Hall c). rewrite H in Hall. cbn [implb] in Hall.
    apply eqb_prop, Hall.
    rewrite <- (N2Nat.id c). apply in_map, in_seq. lia.
  - assert (Hall : forallb (fun n => Bool.eqb (is_word n) (is_ascii_letter n))
                           [0x1680; 0x2000; 0x2001; 0x2002; 0x2003; 0x2004; 0x2005; 0x2006;
                            0x2007; 0x2008; 0x2009; 0x200A; 0x2028; 0x2029; 0x202F; 0x205F;
                            0x3000] = true)
      by (vm_compute; reflexivity).
    rewrite forallb_forall in Hall. apply eqb_prop, Hall, blank_above; [assumption|].
    destruct (isspace c) eqn:Es; [reflexivity|]. exfalso.
    unfold allowed_char in H. rewrite Es in H.
    change (ord "-") with 0x2D in H. change (ord ".") with 0x2E in H.
    unfold is_ascii_letter, is_upper_ascii, is_lower_ascii in H.
    repeat match type of H with
           | context [N.leb ?a ?b] => destruct (N.leb_spec a b); try lia
           | context [N.eqb ?a ?b] => destruct (N.eqb_spec a b); try lia
           end.
    all: cbn in H; discriminate H.
Qed.

Lemma Forall_allowed s : search_invalid_char s = false -> Forall (fun c => allowed_char c = true) s.
Proof.
  unfold search_invalid_char. induction s as [|c r IH]; cbn [existsb]; intro H; [constructor|].
  apply orb_false_elim in H as [Hc Hr]. apply negb_false_iff in Hc. constructor; auto.
Qed.

Lemma dot_between_letters name :
  search_invalid_char name = false ->
  dot_between_words name <->
  exists pre a b post,
    name = pre ++ a :: ord "." :: b :: post
    /\ is_ascii_letter a = true /\ is_ascii_letter b = true.
Proof.
  intro Hok. apply Forall_allowed in Hok. unfold dot_between_words.
  split; intros (pre & a & b & post & -> & Ha & Hb); exists pre, a, b, post.
  - apply Forall_app in Hok as [_ Hok].
    apply Forall_cons in Hok as [Haa Hok]. apply Forall_cons in Hok as [_ Hok].
    apply Forall_cons in Hok as [Hbb _].
    rewrite <- (allowed_word a Haa), <- (allowed_word b Hbb). auto.
  - apply Forall_app in Hok as [_ Hok].
    apply Forall_cons in Hok as [Haa Hok]. apply Forall_cons in Hok as [_ Hok].
    apply Forall_cons in Hok as [Hbb _].
    rewrite (allowed_word a Haa), (allowed_word b Hbb). auto.
Qed.

(** C5: the dot rule fails exactly on the strings that hold a period with
    a word character right before and right after it (for a string that
    rule 1 lets through: a period between two ASCII letters); [m.ahmed] is
    rejected with InvalidDotFormatting, [Mr. Hanif Uddin] and [p. k. robi]
    pass the four rules. *)
Theorem dot_rule_exact :
  (forall name : str, rule_fails InvalidDotFormatting name = true <-> dot_between_words name)
  /\ (forall name : str,
        rule_fails InvalidCharacters name = false ->
        rule_fails InvalidDotFormatting name = true <->
        exists pre a b post,
          name = pre ++ a :: ord "." :: b :: post
          /\ is_ascii_letter a = true /\ is_ascii_letter b = true)
  /\ AppPrecheck.precheck_name (py "m.ahmed") = (false, Some (precheck_text InvalidDotFormatting))
  /\ AppPrecheckPrompt.precheck_name (py "m.ahmed") = (false, Some (prompt_text InvalidDotFormatting))
  /\ AppPrecheck.precheck_name (py "Mr. Hanif Uddin") = (true, None)
  /\ AppPrecheckPrompt.precheck_name (py "Mr. Hanif Uddin") = (true, None)
  /\ AppPrecheck.precheck_name (py "p. k. robi") = (true, None)
  /\ AppPrecheckPrompt.precheck_name (py "p. k. robi") = (true, None).
Proof.
  assert (Hrule : forall name : str,
             rule_fails InvalidDotFormatting name = true <-> dot_between_words name).
  { intro name. cbn [rule_fails]. unfold search_dot_between_words.
    rewrite search_dot_from_spec. split; [|auto].
    intros [(b & post & Hp & _)|H]; [discriminate|assumption]. }
  split; [exact Hrule|]. split; [|repeat split; reflexivity].
  intros name Hok. rewrite Hrule. now apply dot_between_letters.
Qed.

(** ** Normalisation *)

Lemma lstrip_head s : lstrip s = [] \/ exists c r, lstrip s = c :: r /\ isspace c = false.
Proof.
  induction s as [|c r IH]; cbn; [auto|].
  destruct (isspace c) eqn:E; [exact IH|]. right. eauto.
Qed.

Lemma rstrip_cons c r :
  rstrip (c :: r) = if bool_decide (rstrip r = []) && isspace c then [] else c :: rstrip r.
Proof.
  cbn [rstrip]. destruct (rstrip r) eqn:E.
  - rewrite bool_decide_eq_true_2 by reflexivity. cbn. destruct (isspace c); reflexivity.
  - rewrite bool_decide_eq_false_2 by discriminate. reflexivity.
Qed.

Lemma rstrip_idem s : rstrip (rstrip s) = rstrip s.
Proof.
  induction s as [|c r IH]; [reflexivity|].
  rewrite rstrip_cons. destruct (bool_decide (rstrip r = [])) eqn:Eb; cbn [andb].
  - apply bool_decide_eq_true_1 in Eb.
    destruct (isspace c) eqn:Ec; [reflexivity|].
    rewrite Eb. cbn [rstrip]. rewrite Ec. reflexivity.
  - rewrite rstrip_cons, IH, Eb. reflexivity.
Qed.

Lemma rstrip_fixed_tail c r : rstrip (c :: r) = c :: r -> rstrip r = r.
Proof.
  rewrite rstrip_cons. destruct (bool_decide (rstrip r = []) && isspace c); [discriminate|].
  now intros [= ->].
Qed.

Lemma rstrip_fixed_blank c r :
  rstrip (c :: r) = c :: r -> isspace c = true -> rstrip r <> [].
Proof.
  rewrite rstrip_cons. intros H Hc Hr. rewrite Hr, Hc in H.
  rewrite bool_decide_eq_true_2 in H by reflexivity. discriminate.
Qed.

Lemma rstrip_head c r : isspace c = false -> exists r', rstrip (c :: r) = c :: r'.
Proof. intro Hc. rewrite rstrip_cons, Hc, andb_false_r. eauto. Qed.

Lemma strip_shape s :
  rstrip (strip s) = strip s
  /\ (strip s = [] \/ exists c r, strip s = c :: r /\ isspace c = false).
Proof.
  unfold strip. split; [apply rstrip_idem|].
  destruct (lstrip_head s) as [->|(c & r & -> & Hc)]; [auto|].
  right. destruct (rstrip_head c r Hc) as [r' ->]. eauto.
Qed.

Lemma split_from_solid s : forall cur,
  Forall (fun c => isspace c = false) cur -> Forall solid (split_from cur s).
Proof.
  induction s as [|c r IH]; intros cur Hcur; cbn [split_from].
  - destruct cur; constructor; [|constructor]. split; [discriminate|assumption].
  - destruct (isspace c) eqn:Ec.
    + destruct cur.
      * apply IH. constructor.
      * constructor; [split; [discriminate|assumption]|]. apply IH. constructor.
    + apply IH. apply Forall_app. split; [assumption|]. repeat constructor. assumption.
Qed.

Lemma split_solid s : Forall solid (split s).
Proof. apply split_from_solid. constructor. Qed.

Lemma split_from_nonempty s : forall cur, rstrip s <> [] -> split_from cur s <> [].
Proof.
  induction s as [|c r IH]; intros cur H; [contradiction|].
  rewrite rstrip_cons in H. cbn [split_from].
  destruct (isspace c) eqn:Ec.
  - rewrite andb_true_r in H.
    destruct (bool_decide (rstrip r = [])) eqn:Eb; [contradiction|].
    apply bool_decide_eq_false_1 in Eb.
    destruct cur; [apply IH; assumption|discriminate].
  - destruct (bool_decide (rstrip r = [])) eqn:Eb.
    + apply bool_decide_eq_true_1 in Eb. clear H IH.
      assert (Hgen : forall cur', cur' <> [] -> split_from cur' r <> []).
      { clear cur. induction r as [|d r IHr]; intros cur' Hc'; cbn [split_from].
        - destruct cur'; [contradiction|discriminate].
        - rewrite rstrip_cons in Eb.
          destruct (bool_decide (rstrip r = [])) eqn:Eb'; [|discriminate].
          destruct (isspace d) eqn:Ed; [|discriminate].
          destruct cur'; [contradiction|discriminate]. }
      apply Hgen. destruct cur; discriminate.
    + apply IH. now apply bool_decide_eq_false_1 in Eb.
Qed.

Lemma join_cons w L : L <> [] -> join (py " ") (w :: L) = w ++ 0x20 :: join (py " ") L.
Proof. destruct L; [contradiction|reflexivity]. Qed.

(** [re.sub] of the blank runs of a string that ends with no blank, in
    terms of its tokens. *)
Lemma sub_blank_runs_tokens s :
  rstrip s = s ->
  (forall cur, cur <> [] ->
     cur ++ sub_blank_runs false s = join (py " ") (split_from cur s))
  /\ sub_blank_runs true s = join (py " ") (split_from [] s).
Proof.
  induction s as [|c r IH]; intro Hfix.
  - split; [|reflexivity]. intros cur Hcur. cbn. rewrite app_nil_r.
    destruct cur; [contradiction|reflexivity].
  - pose proof (rstrip_fixed_tail _ _ Hfix) as Hr. destruct (IH Hr) as [IH1 IH2].
    cbn [sub_blank_runs split_from]. destruct (isspace c) eqn:Ec.
    + pose proof (rstrip_fixed_blank _ _ Hfix Ec) as Hne.
      split; [|exact IH2].
      intros cur Hcur. destruct cur as [|c0 cur]; [contradiction|].
      rewrite join_cons by (apply split_from_nonempty; assumption).
      rewrite IH2. reflexivity.
    + split.
      * intros cur Hcur. rewrite <- IH1 by (destruct cur; discriminate).
        rewrite <- app_assoc. reflexivity.
      * cbn [app]. rewrite <- (IH1 [c]) by discriminate. reflexivity.
Qed.

Lemma lstrip_join L : Forall solid L -> lstrip (join (py " ") L) = join (py " ") L.
Proof.
  intros HL. destruct HL as [|w L [Hne Hw] HL]; [reflexivity|].
  destruct w as [|c w]; [contradiction|]. apply Forall_cons in Hw as [Hc _].
  destruct L; cbn; rewrite Hc; reflexivity.
Qed.

Lemma rstrip_solid_app w rest :
  Forall (fun c => isspace c = false) w -> rstrip (w ++ rest) = w ++ rstrip rest.
Proof.
  induction 1 as [|c w Hc Hw IH]; [reflexivity|].
  cbn [app]. rewrite rstrip_cons, Hc, andb_false_r, IH. reflexivity.
Qed.

Lemma join_solid_nonempty w L : solid w -> join (py " ") (w :: L) <> [].
Proof. intros [Hne _]. destruct w; [contradiction|]. destruct L; discriminate. Qed.

Lemma rstrip_join L : Forall solid L -> rstrip (join (py " ") L) = join (py " ") L.
Proof.
  induction 1 as [|w L Hw HL IH]; [reflexivity|].
  destruct HL as [|w2 L Hw2 HL].
  - cbn [join]. rewrite <- (app_nil_r w) at 1.
    rewrite rstrip_solid_app by apply Hw. cbn. now rewrite app_nil_r.
  - rewrite join_cons by discriminate.
    rewrite rstrip_solid_app by apply Hw. f_equal.
    rewrite rstrip_cons, IH.
    rewrite bool_decide_eq_false_2 by (apply join_solid_nonempty; assumption).
    reflexivity.
Qed.

Lemma strip_join L : Forall solid L -> strip (join (py " ") L) = join (py " ") L.
Proof. intro HL. unfold strip. rewrite lstrip_join by assumption. now apply rstrip_join. Qed.

Lemma sub_blank_runs_solid_app w rest b :
  solid w -> sub_blank_runs b (w ++ rest) = w ++ sub_blank_runs false rest.
Proof.
  intros [Hne Hw]. revert b. induction Hw as [|c w Hc Hw IH]; intro b; [contradiction|].
  cbn [app sub_blank_runs]. rewrite Hc. f_equal.
  destruct w as [|d w]; [reflexivity|]. apply IH. discriminate.
Qed.

Lemma sub_blank_runs_join L b :
  Forall solid L -> sub_blank_runs b (join (py " ") L) = join (py " ") L.
Proof.
  intro HL. revert b. induction HL as [|w L Hw HL IH]; intro b; [reflexivity|].
  destruct HL as [|w2 L Hw2 HL].
  - cbn [join]. rewrite <- (app_nil_r w) at 1.
    rewrite sub_blank_runs_solid_app by assumption. cbn. now rewrite app_nil_r.
  - rewrite join_cons by discriminate.
    rewrite sub_blank_runs_solid_app by assumption. f_equal.
    cbn [sub_blank_runs]. change (isspace 32) with true. cbn match. f_equal. apply IH.
Qed.

Lemma split_from_solid_app w rest cur :
  Forall (fun c => isspace c = false) w -> split_from cur (w ++ rest) = split_from (cur ++ w) rest.
Proof.
  intro Hw. revert cur. induction Hw as [|c w Hc Hw IH]; intro cur.
  - now rewrite app_nil_r.
  - cbn [app split_from]. rewrite Hc, IH, <- app_assoc. reflexivity.
Qed.

Lemma split_join L : Forall solid L -> split (join (py " ") L) = L.
Proof.
  unfold split. induction 1 as [|w L Hw HL IH]; [reflexivity|].
  assert (Hcur : forall rest, split_from [] (w ++ rest) = split_from w rest).
  { intro rest. now rewrite split_from_solid_app by apply Hw. }
  destruct HL as [|w2 L Hw2 HL].
  - cbn [join]. rewrite <- (app_nil_r w) at 1. rewrite Hcur. cbn.
    destruct Hw as [Hne _]. destruct w; [contradiction|reflexivity].
  - rewrite join_cons by discriminate. rewrite Hcur. cbn [split_from].
    change (isspace 32) with true. cbn match.
    destruct Hw as [Hne _]. destruct w; [contradiction|]. now rewrite IH.
Qed.

(** What the blank handling of the endpoints computes. *)
Lemma strip_sub_strip s :
  strip (re_sub_spaces (strip s)) = join (py " ") (split (strip s)).
Proof.
  destruct (strip_shape s) as [Hfix Hhead]. unfold re_sub_spaces.
  assert (H : sub_blank_runs false (strip s) = join (py " ") (split (strip s))).
  { destruct Hhead as [->|(c & r & E & Hc)]; [reflexivity|].
    rewrite E in *. destruct (sub_blank_runs_tokens r (rstrip_fixed_tail _ _ Hfix)) as [H1 _].
    cbn [sub_blank_runs]. unfold split. cbn [split_from]. rewrite Hc.
    cbn [app]. rewrite <- (H1 [c]) by discriminate. reflexivity. }
  rewrite H. apply strip_join, split_solid.
Qed.











Lemma split_from_Forall (P : char -> Prop) s : forall cur,
  Forall P cur -> Forall P s -> Forall (Forall P) (split_from cur s).
Proof.
  induction s as [|c r IH]; intros cur Hcur Hs; cbn [split_from].
  - destruct cur; [constructor|]. constructor; [assumption|constructor].
  - apply Forall_cons in Hs as [Hc Hr]. destruct (isspace c).
    + destruct cur; [apply IH; [constructor|assumption]|].
      constructor; [assumption|]. apply IH; [constructor|assumption].
    + apply IH; [|assumption]. apply Forall_app. split; [assumption|now repeat constructor].
Qed.

Lemma normalize_tokens s :
  AppPrecheck.normalize s
  = join (py " ") (List.map AppPrecheck.capitalize_word (split (strip s))).
Proof.
  unfold AppPrecheck.normalize. rewrite strip_sub_strip, split_join by apply split_solid.
  reflexivity.
Qed.









(** ** The endpoints before the remote call *)

Lemma truthy_with_name (d : gmap str json) k v : d !! k = Some v -> truthy (JObj d) = true.
Proof.
  intro H. cbn. rewrite bool_decide_eq_false_2; [reflexivity|].
  intros ->. rewrite lookup_empty in H. discriminate.
Qed.

Lemma get_default_Some (d : gmap str json) k v dflt :
  d !! k = Some v -> get_default d k dflt = v.
Proof. intro H. unfold get_default. now rewrite H. Qed.

Lemma get_default_None (d : gmap str json) k dflt :
  d !! k = None -> get_default d k dflt = dflt.
Proof. intro H. unfold get_default. now rewrite H. Qed.

Lemma precheck_rejection (sv : services) (d : gmap str json) raw :
    d !! py "name" = Some (JStr raw) ->
    (forall reason,
        AppPrecheck.normalize raw <> [] ->
        AppPrecheck.precheck_name (AppPrecheck.normalize raw) = (false, reason) ->
        exists code,
          reason = Some (precheck_text code)
          /\ AppPrecheck.predict sv (JObj d)
             = Run [] (Resp 200 (AppPrecheck.dict
                                   [(py "name", JStr (AppPrecheck.normalize raw));
                                    (py "prediction", JStr (py "Not Realistic"));
                                    (py "reason", JStr (precheck_text code))]))).
Proof.
  intros Hname reason Hne Hpre.
  rewrite precheck_name_as_rules in Hpre.
  destruct (first_failing (AppPrecheck.normalize raw)) as [code|] eqn:Ef; [|discriminate].
  exists code. injection Hpre as <-. split; [reflexivity|].
  unfold AppPrecheck.predict. rewrite (truthy_with_name _ _ _ Hname). cbn [negb].
  rewrite (get_default_Some _ _ _ _ Hname).
  rewrite bool_decide_eq_false_2 by assumption.
  rewrite precheck_name_as_rules, Ef. reflexivity.
Qed.

Lemma prompt_rejection (sv : services) (d : gmap str json) raw :
    d !! py "name" = Some (JStr raw) ->
    forall reason,
      AppPrecheckPrompt.normalize raw <> [] ->
      AppPrecheckPrompt.precheck_name (AppPrecheckPrompt.normalize raw) = (false, reason) ->
      AppPrecheckPrompt.predict sv (JObj d)
      = Run [] (if in_strs (get_default d (py "model") (JStr (py "gpt-4o-mini")))
                           AppPrecheckPrompt.VALID_MODELS
                then Resp 200 (AppPrecheckPrompt.dict
                                 [(py "name", JStr (AppPrecheckPrompt.normalize raw));
                                  (py "prediction", JStr (py "Not Realistic"))])
                else Resp 400 (error_body AppPrecheckPrompt.invalid_model_message)).
Proof.
  intros Hname reason Hne Hpre.
  unfold AppPrecheckPrompt.predict. rewrite (truthy_with_name _ _ _ Hname).
  rewrite (get_default_Some _ _ _ _ Hname).
  rewrite bool_decide_eq_false_2 by assumption.
  destruct (in_strs _ _); cbn [negb]; [|reflexivity].
  rewrite Hpre. reflexivity.
Qed.


(** C1, as the code has it: when the normalised name is not empty and
    fails the pre-check, app-precheck.py answers 200 with [Not Realistic]
    and one of the four reason strings, whatever the model identifier, and
    app-precheck-prompt-enhanment.py answers 200 with [Not Realistic] and
    no reason when the model identifier is allow-listed (400 otherwise);
    neither makes a remote call. *)
Theorem precheck_rejection_is_terminal :
  forall (sv : services) (d : gmap str json) (raw : str),
    d !! py "name" = Some (JStr raw) ->
    (forall reason,
        AppPrecheck.normalize raw <> [] ->
        AppPrecheck.precheck_name (AppPrecheck.normalize raw) = (false, reason) ->
        exists code,
          reason = Some (precheck_text code)
          /\ AppPrecheck.predict sv (JObj d)
             = Run [] (Resp 200 (AppPrecheck.dict
                                   [(py "name", JStr (AppPrecheck.normalize raw));
                                    (py "prediction", JStr (py "Not Realistic"));
                                    (py "reason", JStr (precheck_text code))])))
    /\ (forall reason,
          AppPrecheckPrompt.normalize raw <> [] ->
          AppPrecheckPrompt.precheck_name (AppPrecheckPrompt.normalize raw) = (false, reason) ->
          AppPrecheckPrompt.predict sv (JObj d)
          = Run [] (if in_strs (get_default d (py "model") (JStr (py "gpt-4o-mini")))
                               AppPrecheckPrompt.VALID_MODELS
                    then Resp 200 (AppPrecheckPrompt.dict
                                     [(py "name", JStr (AppPrecheckPrompt.normalize raw));
                                      (py "prediction", JStr (py "Not Realistic"))])
                    else Resp 400 (error_body AppPrecheckPrompt.invalid_model_message))).
Proof.
  intros sv d raw Hname. split.
  - now apply precheck_rejection.
  - now apply prompt_rejection.
Qed.

Lemma precheck_rejection_is_terminal_witness :
  exists code,
    AppPrecheck.predict offline (JObj {[ py "name" := JStr (py "ku") ]})
    = Run [] (Resp 200 (AppPrecheck.dict
                          [(py "name", JStr (py "Ku"));
                           (py "prediction", JStr (py "Not Realistic"));
                           (py "reason", JStr (precheck_text code))])).
Proof.
  destruct (precheck_rejection_is_terminal offline {[ py "name" := JStr (py "ku") ]} (py "ku"))
    as [H _]; [reflexivity|].
  destruct (H (Some (precheck_text TooFewLetters))) as (code & _ & Hrun).
  - vm_compute. discriminate.
  - reflexivity.
  - exists code. exact Hrun.
Defined.

(** C1 as stated fails in app-precheck-prompt-enhanment.py: the verdict of
    a pre-check rejection carries no reason there, and with a model
    identifier outside the allow-list there is no verdict at all. *)
Lemma prompt_rejection_without_reason :
  AppPrecheckPrompt.precheck_name (AppPrecheckPrompt.normalize (py "ku"))
  = (false, Some (prompt_text TooFewLetters))
  /\ (exists body,
        AppPrecheckPrompt.predict offline (JObj {[ py "name" := JStr (py "ku") ]})
        = Run [] (Resp 200 body)
        /\ body !! py "prediction" = Some (JStr (py "Not Realistic"))
        /\ body !! py "reason" = None)
  /\ AppPrecheckPrompt.predict offline
       (JObj (list_to_map [(py "name", JStr (py "ku")); (py "model", JStr (py "gpt-5"))]))
     = Run [] (Resp 400 (error_body AppPrecheckPrompt.invalid_model_message)).
Proof.
  split; [reflexivity|]. split; [|vm_compute; reflexivity].
  eexists. split; [vm_compute; reflexivity|]. split; reflexivity.
Qed.

(** C2, as the code has it: with a name that normalises to a non-empty
    string and a model identifier outside the allow-list,
    app-precheck-prompt-enhanment.py and app.py answer 400 with the
    invalid-model error before anything else, and app-precheck.py runs the
    pre-check first: it answers 400 with the invalid-model error when the
    name passes the pre-check and 200 with [Not Realistic] and the
    pre-check's reason when it does not; none makes a remote call. *)
Theorem unlisted_model_rejected (sv : services) (d : gmap str json) (raw : str) (model : json) :
    d !! py "name" = Some (JStr raw) ->
    d !! py "model" = Some model ->
    in_strs model AppPrecheck.VALID_MODELS = false ->
    (AppPrecheckPrompt.normalize raw <> [] ->
     AppPrecheckPrompt.predict sv (JObj d)
     = Run [] (Resp 400 (error_body AppPrecheckPrompt.invalid_model_message)))
    /\ (App.normalize raw <> [] ->
        App.predict sv (JObj d) = Run [] (Resp 400 (error_body App.invalid_model_message)))
    /\ (AppPrecheck.normalize raw <> [] ->
        AppPrecheck.predict sv (JObj d)
        = Run [] (let (valid, reason) := AppPrecheck.precheck_name (AppPrecheck.normalize raw) in
                  if valid
                  then Resp 400 (error_body AppPrecheck.invalid_model_message)
                  else Resp 200 (AppPrecheck.dict
                                   [(py "name", JStr (AppPrecheck.normalize raw));
                                    (py "prediction", JStr (py "Not Realistic"));
                                    (py "reason", AppPrecheck.option_json reason)]))).
Proof.
  intros Hname Hmodel Hnot. repeat split; intro Hne.
  - unfold AppPrecheckPrompt.predict. rewrite (truthy_with_name _ _ _ Hname).
    rewrite (get_default_Some _ _ _ _ Hname), (get_default_Some _ _ _ _ Hmodel).
    rewrite bool_decide_eq_false_2 by assumption.
    change AppPrecheckPrompt.VALID_MODELS with AppPrecheck.VALID_MODELS.
    rewrite Hnot. reflexivity.
  - unfold App.predict. rewrite (truthy_with_name _ _ _ Hname).
    rewrite (get_default_Some _ _ _ _ Hname), (get_default_Some _ _ _ _ Hmodel).
    rewrite bool_decide_eq_false_2 by assumption.
    change App.VALID_MODELS with AppPrecheck.VALID_MODELS.
    rewrite Hnot. reflexivity.
  - unfold AppPrecheck.predict. rewrite (truthy_with_name _ _ _ Hname).
    rewrite (get_default_Some _ _ _ _ Hname), (get_default_Some _ _ _ _ Hmodel).
    rewrite bool_decide_eq_false_2 by assumption. cbn [negb].
    destruct (AppPrecheck.precheck_name _) as [[] reason]; [|reflexivity].
    rewrite Hnot. reflexivity.
Qed.


Lemma unlisted_model_rejected_witness :
  AppPrecheckPrompt.predict offline
    (JObj (list_to_map [(py "name", JStr (py "rahim uddin")); (py "model", JStr (py "gpt-5"))]))
  = Run [] (Resp 400 (error_body AppPrecheckPrompt.invalid_model_message)).
Proof.
  apply (unlisted_model_rejected offline _ (py "rahim uddin") (JStr (py "gpt-5"))).
  - reflexivity.
  - reflexivity.
  - reflexivity.
  - vm_compute. discriminate.
Defined.

(** C2 as stated fails in app-precheck.py: the pre-check runs before the
    model check, so a rejected name with an unlisted model gets a verdict. *)
Lemma unlisted_model_after_precheck :
  in_strs (JStr (py "gpt-5")) AppPrecheck.VALID_MODELS = false
  /\ AppPrecheck.predict offline
       (JObj (list_to_map [(py "name", JStr (py "ku")); (py "model", JStr (py "gpt-5"))]))
     = Run [] (Resp 200 (AppPrecheck.dict
                           [(py "name", JStr (py "Ku"));
                            (py "prediction", JStr (py "Not Realistic"));
                            (py "reason", JStr (precheck_text TooFewLetters))])).
Proof. split; vm_compute; reflexivity. Qed.

(** C10: when the payload holds a name that is not a string,
    app-precheck.py answers 500 with the message of its catch-all handler,
    not 400, and makes no remote call. *)
Theorem non_string_name_is_server_error (sv : services) (d : gmap str json) (v : json) :
    d !! py "name" = Some v ->
    (forall s, v <> JStr s) ->
    AppPrecheck.predict sv (JObj d)
    = Run [] (Resp 500 (error_body (py "An unexpected server error occurred"))).
Proof.
  intros Hname Hv. unfold AppPrecheck.predict. rewrite (truthy_with_name _ _ _ Hname).
  rewrite (get_default_Some _ _ _ _ Hname). cbn [negb].
  destruct v; try reflexivity. now destruct (Hv s).
Qed.

Lemma non_string_name_is_server_error_witness :
  AppPrecheck.predict offline (JObj {[ py "name" := JInt 5 ]})
  = Run [] (Resp 500 (error_body (py "An unexpected server error occurred"))).
Proof.
  apply (non_string_name_is_server_error offline {[ py "name" := JInt 5 ]} (JInt 5)).
  - reflexivity.
  - intros s. discriminate.
Defined.

(** ** The fence pattern *)

Section MatcherFacts.
Context {A : Type}.
Implicit Types (k : @cont A) (s : str).

Lemma star_greedy_skip p ws s k a :
  Forall (fun c => p c = true) ws ->
  star_greedy p s k = Some a -> star_greedy p (ws ++ s) k = Some a.
Proof.
  intros Hws Hs. induction Hws as [|c ws Hc Hws IH]; [exact Hs|].
  cbn [app star_greedy]. now rewrite Hc, IH.
Qed.

Lemma star_greedy_fails p s k :
  (forall pre post, s = pre ++ post -> Forall (fun c => p c = true) pre -> k post = None) ->
  star_greedy p s k = None.
Proof.
  induction s as [|c r IH]; intro Hk; cbn [star_greedy].
  - apply (Hk [] []); [reflexivity|constructor].
  - destruct (p c) eqn:Hc.
    + rewrite IH; [apply (Hk [] (c :: r)); [reflexivity|constructor]|].
      intros pre post -> Hpre. apply (Hk (c :: pre) post); [reflexivity|now constructor].
    + apply (Hk [] (c :: r)); [reflexivity|constructor].
Qed.

Lemma star_lazy_skip x y k :
  (forall pre post, x = pre ++ post -> post <> [] -> k (post ++ y) = None) ->
  star_lazy any (x ++ y) k = star_lazy any y k.
Proof.
  induction x as [|c r IH]; intro Hk; [reflexivity|].
  assert (H0 : k ((c :: r) ++ y) = None) by (apply (Hk []); [reflexivity|discriminate]).
  cbn [app] in H0 |- *. cbn [star_lazy]. rewrite H0. cbn [any]. apply IH. intros pre post -> Hpost. now apply (Hk (c :: pre) post).
Qed.
End MatcherFacts.


Lemma startswith_cons c s p t : startswith (c :: s) (p :: t) = (c =? p) && startswith s t.
Proof. reflexivity. Qed.

Lemma startswith_nil s : startswith s [] = true.
Proof. destruct s; reflexivity. Qed.

Lemma startswith_app_short post c tail :
  startswith (post ++ c :: tail) (py "```") = true -> c <> 0x60 ->
  startswith post (py "```") = true.
Proof.
  intros H Hc.
  assert (Hno : (c =? 96) = false) by now apply N.eqb_neq.
  change (py "```") with [96; 96; 96] in *.
  destruct post as [|c1 [|c2 [|c3 post]]]; cbn [app] in H;
    rewrite ?startswith_cons, ?startswith_nil in *; rewrite ?Hno, ?andb_false_r in H;
    try discriminate H; exact H.
Qed.

Lemma contains_suffix t s :
  contains t s = false -> forall pre post, s = pre ++ post -> startswith post t = false.
Proof.
  intros H pre. revert s H. induction pre as [|c pre IH]; intros s H post ->.
  - cbn [app] in H. destruct post; cbn [contains] in H; now apply orb_false_elim in H.
  - cbn [app contains] in H. apply orb_false_elim in H as [_ H]. now apply (IH _ H).
Qed.


Lemma classes_text {A} t s (k : @cont A) :
  classes (text t) s k = if startswith s t then k (drop (length t) s) else None.
Proof.
  revert s. induction t as [|p t IH]; intro s.
  - now rewrite startswith_nil.
  - cbn [text List.map classes fold_right]. unfold and_then, one.
    destruct s as [|c r]; [reflexivity|].
    rewrite startswith_cons. unfold exactly. destruct (c =? p); [|reflexivity].
    apply IH.
Qed.

Lemma fence_match_at_head s g :
  fence_match_at s = Some g -> startswith s (py "```") = true.
Proof.
  unfold fence_match_at, and_then. rewrite classes_text.
  destruct (startswith s (py "```")); [reflexivity|discriminate].
Qed.

Lemma search_fence_without_backticks s :
  contains (py "```") s = false -> search_fence s = None.
Proof.
  induction s as [|c r IH]; intro H.
  - reflexivity.
  - cbn [search_fence].
    destruct (fence_match_at (c :: r)) eqn:E.
    + apply fence_match_at_head in E.
      cbn [contains] in H. apply orb_false_elim in H as [H _]. congruence.
    + apply IH. cbn [contains] in H. now apply orb_false_elim in H.
Qed.

Lemma braces_shape p :
  startswith p (py "{") = true -> endswith p (py "}") = true ->
  exists b, p = 0x7B :: b ++ [0x7D].
Proof.
  unfold endswith. change (py "{") with [0x7B]. change (rev (py "}")) with [0x7D].
  intros Hs He. destruct (rev p) as [|c t] eqn:Er; [discriminate He|].
  rewrite startswith_cons, startswith_nil, andb_true_r in He. apply N.eqb_eq in He. subst c.
  apply (f_equal (@rev _)) in Er. rewrite rev_involutive in Er. cbn [rev] in Er. subst p.
  destruct (rev t) as [|c b].
  - discriminate Hs.
  - cbn [app] in Hs. rewrite startswith_cons, startswith_nil, andb_true_r in Hs.
    apply N.eqb_eq in Hs. subst c. now exists b.
Qed.

Lemma Forall_isspace ws : forallb isspace ws = true -> Forall (fun c => isspace c = true) ws.
Proof. intro H. apply List.Forall_forall. intros c Hc. now apply (proj1 (forallb_forall _ _) H). Qed.

Lemma startswith_app s t u : startswith s t = true -> startswith (s ++ u) t = true.
Proof.
  revert s. induction t as [|p t IH]; intros s H; [apply startswith_nil|].
  destruct s as [|c s]; [discriminate H|].
  cbn [app]. rewrite startswith_cons in *. apply andb_true_iff in H as [-> H].
  now apply IH.
Qed.

(** No fence opens after blanks in a string that holds no fence and ends
    with a closing brace. *)
Lemma no_fence_after_blanks x tail :
  (forall pre post, x ++ [0x7D] = pre ++ post -> startswith post (py "```") = false) ->
  forall pre rest,
    x ++ 0x7D :: tail = pre ++ rest -> Forall (fun c => isspace c = true) pre ->
    startswith rest (py "```") = false.
Proof.
  intros Hx pre rest Hsplit Hpre. revert x Hx Hsplit.
  induction Hpre as [|d pre Hd Hpre IH]; intros x Hx Hsplit.
  - cbn [app] in Hsplit. subst rest.
    destruct (startswith (x ++ 125 :: tail) (py "```")) eqn:E; [|reflexivity].
    apply startswith_app_short in E; [|discriminate].
    apply (startswith_app _ _ [125]) in E.
    pose proof (Hx [] (x ++ [125]) eq_refl) as Hx0. congruence.
  - destruct x as [|e x]; cbn [app] in Hsplit; injection Hsplit as He Hsplit.
    + subst d. discriminate Hd.
    + apply (IH x); [|assumption].
      intros pre' post E. apply (Hx (e :: pre') post). cbn [app]. now rewrite E.
Qed.

Lemma closing_fails s1 s2 :
  (forall pre rest, s2 = pre ++ rest -> Forall (fun c => isspace c = true) pre ->
                    startswith rest (py "```") = false) ->
  closing s1 s2 = None.
Proof.
  intro H. unfold closing, and_then. apply star_greedy_fails.
  intros pre rest E Hpre. now rewrite classes_text, (H pre rest E Hpre).
Qed.

Lemma closing_matches s1 ws :
  Forall (fun c => isspace c = true) ws ->
  closing s1 (ws ++ py "```") = Some (take (length s1 - length (ws ++ py "```")) s1).
Proof.
  intro Hws. unfold closing, and_then.
  apply star_greedy_skip; [assumption|]. reflexivity.
Qed.

Lemma group1_payload b ws :
  contains (py "```") (0x7B :: b ++ [0x7D]) = false ->
  Forall (fun c => isspace c = true) ws ->
  group1 ((0x7B :: b ++ [0x7D]) ++ ws ++ py "```") = Some (0x7B :: b ++ [0x7D]).
Proof.
  intros Hno Hws. set (p := 0x7B :: b ++ [0x7D]) in *.
  set (tail := ws ++ py "```").
  unfold group1, and_then. set (s1 := p ++ tail).
  replace s1 with (0x7B :: b ++ 0x7D :: tail)
    by (unfold s1, p; cbn [app]; now rewrite <- app_assoc).
  unfold one at 1. change (exactly (ord "{") 123) with true. cbv iota.
  rewrite star_lazy_skip.
  - cbn [star_lazy]. unfold one at 1. change (exactly (ord "}") 125) with true. cbv iota.
    unfold tail. rewrite closing_matches by assumption. f_equal.
    fold tail.
    replace (123 :: b ++ 125 :: tail) with (p ++ tail)
      by (unfold p; cbn [app]; now rewrite <- app_assoc).
    replace (length (p ++ tail) - length tail)%nat with (length p)
      by (rewrite length_app; lia).
    apply take_app_length.
  - intros pre post -> Hpost. destruct post as [|c post]; [contradiction|].
    cbn [app]. unfold one, exactly.
    destruct (N.eqb_spec c (ord "}")) as [->|]; [|reflexivity].
    apply closing_fails. apply no_fence_after_blanks.
    intros pre' post' E.
    apply (contains_suffix _ _ Hno (123 :: pre ++ [ord "}"] ++ pre') post').
    unfold p. cbn [app]. f_equal.
    rewrite <- !List.app_assoc. cbn [app]. now rewrite E.
Qed.

(** The fence pattern on a payload in braces, free of triple backquotes,
    between blanks and the two fences: group 1 is the payload. *)
Lemma search_fence_fenced p ws1 ws2 :
  startswith p (py "{") = true -> endswith p (py "}") = true ->
  contains (py "```") p = false ->
  forallb isspace ws1 = true -> forallb isspace ws2 = true ->
  search_fence (fenced ws1 p ws2) = Some p.
Proof.
  intros Hs He Hno Hws1 Hws2.
  destruct (braces_shape p Hs He) as [b ->].
  apply Forall_isspace in Hws1, Hws2.
  assert (H : fence_match_at (fenced ws1 (0x7B :: b ++ [0x7D]) ws2)
              = Some (0x7B :: b ++ [0x7D])).
  { unfold fenced, fence_match_at, and_then.
    change (py "```json") with (py "```" ++ py "json"). rewrite <- app_assoc.
    rewrite classes_text.
    change (startswith (py "```" ++ ?x) (py "```")) with true. cbv iota.
    change (drop (length (py "```")) (py "```" ++ ?x)) with x.
    cbn [text_nocase py List.map list_ascii_of_string classes fold_right app].
    unfold and_then, nothing, one.
    change (nocase (N_of_ascii "j") (N_of_ascii "j")) with true.
    change (nocase (N_of_ascii "s") (N_of_ascii "s")) with true.
    change (nocase (N_of_ascii "o") (N_of_ascii "o")) with true.
    change (nocase (N_of_ascii "n") (N_of_ascii "n")) with true. cbv iota.
    apply star_greedy_skip; [assumption|].
    cbn [app star_greedy]. change (isspace 123) with false. cbv iota.
    apply (group1_payload b ws2 Hno Hws2). }
  unfold fenced in *. destruct (py "```json" ++ ws1 ++ (123 :: b ++ [125]) ++ ws2 ++ py "```");
    cbn [search_fence]; now rewrite H.
Qed.

Lemma rstrip_snoc x c : isspace c = false -> rstrip (x ++ [c]) = x ++ [c].
Proof.
  intro Hc. induction x as [|d x IH]; cbn [app].
  - cbn [rstrip]. now rewrite Hc.
  - rewrite rstrip_cons, IH. rewrite bool_decide_eq_false_2; [reflexivity|].
    destruct x; discriminate.
Qed.

Lemma strip_braces p :
  startswith p (py "{") = true -> endswith p (py "}") = true -> strip p = p.
Proof.
  intros Hs He. destruct (braces_shape p Hs He) as [b ->].
  unfold strip. cbn [lstrip]. change (isspace 123) with false. cbv iota.
  change (123 :: b ++ [125]) with ((123 :: b) ++ [125]). now apply rstrip_snoc.
Qed.

(** C8, as the code has it: for a payload that starts with an opening
    brace, ends with a closing brace and holds no run of three backquotes,
    the reply made of the payload in a json code fence (blanks allowed on
    both sides of the payload) is parsed to the same response as the
    payload alone, in app.py and in app-precheck.py. *)
Theorem fenced_reply_parsed_as_bare :
  forall (sv : services) (name p ws1 ws2 : str),
    startswith p (py "{") = true -> endswith p (py "}") = true ->
    contains (py "```") p = false ->
    forallb isspace ws1 = true -> forallb isspace ws2 = true ->
    App.parse_reply sv name (fenced ws1 p ws2) = App.parse_reply sv name p
    /\ AppPrecheck.parse_reply sv name (fenced ws1 p ws2) = AppPrecheck.parse_reply sv name p.
Proof.
  intros sv name p ws1 ws2 Hs He Hno Hws1 Hws2.
  pose proof (search_fence_fenced p ws1 ws2 Hs He Hno Hws1 Hws2) as Hf.
  pose proof (search_fence_without_backticks p Hno) as Hb.
  split.
  - unfold App.parse_reply, App.extract_json_from_response.
    rewrite Hf, Hb, (strip_braces p Hs He), Hs, He. reflexivity.
  - unfold AppPrecheck.parse_reply, AppPrecheck.json_str. now rewrite Hf, Hb.
Qed.

Lemma fenced_reply_parsed_as_bare_witness :
  startswith plain_payload (py "{") = true
  /\ endswith plain_payload (py "}") = true
  /\ contains (py "```") plain_payload = false
  /\ AppPrecheck.parse_reply (decoding tricky_value) (py "Zed")
       (fenced [0x0A] plain_payload [0x0A])
     = AppPrecheck.parse_reply (decoding tricky_value) (py "Zed") plain_payload.
Proof.
  split; [reflexivity|]. split; [reflexivity|]. split; [reflexivity|].
  apply (fenced_reply_parsed_as_bare (decoding tricky_value) (py "Zed")
           plain_payload [0x0A] [0x0A]); reflexivity.
Defined.

(** C8 as stated fails for a payload with a closing brace followed by
    three backquotes inside a string: the lazy group stops at that brace,
    the text handed to [json.loads] is a prefix of the payload, and the
    fenced reply is answered with 500 where the bare payload is answered
    with its verdict. *)
Lemma fenced_payload_cut_short :
  startswith tricky_payload (py "{") = true
  /\ endswith tricky_payload (py "}") = true
  /\ AppPrecheck.json_str (fenced [0x0A] tricky_payload [0x0A]) = tricky_prefix
  /\ AppPrecheck.json_str tricky_payload = tricky_payload
  /\ App.extract_json_from_response (fenced [0x0A] tricky_payload [0x0A]) = tricky_prefix
  /\ App.extract_json_from_response tricky_payload = tricky_payload
  /\ (forall sv name,
        json_loads sv tricky_payload = Loaded tricky_value ->
        json_loads sv tricky_prefix = JSONDecodeError ->
        AppPrecheck.parse_reply sv name (fenced [0x0A] tricky_payload [0x0A])
        <> AppPrecheck.parse_reply sv name tricky_payload
        /\ App.parse_reply sv name (fenced [0x0A] tricky_payload [0x0A])
           <> App.parse_reply sv name tricky_payload)
  /\ AppPrecheck.parse_reply (table_decoder [(tricky_payload, tricky_value)]) (py "Zed")
       (fenced [0x0A] tricky_payload [0x0A])
     = Resp 500 (error_body (py "Invalid JSON response format from model"))
  /\ AppPrecheck.parse_reply (table_decoder [(tricky_payload, tricky_value)]) (py "Zed")
       tricky_payload
     = Resp 200 (AppPrecheck.dict [(py "name", JStr (py "Zed"));
                                   (py "prediction", JStr (py "Not Realistic"));
                                   (py "reason", JStr (py "}```"))]).
Proof.
  assert (E1 : AppPrecheck.json_str (fenced [0x0A] tricky_payload [0x0A]) = tricky_prefix)
    by (vm_compute; reflexivity).
  assert (E2 : AppPrecheck.json_str tricky_payload = tricky_payload) by (vm_compute; reflexivity).
  assert (E3 : App.extract_json_from_response (fenced [0x0A] tricky_payload [0x0A]) = tricky_prefix)
    by (vm_compute; reflexivity).
  assert (E4 : App.extract_json_from_response tricky_payload = tricky_payload)
    by (vm_compute; reflexivity).
  repeat match goal with |- _ /\ _ => split end; try assumption; try (vm_compute; reflexivity).
  - intros sv name Hok Hbad. unfold AppPrecheck.parse_reply, App.parse_reply.
    rewrite E1, E2, E3, E4, Hok, Hbad. split; vm_compute; discriminate.
Qed.

(** ** The verdict of a decoded reply *)

Lemma in_strs_realistic :
  in_strs (JStr (py "Realistic")) [py "Realistic"; py "Not Realistic"] = true
  /\ in_strs (JStr (py "Not Realistic")) [py "Realistic"; py "Not Realistic"] = true
  /\ eq_str (JStr (py "Realistic")) (py "Realistic") = true
  /\ eq_str (JStr (py "Not Realistic")) (py "Realistic") = false
  /\ eq_str (JStr (py "Not Realistic")) (py "Not Realistic") = true.
Proof. repeat split; vm_compute; reflexivity. Qed.

Lemma get_Some (d : gmap str json) k v : d !! k = Some v -> get d k = v.
Proof. intro H. unfold get. now rewrite H. Qed.

Lemma precheck_parse_reply_verdict (sv : services) (name reply : str) (result : gmap str json) :
  json_loads sv (AppPrecheck.json_str reply) = Loaded (JObj result) ->
  (result !! py "prediction" = Some (JStr (py "Realistic")) ->
   AppPrecheck.parse_reply sv name reply
   = Resp 200 (AppPrecheck.dict [(py "name", JStr name);
                                 (py "prediction", JStr (py "Realistic"))]))
  /\ (result !! py "prediction" = Some (JStr (py "Not Realistic")) ->
      AppPrecheck.parse_reply sv name reply
      = Resp 200 (AppPrecheck.dict
                    [(py "name", JStr name);
                     (py "prediction", JStr (py "Not Realistic"));
                     (py "reason", match result !! py "reason" with
                                   | Some reason => reason
                                   | None => JStr (py "Reason not provided by AI.")
                                   end)])).
Proof.
  intro Hload. destruct in_strs_realistic as (I1 & I2 & E1 & E2 & E3).
  split; intro Hpred; unfold AppPrecheck.parse_reply; rewrite Hload, (get_Some _ _ _ Hpred).
  - rewrite I1, E1. reflexivity.
  - rewrite I2, E2. cbn [negb]. unfold get_default.
    destruct (result !! py "reason"); reflexivity.
Qed.

Lemma app_parse_reply_verdict (sv : services) (name reply : str) (result : gmap str json) :
  json_loads sv (App.extract_json_from_response reply) = Loaded (JObj result) ->
  (result !! py "prediction" = Some (JStr (py "Realistic")) ->
   App.parse_reply sv name reply
   = Resp 200 (App.dict [(py "name", JStr name); (py "prediction", JStr (py "Realistic"))]))
  /\ (result !! py "prediction" = Some (JStr (py "Not Realistic")) ->
      App.parse_reply sv name reply
      = Resp 200 (App.dict
                    [(py "name", JStr name);
                     (py "prediction", JStr (py "Not Realistic"));
                     (py "reason", match result !! py "reason" with
                                   | Some reason => reason
                                   | None => JStr (py "Reason not provided by AI.")
                                   end)])).
Proof.
  intro Hload. destruct in_strs_realistic as (I1 & I2 & E1 & E2 & E3).
  split; intro Hpred; unfold App.parse_reply; rewrite Hload, (get_Some _ _ _ Hpred).
  - rewrite I1, E1. reflexivity.
  - rewrite I2, E2, E3. cbn [negb]. unfold get_default.
    destruct (result !! py "reason"); reflexivity.
Qed.

Lemma error_body_policy msg : reason_policy (error_body msg).
Proof. split; intro H; vm_compute in H; discriminate. Qed.

Lemma precheck_parse_reply_policy sv name reply status body :
  AppPrecheck.parse_reply sv name reply = Resp status body -> reason_policy body.
Proof.
  unfold AppPrecheck.parse_reply.
  destruct (json_loads sv _) as [v| |msg|msg]; [destruct v|..].
  all: try (intros [= <- <-]; apply error_body_policy).
  destruct (negb _); [intros [= <- <-]; apply error_body_policy|].
  destruct (eq_str _ _); intros [= <- <-]; split; intro H.
  - reflexivity.
  - vm_compute in H. discriminate.
  - vm_compute in H. discriminate.
  - eexists. reflexivity.
Qed.

Lemma app_parse_reply_policy sv name reply status body :
  App.parse_reply sv name reply = Resp status body -> reason_policy body.
Proof.
  unfold App.parse_reply.
  destruct (json_loads sv _) as [v| |msg|msg]; [destruct v|..].
  all: try (intros [= <- <-]; apply error_body_policy).
  destruct (negb _); [intros [= <- <-]; apply error_body_policy|].
  destruct (eq_str _ (py "Realistic")).
  - intros [= <- <-]; split; intro H; [reflexivity|vm_compute in H; discriminate].
  - destruct (eq_str _ _); [|discriminate].
    intros [= <- <-]; split; intro H; [vm_compute in H; discriminate|eexists; reflexivity].
Qed.

Lemma precheck_predict_policy sv data status body :
  result (AppPrecheck.predict sv data) = Resp status body -> reason_policy body.
Proof.
  unfold AppPrecheck.predict, AppPrecheck.unexpected, done.
  destruct (negb (truthy data)); [intros [= <- <-]; apply error_body_policy|].
  destruct data; try (intros [= <- <-]; apply error_body_policy).
  destruct (get_default _ _ _); try (intros [= <- <-]; apply error_body_policy).
  destruct (bool_decide _); [intros [= <- <-]; apply error_body_policy|].
  destruct (AppPrecheck.precheck_name _) as [[] reason].
  - destruct (negb _); [intros [= <- <-]; apply error_body_policy|].
    unfold AppPrecheck.classify. cbn [result].
    destruct (chat_create sv _); [|intros [= <- <-]; apply error_body_policy].
    apply precheck_parse_reply_policy.
  - intros [= <- <-]. split; intro H; [vm_compute in H; discriminate|eexists; reflexivity].
Qed.

Lemma app_predict_policy sv data status body :
  result (App.predict sv data) = Resp status body -> reason_policy body.
Proof.
  unfold App.predict, App.unexpected, done.
  destruct (negb (truthy data)); [intros [= <- <-]; apply error_body_policy|].
  destruct data; try (intros [= <- <-]; apply error_body_policy).
  destruct (get_default _ _ _); try (intros [= <- <-]; apply error_body_policy).
  destruct (bool_decide _); [intros [= <- <-]; apply error_body_policy|].
  destruct (negb _); [intros [= <- <-]; apply error_body_policy|].
  unfold App.classify. cbn [result].
  destruct (chat_create sv _); [|intros [= <- <-]; apply error_body_policy].
  apply app_parse_reply_policy.
Qed.

(** C7, as the code has it: when the decoded reply is an object whose
    prediction is [Realistic], the response is 200 with the name and the
    prediction and nothing else, whatever reason the reply holds; when it
    is [Not Realistic], the response also holds a reason: the value the
    reply holds under [reason], passed on as it is whatever JSON value it
    is (a string, but also [null], a number, a list), and the fixed
    placeholder string when the reply has no [reason] (app.py and
    app-precheck.py).  More generally every response of the two endpoints
    obeys the policy: no reason beside [Realistic], a reason beside
    [Not Realistic]. *)
Theorem verdict_reason_policy :
  forall (sv : services) (name reply : str) (decoded : gmap str json),
    (json_loads sv (AppPrecheck.json_str reply) = Loaded (JObj decoded) ->
     (decoded !! py "prediction" = Some (JStr (py "Realistic")) ->
      AppPrecheck.parse_reply sv name reply
      = Resp 200 (AppPrecheck.dict [(py "name", JStr name);
                                    (py "prediction", JStr (py "Realistic"))]))
     /\ (decoded !! py "prediction" = Some (JStr (py "Not Realistic")) ->
         AppPrecheck.parse_reply sv name reply
         = Resp 200 (AppPrecheck.dict
                       [(py "name", JStr name);
                        (py "prediction", JStr (py "Not Realistic"));
                        (py "reason", match decoded !! py "reason" with
                                      | Some reason => reason
                                      | None => JStr (py "Reason not provided by AI.")
                                      end)])))
    /\ (json_loads sv (App.extract_json_from_response reply) = Loaded (JObj decoded) ->
        (decoded !! py "prediction" = Some (JStr (py "Realistic")) ->
         App.parse_reply sv name reply
         = Resp 200 (App.dict [(py "name", JStr name);
                               (py "prediction", JStr (py "Realistic"))]))
        /\ (decoded !! py "prediction" = Some (JStr (py "Not Realistic")) ->
            App.parse_reply sv name reply
            = Resp 200 (App.dict
                          [(py "name", JStr name);
                           (py "prediction", JStr (py "Not Realistic"));
                           (py "reason", match decoded !! py "reason" with
                                         | Some reason => reason
                                         | None => JStr (py "Reason not provided by AI.")
                                         end)])))
    /\ (forall data status body,
          result (AppPrecheck.predict sv data) = Resp status body -> reason_policy body)
    /\ (forall data status body,
          result (App.predict sv data) = Resp status body -> reason_policy body).
Proof.
  intros sv name reply decoded. split; [|split; [|split]].
  - apply precheck_parse_reply_verdict.
  - apply app_parse_reply_verdict.
  - intros data status body. apply precheck_predict_policy.
  - intros data status body. apply app_predict_policy.
Qed.

Lemma verdict_reason_policy_witness :
  json_loads (decoding (JObj (list_to_map [(py "prediction", JStr (py "Realistic"));
                                           (py "reason", JStr (py "looks fine"))])))
             (AppPrecheck.json_str plain_payload)
  = Loaded (JObj (list_to_map [(py "prediction", JStr (py "Realistic"));
                               (py "reason", JStr (py "looks fine"))]))
  /\ AppPrecheck.parse_reply
       (decoding (JObj (list_to_map [(py "prediction", JStr (py "Realistic"));
                                     (py "reason", JStr (py "looks fine"))])))
       (py "Zed") plain_payload
     = Resp 200 (AppPrecheck.dict [(py "name", JStr (py "Zed"));
                                   (py "prediction", JStr (py "Realistic"))]).
Proof.
  split; [reflexivity|].
  apply (proj1 (verdict_reason_policy
                  (decoding (JObj (list_to_map [(py "prediction", JStr (py "Realistic"));
                                                (py "reason", JStr (py "looks fine"))])))
                  (py "Zed") plain_payload
                  (list_to_map [(py "prediction", JStr (py "Realistic"));
                                (py "reason", JStr (py "looks fine"))]))).
  - reflexivity.
  - reflexivity.
Defined.

(** C7 as stated fails when the reason of the reply is not a string: a
    reason that is [null] is passed on as [null], which is neither a string
    supplied by the model nor the placeholder. *)
Lemma null_reason_passed_on :
  json_loads (table_decoder [(null_reason_payload, null_reason_value)])
             (AppPrecheck.json_str null_reason_payload)
  = Loaded null_reason_value
  /\ AppPrecheck.parse_reply (table_decoder [(null_reason_payload, null_reason_value)])
                             (py "Zed") null_reason_payload
     = Resp 200 (AppPrecheck.dict [(py "name", JStr (py "Zed"));
                                   (py "prediction", JStr (py "Not Realistic"));
                                   (py "reason", JNull)])
  /\ App.parse_reply (table_decoder [(null_reason_payload, null_reason_value)])
                     (py "Zed") null_reason_payload
     = Resp 200 (App.dict [(py "name", JStr (py "Zed"));
                           (py "prediction", JStr (py "Not Realistic"));
                           (py "reason", JNull)])
  /\ (forall s : str,
        AppPrecheck.dict [(py "name", JStr (py "Zed"));
                          (py "prediction", JStr (py "Not Realistic"));
                          (py "reason", JNull)] !! py "reason" <> Some (JStr s)).
Proof.
  split; [vm_compute; reflexivity|]. split; [vm_compute; reflexivity|].
  split; [vm_compute; reflexivity|]. intros s H. vm_compute in H. discriminate H.
Qed.

(** ** Replies without a fence *)

(** C9: when the pattern of the json fence matches nowhere in the reply,
    [extract_json_from_response] returns the stripped reply, whether or
    not it starts and ends with braces. *)
Theorem unfenced_reply_passed_whole :
  forall text : str,
    search_fence text = None -> App.extract_json_from_response text = strip text.
Proof.
  intros text H. unfold App.extract_json_from_response. rewrite H.
  destruct (startswith _ _ && endswith _ _); reflexivity.
Qed.

Lemma unfenced_reply_passed_whole_witness :
  search_fence (py "  Sorry, I cannot classify that. ") = None
  /\ App.extract_json_from_response (py "  Sorry, I cannot classify that. ")
     = py "Sorry, I cannot classify that.".
Proof.
  split; [reflexivity|].
  apply (unfenced_reply_passed_whole (py "  Sorry, I cannot classify that. ")).
  reflexivity.
Defined.

(** * Further properties *)

Import Outcomes TestModels.

(** ** Names and payloads *)

Lemma split_from_blank s : forallb isspace s = true -> split_from [] s = [].
Proof.
  induction s as [|c r IH]; [reflexivity|]. cbn [forallb split_from].
  intro H. apply andb_true_iff in H as [-> H]. now apply IH.
Qed.

Lemma split_from_token cur s : cur <> [] -> split_from cur s <> [].
Proof.
  revert cur. induction s as [|c r IH]; intros cur Hcur; cbn [split_from].
  - destruct cur; [contradiction|discriminate].
  - destruct (isspace c).
    + destruct cur; [contradiction|discriminate].
    + apply IH. destruct cur; discriminate.
Qed.

Lemma split_empty_iff s : split s = [] <-> forallb isspace s = true.
Proof.
  unfold split. split; [|apply split_from_blank].
  induction s as [|c r IH]; [reflexivity|]. cbn [forallb split_from].
  destruct (isspace c); [exact IH|].
  intro H. now apply split_from_token in H.
Qed.

Lemma rstrip_empty_iff s : rstrip s = [] <-> forallb isspace s = true.
Proof.
  induction s as [|c r IH]; [split; reflexivity|].
  rewrite rstrip_cons. cbn [forallb]. destruct (isspace c) eqn:Ec.
  - rewrite andb_true_r. cbn [andb]. rewrite <- IH.
    destruct (bool_decide (rstrip r = [])) eqn:Eb.
    + apply bool_decide_eq_true_1 in Eb. split; auto.
    + apply bool_decide_eq_false_1 in Eb. split; [discriminate|contradiction].
  - rewrite andb_false_r. split; discriminate.
Qed.

Lemma split_lstrip s : split (lstrip s) = split s.
Proof.
  unfold split. induction s as [|c r IH]; [reflexivity|]. cbn [lstrip split_from].
  destruct (isspace c) eqn:Ec; [exact IH|]. cbn [split_from]. now rewrite Ec.
Qed.

Lemma split_from_rstrip s : forall cur, split_from cur (rstrip s) = split_from cur s.
Proof.
  induction s as [|c r IH]; intro cur; [reflexivity|].
  rewrite rstrip_cons. destruct (bool_decide (rstrip r = []) && isspace c) eqn:E.
  - apply andb_true_iff in E as [Er Ec]. apply bool_decide_eq_true_1 in Er.
    apply rstrip_empty_iff, split_from_blank in Er.
    cbn [split_from]. rewrite Ec, Er. destruct cur; reflexivity.
  - cbn [split_from]. destruct (isspace c); rewrite ?IH; reflexivity.
Qed.

Lemma split_strip s : split (strip s) = split s.
Proof. unfold strip, split. rewrite split_from_rstrip. apply split_lstrip. Qed.

Lemma sub_strip_tokens s : re_sub_spaces (strip s) = join (py " ") (split s).
Proof.
  rewrite <- split_strip.
  destruct (strip_shape s) as [Hfix Hhead]. unfold re_sub_spaces.
  destruct Hhead as [->|(c & r & E & Hc)]; [reflexivity|].
  rewrite E in *. destruct (sub_blank_runs_tokens r (rstrip_fixed_tail _ _ Hfix)) as [H1 _].
  cbn [sub_blank_runs]. unfold split. cbn [split_from]. rewrite Hc.
  cbn [app]. rewrite <- (H1 [c]) by discriminate. reflexivity.
Qed.

(** The normalisers, as what they compute. *)
Lemma normalize_as_tokens (raw : str) :
  AppPrecheck.normalize raw
  = join (py " ") (List.map AppPrecheck.capitalize_word (split raw))
  /\ AppPrecheckPrompt.normalize raw = AppPrecheck.normalize raw
  /\ App.normalize raw = join (py " ") (split raw).
Proof.
  assert (H1 : AppPrecheck.normalize raw
               = join (py " ") (List.map AppPrecheck.capitalize_word (split raw))).
  { rewrite normalize_tokens. now rewrite split_strip. }
  split; [exact H1|]. split.
  - rewrite H1. unfold AppPrecheckPrompt.normalize.
    rewrite sub_strip_tokens, split_join by apply split_solid. reflexivity.
  - unfold App.normalize. rewrite strip_sub_strip. now rewrite split_strip.
Qed.

(** X1: what the three normalisers compute.  The endpoint of app.py joins
    the blank-separated tokens of the raw name with single spaces; the two
    pre-checking endpoints join the same tokens, each capitalised, so the
    second [strip] that app-precheck-prompt-enhanment.py leaves out changes
    nothing; and normalising never changes the tokens of app.py. *)
Theorem normalizers_are_token_joins :
  forall raw : str,
    App.normalize raw = join (py " ") (split raw)
    /\ AppPrecheck.normalize raw
       = join (py " ") (List.map AppPrecheck.capitalize_word (split raw))
    /\ AppPrecheckPrompt.normalize raw = AppPrecheck.normalize raw
    /\ split (App.normalize raw) = split raw.
Proof.
  intro raw. destruct (normalize_as_tokens raw) as (H1 & H2 & H3).
  split; [exact H3|]. split; [exact H1|]. split; [exact H2|].
  rewrite H3. apply split_join, split_solid.
Qed.

Lemma case_map_nonempty runs special c :
  forallb (fun e : N * list N => negb (bool_decide (snd e = []))) special = true ->
  Unicode.case_map runs special c <> [].
Proof.
  intro Hall. unfold Unicode.case_map.
  destruct (List.find _ special) as [e|] eqn:E.
  - apply List.find_some in E as [Hin _].
    apply (proj1 (forallb_forall _ _) Hall) in Hin.
    apply negb_true_iff, bool_decide_eq_false_1 in Hin. exact Hin.
  - destruct (List.find _ runs); discriminate.
Qed.

Lemma upper_char_nonempty c : upper_char c <> [].
Proof.
  unfold upper_char. repeat (destruct (_ : bool); try discriminate).
  apply case_map_nonempty. vm_compute. reflexivity.
Qed.

Lemma capitalize_word_nonempty w : w <> [] -> AppPrecheck.capitalize_word w <> [].
Proof.
  destruct w as [|c r]; [contradiction|]. intros _.
  unfold AppPrecheck.capitalize_word, upper. simpl.
  destruct (upper_char c) eqn:E; [now apply upper_char_nonempty in E|discriminate].
Qed.

Lemma join_empty_iff L : Forall (fun w : str => w <> []) L -> join (py " ") L = [] <-> L = [].
Proof.
  intro HL. split; [|now intros ->].
  destruct HL as [|w L Hw HL]; [reflexivity|].
  destruct w; [contradiction|]. destruct L; discriminate.
Qed.

Lemma normalize_empty_iff (raw : str) :
  (AppPrecheck.normalize raw = [] <-> forallb isspace raw = true)
  /\ (App.normalize raw = [] <-> forallb isspace raw = true).
Proof.
  destruct (normalize_as_tokens raw) as (H1 & _ & H3). rewrite H1, H3.
  rewrite <- split_empty_iff. split.
  - rewrite join_empty_iff.
    + split; [apply map_eq_nil|now intros ->].
    + apply Forall_map. eapply Forall_impl; [apply split_solid|].
      intros w [Hw _]. now apply capitalize_word_nonempty.
  - apply join_empty_iff. eapply Forall_impl; [apply split_solid|]. now intros w [Hw _].
Qed.

Lemma error_body_inj a b : error_body a = error_body b -> a = b.
Proof.
  unfold error_body. intro H.
  apply (f_equal (fun m : gmap str json => m !! py "error")) in H.
  rewrite !lookup_singleton_eq in H. congruence.
Qed.

Lemma error_run_inj status a b :
  Run [] (Resp status (error_body a)) = Run [] (Resp status (error_body b)) -> a = b.
Proof.
  intro H. apply error_body_inj.
  exact (f_equal (fun r => match result r with Resp _ body => body | Unhandled _ => ∅ end) H).
Qed.

Lemma invalid_model_is_not_no_name :
  AppPrecheck.invalid_model_message <> py "No name provided"
  /\ AppPrecheckPrompt.invalid_model_message <> py "No name provided"
  /\ App.invalid_model_message <> py "No name provided".
Proof.
  repeat split; intro H; apply (f_equal (@length _)) in H; vm_compute in H; discriminate H.
Qed.

(** X2: when the payload holds a string under [name], each of the three
    endpoints answers 400 [No name provided], without a remote call,
    exactly when that string is empty or made of whitespace only. *)
Theorem blank_name_is_client_error :
  forall (sv : services) (d : gmap str json) (raw : str),
    d !! py "name" = Some (JStr raw) ->
    (AppPrecheck.predict sv (JObj d) = no_name <-> forallb isspace raw = true)
    /\ (AppPrecheckPrompt.predict sv (JObj d) = no_name <-> forallb isspace raw = true)
    /\ (App.predict sv (JObj d) = no_name <-> forallb isspace raw = true).
Proof.
  intros sv d raw Hname.
  destruct (normalize_empty_iff raw) as [Hp Ha].
  destruct (normalize_as_tokens raw) as (_ & Hq & _).
  destruct invalid_model_is_not_no_name as (Hm1 & Hm2 & Hm3).
  split; [|split].
  - rewrite <- Hp. unfold AppPrecheck.predict, no_name.
    rewrite (truthy_with_name _ _ _ Hname), (get_default_Some _ _ _ _ Hname). cbn [negb].
    destruct (bool_decide (AppPrecheck.normalize raw = [])) eqn:E.
    + apply bool_decide_eq_true_1 in E. split; auto.
    + apply bool_decide_eq_false_1 in E. split; [|contradiction]. intro H. exfalso.
      destruct (AppPrecheck.precheck_name _) as [[] reason]; [|discriminate H].
      destruct (negb _); [|discriminate H].
      unfold done in H. now apply error_run_inj in H.
  - rewrite <- Hp, <- Hq. unfold AppPrecheckPrompt.predict, no_name.
    rewrite (truthy_with_name _ _ _ Hname), (get_default_Some _ _ _ _ Hname).
    destruct (bool_decide (AppPrecheckPrompt.normalize raw = [])) eqn:E.
    + apply bool_decide_eq_true_1 in E. split; auto.
    + apply bool_decide_eq_false_1 in E. split; [|contradiction]. intro H. exfalso.
      destruct (negb _); [unfold done in H; now apply error_run_inj in H|].
      destruct (AppPrecheckPrompt.precheck_name _) as [[] reason]; discriminate H.
  - rewrite <- Ha. unfold App.predict, no_name.
    rewrite (truthy_with_name _ _ _ Hname), (get_default_Some _ _ _ _ Hname). cbn [negb].
    destruct (bool_decide (App.normalize raw = [])) eqn:E.
    + apply bool_decide_eq_true_1 in E. split; auto.
    + apply bool_decide_eq_false_1 in E. split; [|contradiction]. intro H. exfalso.
      destruct (negb _); [|discriminate H].
      unfold done in H. now apply error_run_inj in H.
Qed.

Lemma blank_name_is_client_error_witness :
  App.predict offline (JObj {[ py "name" := JStr (py "   ") ]}) = no_name.
Proof.
  destruct (blank_name_is_client_error offline {[ py "name" := JStr (py "   ") ]} (py "   "))
    as (_ & _ & H); [reflexivity|].
  apply H. reflexivity.
Defined.

(** X3: a payload without a [name] key is answered 400 [No name provided]
    (the name defaults to the empty string), and a payload that is falsy
    (absent, an empty object, an empty list, zero, ...) is answered 400
    [Invalid JSON payload] by app-precheck.py and app.py, but 400
    [No name provided] by app-precheck-prompt-enhanment.py, which replaces
    it by an empty object. *)
Theorem missing_name_and_empty_payload :
  forall (sv : services),
    (forall d : gmap str json,
        d !! py "name" = None ->
        AppPrecheckPrompt.predict sv (JObj d) = no_name
        /\ (d <> ∅ -> AppPrecheck.predict sv (JObj d) = no_name)
        /\ (d <> ∅ -> App.predict sv (JObj d) = no_name))
    /\ (forall data : json,
          truthy data = false ->
          AppPrecheckPrompt.predict sv data = no_name
          /\ AppPrecheck.predict sv data
             = Run [] (Resp 400 (error_body (py "Invalid JSON payload")))
          /\ App.predict sv data
             = Run [] (Resp 400 (error_body (py "Invalid JSON payload")))).
Proof.
  intro sv. split.
  - intros d Hname. split; [|split].
    + unfold AppPrecheckPrompt.predict.
      destruct (truthy (JObj d)); rewrite get_default_None; try reflexivity; assumption.
    + intro Hd. unfold AppPrecheck.predict. cbn [truthy].
      rewrite bool_decide_eq_false_2 by assumption. cbn [negb].
      now rewrite get_default_None.
    + intro Hd. unfold App.predict. cbn [truthy].
      rewrite bool_decide_eq_false_2 by assumption. cbn [negb].
      now rewrite get_default_None.
  - intros data Hfalse. split; [|split].
    + unfold AppPrecheckPrompt.predict. rewrite Hfalse. reflexivity.
    + unfold AppPrecheck.predict. now rewrite Hfalse.
    + unfold App.predict. now rewrite Hfalse.
Qed.

Lemma precheck_pass_reason name reason :
  AppPrecheck.precheck_name name = (true, reason) -> reason = None.
Proof.
  rewrite precheck_name_as_rules. destruct (first_failing name); [discriminate|].
  now intros [= <-].
Qed.

Lemma prompt_precheck_pass_reason name reason :
  AppPrecheckPrompt.precheck_name name = (true, reason) -> reason = None.
Proof.
  rewrite prompt_precheck_name_as_rules. destruct (first_failing name); [discriminate|].
  now intros [= <-].
Qed.

(** X4: the remote model is called at most once for a request, and only
    with an allow-listed model and a non-empty normalised name, which in
    the two pre-checking endpoints has passed the pre-check; the reply is
    capped at 60 tokens, and at 1 token in app-precheck-prompt-enhanment.py. *)
Theorem remote_call_discipline :
  forall (sv : services) (data : json) (request : chat_request),
    (In request (calls (AppPrecheck.predict sv data)) ->
     calls (AppPrecheck.predict sv data) = [request]
     /\ in_strs (chat_model request) AppPrecheck.VALID_MODELS = true
     /\ chat_name request <> []
     /\ AppPrecheck.precheck_name (chat_name request) = (true, None)
     /\ chat_max_tokens request = 60%Z)
    /\ (In request (calls (AppPrecheckPrompt.predict sv data)) ->
        calls (AppPrecheckPrompt.predict sv data) = [request]
        /\ in_strs (chat_model request) AppPrecheckPrompt.VALID_MODELS = true
        /\ chat_name request <> []
        /\ AppPrecheckPrompt.precheck_name (chat_name request) = (true, None)
        /\ chat_max_tokens request = 1%Z)
    /\ (In request (calls (App.predict sv data)) ->
        calls (App.predict sv data) = [request]
        /\ in_strs (chat_model request) App.VALID_MODELS = true
        /\ chat_name request <> []
        /\ chat_max_tokens request = 60%Z).
Proof.
  intros sv data request. split; [|split].
  - unfold AppPrecheck.predict, AppPrecheck.unexpected, done.
    destruct (negb (truthy data)); [intros []|].
    destruct data; try (intros []).
    destruct (get_default m (py "name") _); try (intros []).
    destruct (bool_decide _) eqn:Ename; [intros []|].
    apply bool_decide_eq_false_1 in Ename.
    destruct (AppPrecheck.precheck_name _) as [[] reason] eqn:Epre; [|intros []].
    destruct (in_strs _ _) eqn:Emodel; cbn [negb]; [|intros []].
    unfold AppPrecheck.classify. cbn [calls]. intros [<-|[]]. cbn.
    rewrite (precheck_pass_reason _ _ Epre) in Epre. auto.
  - unfold AppPrecheckPrompt.predict, done.
    destruct (if truthy data then data else JObj ∅); try (intros []).
    destruct (get_default m (py "name") _); try (intros []).
    destruct (bool_decide _) eqn:Ename; [intros []|].
    apply bool_decide_eq_false_1 in Ename.
    destruct (in_strs _ _) eqn:Emodel; cbn [negb]; [|intros []].
    destruct (AppPrecheckPrompt.precheck_name _) as [[] reason] eqn:Epre; [|intros []].
    unfold AppPrecheckPrompt.classify. cbn [calls]. intros [<-|[]]. cbn.
    rewrite (prompt_precheck_pass_reason _ _ Epre) in Epre. auto.
  - unfold App.predict, App.unexpected, done.
    destruct (negb (truthy data)); [intros []|].
    destruct data; try (intros []).
    destruct (get_default m (py "name") _); try (intros []).
    destruct (bool_decide _) eqn:Ename; [intros []|].
    apply bool_decide_eq_false_1 in Ename.
    destruct (in_strs _ _) eqn:Emodel; cbn [negb]; [|intros []].
    unfold App.classify. cbn [calls]. intros [<-|[]]. cbn. auto.
Qed.

Lemma remote_call_discipline_witness :
  calls (AppPrecheck.predict offline (JObj {[ py "name" := JStr (py "rahim uddin") ]}))
  = [ChatRequest (JStr (py "gpt-4.1-nano")) (py "Rahim Uddin") 60].
Proof.
  destruct (remote_call_discipline
              offline (JObj {[ py "name" := JStr (py "rahim uddin") ]})
              (ChatRequest (JStr (py "gpt-4.1-nano")) (py "Rahim Uddin") 60)) as [H _].
  assert (Hc : calls (AppPrecheck.predict offline
                        (JObj {[ py "name" := JStr (py "rahim uddin") ]}))
               = [ChatRequest (JStr (py "gpt-4.1-nano")) (py "Rahim Uddin") 60])
    by (vm_compute; reflexivity).
  destruct H as [H _]; [rewrite Hc; now left|exact H].
Defined.

Lemma in_two_strs v a b :
  in_strs v [a; b] = true -> eq_str v a = false -> eq_str v b = true.
Proof.
  unfold in_strs. cbn [existsb]. intros H Ha. rewrite Ha, orb_false_r in H. exact H.
Qed.

Ltac client_error := right; left; split; [reflexivity|split; [reflexivity|eexists; reflexivity]].
Ltac server_error := right; right; split; [reflexivity|eexists; reflexivity].
Ltac verdict :=
  left; split; [reflexivity|];
  split; [eexists; reflexivity|split; [(left; reflexivity) || (right; reflexivity)|reflexivity]].

Lemma precheck_parse_reply_shape sv model name reply :
  well_formed (Run [ChatRequest model name 60] (AppPrecheck.parse_reply sv name reply)).
Proof.
  unfold well_formed, AppPrecheck.parse_reply. cbn [result calls].
  destruct (json_loads sv _) as [v| |msg|msg]; [destruct v|..]; try server_error.
  destruct (negb _); [server_error|]. destruct (eq_str _ _); verdict.
Qed.

Lemma app_parse_reply_shape sv model name reply :
  well_formed (Run [ChatRequest model name 60] (App.parse_reply sv name reply)).
Proof.
  unfold well_formed, App.parse_reply. cbn [result calls].
  destruct (json_loads sv _) as [v| |msg|msg]; [destruct v|..]; try server_error.
  destruct (in_strs _ _) eqn:Ein; cbn [negb]; [|server_error].
  destruct (eq_str _ (py "Realistic")) eqn:Er; [verdict|].
  rewrite (in_two_strs _ _ _ Ein Er). verdict.
Qed.

(** X5: whatever the payload, the remote model and the decoder do,
    app-precheck.py and app.py answer with one of three shapes: 200 with a
    body holding the name and a prediction that is [Realistic] or
    [Not Realistic] and no [error]; 400 with an [error] body and no remote
    call made; or 500 with an [error] body.  No exception escapes them. *)
Theorem responses_are_verdicts_or_errors :
  forall (sv : services) (data : json),
    well_formed (AppPrecheck.predict sv data) /\ well_formed (App.predict sv data).
Proof.
  intros sv data. split.
  - unfold AppPrecheck.predict, AppPrecheck.unexpected, done.
    destruct (negb (truthy data)); [client_error|].
    destruct data; try server_error.
    destruct (get_default m (py "name") _); try server_error.
    destruct (bool_decide _); [client_error|].
    destruct (AppPrecheck.precheck_name _) as [[] reason].
    + destruct (negb _); [client_error|]. unfold AppPrecheck.classify.
      destruct (chat_create sv _); [apply precheck_parse_reply_shape|server_error].
    + verdict.
  - unfold App.predict, App.unexpected, done.
    destruct (negb (truthy data)); [client_error|].
    destruct data; try server_error.
    destruct (get_default m (py "name") _); try server_error.
    destruct (bool_decide _); [client_error|].
    destruct (negb _); [client_error|]. unfold App.classify.
    destruct (chat_create sv _); [apply app_parse_reply_shape|server_error].
Qed.

Lemma eq_str_true v s : eq_str v s = true <-> v = JStr s.
Proof.
  destruct v; cbn; try (split; discriminate).
  rewrite bool_decide_eq_true. split; congruence.
Qed.

Lemma get_is_str (d : gmap str json) k s : get d k = JStr s <-> d !! k = Some (JStr s).
Proof.
  unfold get. destruct (d !! k); cbn; split; try congruence; discriminate.
Qed.

Lemma in_strs_valid (decoded : gmap str json) :
  in_strs (get decoded (py "prediction")) [py "Realistic"; py "Not Realistic"] = true
  <-> valid_prediction decoded.
Proof.
  unfold in_strs, valid_prediction. cbn [existsb].
  rewrite orb_false_r, orb_true_iff, !eq_str_true, !get_is_str. reflexivity.
Qed.

(** X6: a model reply is turned into a 200 verdict exactly when the text
    handed to [json.loads] decodes to an object whose [prediction] is the
    string [Realistic] or [Not Realistic]; every other reply is turned
    into a 500 with an [error] body. *)
Theorem verdict_iff_validated_reply :
  forall (sv : services) (name reply : str),
    ((exists body, AppPrecheck.parse_reply sv name reply = Resp 200 body)
     <-> exists decoded,
         json_loads sv (AppPrecheck.json_str reply) = Loaded (JObj decoded)
         /\ valid_prediction decoded)
    /\ ((exists body, App.parse_reply sv name reply = Resp 200 body)
        <-> exists decoded,
            json_loads sv (App.extract_json_from_response reply) = Loaded (JObj decoded)
            /\ valid_prediction decoded)
    /\ ((exists body, AppPrecheck.parse_reply sv name reply = Resp 200 body)
        \/ exists msg, AppPrecheck.parse_reply sv name reply = Resp 500 (error_body msg))
    /\ ((exists body, App.parse_reply sv name reply = Resp 200 body)
        \/ exists msg, App.parse_reply sv name reply = Resp 500 (error_body msg)).
Proof.
  intros sv name reply.
  assert (HP : forall r, (exists body, r = Resp 500 (error_body body))
                         -> ~ exists body : gmap str json, r = Resp 200 body).
  { intros r [msg ->] [body H]. discriminate H. }
  split; [|split; [|split]].
  - unfold AppPrecheck.parse_reply.
    destruct (json_loads sv _) as [v| |msg|msg]; [destruct v|..].
    all: try (split; [intros [body H]; discriminate H|intros (decoded & H & _); discriminate H]).
    destruct (in_strs _ _) eqn:Ein; cbn [negb].
    + apply in_strs_valid in Ein. split; [intros _; eauto|intros _].
      destruct (eq_str _ _); eauto.
    + split; [intros [body H]; discriminate H|].
      intros (decoded & [= <-] & Hv). apply in_strs_valid in Hv. congruence.
  - unfold App.parse_reply.
    destruct (json_loads sv _) as [v| |msg|msg]; [destruct v|..].
    all: try (split; [intros [body H]; discriminate H|intros (decoded & H & _); discriminate H]).
    destruct (in_strs _ _) eqn:Ein; cbn [negb].
    + split; [intros _; apply in_strs_valid in Ein; eauto|intros _].
      destruct (eq_str _ (py "Realistic")) eqn:Er; [eauto|].
      rewrite (in_two_strs _ _ _ Ein Er). eauto.
    + split; [intros [body H]; discriminate H|].
      intros (decoded & [= <-] & Hv). apply in_strs_valid in Hv. congruence.
  - unfold AppPrecheck.parse_reply.
    destruct (json_loads sv _) as [v| |msg|msg]; [destruct v|..]; try (right; eauto; fail).
    destruct (negb _); [right; eauto|]. destruct (eq_str _ _); left; eauto.
  - unfold App.parse_reply.
    destruct (json_loads sv _) as [v| |msg|msg]; [destruct v|..]; try (right; eauto; fail).
    destruct (in_strs _ _) eqn:Ein; cbn [negb]; [|right; eauto].
    destruct (eq_str _ (py "Realistic")) eqn:Er; [left; eauto|].
    rewrite (in_two_strs _ _ _ Ein Er). left; eauto.
Qed.

(** X7: the error table of app-precheck.py once the remote call is made
    (name non-empty and accepted by the pre-check, model allow-listed):
    an exception of the call gives 500 [OpenAI API error: ...]; a reply
    that is not JSON gives 500 [Invalid JSON response format from model];
    another [ValueError] of the decoder gives 500 with its own message, and
    any other exception of the decoder 500 [OpenAI API error: ...]; a reply
    that decodes to something else than an object gives 500
    [OpenAI API error: ...] with the attribute error of [.get]; an object
    without a valid prediction gives 500
    [Invalid prediction value from model: ...].  In each case the one
    remote call has been made. *)
Theorem reply_failures_are_server_errors :
  forall (sv : services) (d : gmap str json) (raw : str),
    d !! py "name" = Some (JStr raw) ->
    AppPrecheck.normalize raw <> [] ->
    AppPrecheck.precheck_name (AppPrecheck.normalize raw) = (true, None) ->
    in_strs (get_default d (py "model") (JStr (py "gpt-4.1-nano"))) AppPrecheck.VALID_MODELS
    = true ->
    let request :=
      ChatRequest (get_default d (py "model") (JStr (py "gpt-4.1-nano")))
                  (AppPrecheck.normalize raw) 60 in
    let answer (r : response) := AppPrecheck.predict sv (JObj d) = Run [request] r in
    (forall msg,
        chat_create sv request = ChatRaised msg ->
        answer (Resp 500 (error_body (py "OpenAI API error: " ++ msg))))
    /\ (forall content,
          chat_create sv request = Content content ->
          (json_loads sv (AppPrecheck.json_str (strip content)) = JSONDecodeError ->
           answer (Resp 500 (error_body (py "Invalid JSON response format from model"))))
          /\ (forall msg,
                json_loads sv (AppPrecheck.json_str (strip content)) = LoadsValueError msg ->
                answer (Resp 500 (error_body msg)))
          /\ (forall msg,
                json_loads sv (AppPrecheck.json_str (strip content)) = LoadsRaised msg ->
                answer (Resp 500 (error_body (py "OpenAI API error: " ++ msg))))
          /\ (forall v,
                json_loads sv (AppPrecheck.json_str (strip content)) = Loaded v ->
                (forall decoded, v <> JObj decoded) ->
                answer (Resp 500 (error_body (py "OpenAI API error: "
                                              ++ no_attribute v (py "get")))))
          /\ (forall decoded,
                json_loads sv (AppPrecheck.json_str (strip content)) = Loaded (JObj decoded) ->
                ~ valid_prediction decoded ->
                answer (Resp 500 (error_body
                                    (py "Invalid prediction value from model: "
                                     ++ format_value sv (get decoded (py "prediction"))))))).
Proof.
  intros sv d raw Hname Hne Hpre Hmodel request answer.
  assert (Hrun : AppPrecheck.predict sv (JObj d)
                 = Run [request]
                       match chat_create sv request with
                       | ChatRaised msg => Resp 500 (error_body (py "OpenAI API error: " ++ msg))
                       | Content reply => AppPrecheck.parse_reply sv (AppPrecheck.normalize raw)
                                                                  (strip reply)
                       end).
  { unfold AppPrecheck.predict.
    rewrite (truthy_with_name _ _ _ Hname), (get_default_Some _ _ _ _ Hname). cbn [negb].
    rewrite bool_decide_eq_false_2 by assumption. now rewrite Hpre, Hmodel. }
  unfold answer. rewrite Hrun. clear Hrun. split.
  - intros msg ->. reflexivity.
  - intros content ->. unfold AppPrecheck.parse_reply. split; [|split; [|split; [|split]]].
    + intros ->. reflexivity.
    + intros msg ->. reflexivity.
    + intros msg ->. reflexivity.
    + intros v -> Hv. destruct v; try reflexivity. now destruct (Hv m).
    + intros decoded -> Hbad.
      destruct (in_strs (get decoded _) _) eqn:Ein; [|reflexivity].
      now apply in_strs_valid in Ein.
Qed.

Lemma reply_failures_are_server_errors_witness :
  AppPrecheck.predict offline (JObj {[ py "name" := JStr (py "rahim uddin") ]})
  = Run [ChatRequest (JStr (py "gpt-4.1-nano")) (py "Rahim Uddin") 60]
        (Resp 500 (error_body (py "OpenAI API error: offline"))).
Proof.
  assert (Hne : AppPrecheck.normalize (py "rahim uddin") <> []) by (vm_compute; discriminate).
  pose proof (reply_failures_are_server_errors
                offline {[ py "name" := JStr (py "rahim uddin") ]} (py "rahim uddin")
                eq_refl Hne eq_refl eq_refl) as H.
  cbv zeta in H. destruct H as [H _].
  apply (H (py "offline")). reflexivity.
Defined.

Lemma prompt_classify_shape (sv : services) model name :
  prompt_well_formed (AppPrecheckPrompt.classify sv model name)
  /\ forall msg, result (AppPrecheckPrompt.classify sv model name) <> Unhandled msg.
Proof.
  unfold AppPrecheckPrompt.classify, prompt_well_formed. cbn [result calls].
  destruct (chat_create sv _) as [content|msg].
  - destruct (strip content) as [|digit rest].
    + split; [|discriminate]. split; [reflexivity|]. right; right. auto.
    + destruct (digit =? ord "1"); [split; [|discriminate]; split; [reflexivity|]; verdict|].
      destruct (digit =? ord "0"); [split; [|discriminate]; split; [reflexivity|]; verdict|].
      split; [|discriminate]. split; [reflexivity|]. right; right. auto.
  - split; [|discriminate]. split; [reflexivity|]. right; right. auto.
Qed.

Lemma prompt_object_shape (sv : services) (d : gmap str json) :
  prompt_well_formed (AppPrecheckPrompt.predict sv (JObj d))
  /\ ((exists msg, result (AppPrecheckPrompt.predict sv (JObj d)) = Unhandled msg)
      <-> exists v, d !! py "name" = Some v /\ forall s, v <> JStr s).
Proof.
  unfold AppPrecheckPrompt.predict.
  assert (Hd : (if truthy (JObj d) then JObj d else JObj ∅) = JObj d).
  { cbn [truthy]. destruct (bool_decide (d = ∅)) eqn:Ed; [|reflexivity].
    apply bool_decide_eq_true_1 in Ed. now subst d. }
  rewrite Hd. clear Hd.
  assert (Hok : forall r : run,
             prompt_well_formed r -> (forall msg, result r <> Unhandled msg) ->
             (exists raw, get_default d (py "name") (JStr []) = JStr raw) ->
             prompt_well_formed r
             /\ ((exists msg, result r = Unhandled msg)
                 <-> exists v, d !! py "name" = Some v /\ forall s, v <> JStr s)).
  { intros r Hw Hn [raw Hraw]. split; [exact Hw|]. split.
    - intros [msg H]. now apply Hn in H.
    - intros (v & Hv & Hs). rewrite (get_default_Some _ _ _ _ Hv) in Hraw.
      now apply Hs in Hraw. }
  destruct (get_default d (py "name") (JStr [])) as [| | | |raw| |] eqn:Hget.
  5:{ apply Hok; [| |eauto].
      - destruct (bool_decide _); [split; [reflexivity|client_error]|].
        destruct (negb _); [split; [reflexivity|client_error]|].
        destruct (AppPrecheckPrompt.precheck_name _) as [[] reason];
          [apply prompt_classify_shape|split; [reflexivity|verdict]].
      - intro msg.
        destruct (bool_decide _); [discriminate|].
        destruct (negb _); [discriminate|].
        destruct (AppPrecheckPrompt.precheck_name _) as [[] reason];
          [apply prompt_classify_shape|discriminate]. }
  all: split; [reflexivity|split; [intros _|intros _; eexists; reflexivity]].
  all: unfold get_default in Hget; destruct (d !! py "name") as [v|];
    cbn in Hget; [subst v|discriminate Hget].
  all: eexists; split; [reflexivity|discriminate].
Qed.

(** X8: app-precheck-prompt-enhanment.py never puts a [reason] in a
    response; it answers 200 with a name and a prediction, 400 with an
    [error] body and no remote call, or 500 with one of two fixed errors
    ([OpenAI API error], [Invalid response from model]).  It has no
    catch-all handler: an exception escapes it, before any remote call,
    exactly when the payload is truthy and is not an object, or holds a
    [name] that is not a string. *)
Theorem prompt_endpoint_responses :
  forall (sv : services) (data : json),
    prompt_well_formed (AppPrecheckPrompt.predict sv data)
    /\ ((exists msg, result (AppPrecheckPrompt.predict sv data) = Unhandled msg)
        <-> malformed_payload data).
Proof.
  intros sv data. unfold malformed_payload. destruct (truthy data) eqn:Ht.
  - destruct data.
    7:{ destruct (prompt_object_shape sv m) as [Hw Hu]. split; [exact Hw|].
        rewrite Hu. split; [auto|now intros [_ H]]. }
    all: unfold AppPrecheckPrompt.predict; rewrite Ht.
    all: split; [reflexivity|split; [auto|intros _; eexists; reflexivity]].
  - assert (E : AppPrecheckPrompt.predict sv data = AppPrecheckPrompt.predict sv (JObj ∅)).
    { unfold AppPrecheckPrompt.predict. rewrite Ht. reflexivity. }
    rewrite E. destruct (prompt_object_shape sv ∅) as [Hw Hu]. split; [exact Hw|].
    rewrite Hu. split.
    + intros (v & H & _). rewrite lookup_empty in H. discriminate H.
    + intros [H _]. discriminate H.
Qed.

Lemma same_classb_spec c d : same_classb c d = true <-> same_class c d.
Proof.
  unfold same_classb, same_class.
  rewrite orb_true_iff, andb_true_iff, N.eqb_eq. reflexivity.
Qed.

Lemma same_class_letter c d : same_class c d -> is_ascii_letter c = is_ascii_letter d.
Proof. intros [[-> ->]| ->]; reflexivity. Qed.

Lemma same_class_allowed c d : same_class c d -> allowed_char c = allowed_char d.
Proof. intros [[Hc Hd]| ->]; [|reflexivity]. unfold allowed_char. now rewrite Hc, Hd. Qed.

Lemma same_class_word c d : same_class c d -> is_word c = is_word d.
Proof.
  intros [[Hc Hd]| ->]; [|reflexivity]. unfold is_word.
  rewrite Hc, Hd, !orb_true_r. reflexivity.
Qed.

Lemma same_class_mark c d k :
  same_class c d -> is_ascii_letter k = false -> (c =? k) = (d =? k).
Proof.
  intros [[Hc Hd]| ->] Hk; [|reflexivity].
  destruct (N.eqb_spec c k) as [->|_]; [congruence|].
  destruct (N.eqb_spec d k) as [->|_]; [congruence|reflexivity].
Qed.

Lemma same_class_startswith s t marks :
  Forall2 same_class s t -> Forall (fun k => is_ascii_letter k = false) marks ->
  startswith s marks = startswith t marks.
Proof.
  intros Hst Hm. revert s t Hst. induction Hm as [|k marks Hk Hm IH]; intros s t Hst.
  - now rewrite !startswith_nil.
  - destruct Hst as [|c d s t Hcd Hst]; [reflexivity|].
    rewrite !startswith_cons, (same_class_mark c d k Hcd Hk), (IH s t Hst). reflexivity.
Qed.

Lemma same_class_contains s t marks :
  Forall2 same_class s t -> Forall (fun k => is_ascii_letter k = false) marks ->
  contains marks s = contains marks t.
Proof.
  intros Hst Hm. induction Hst as [|c d s t Hcd Hst IH].
  - reflexivity.
  - cbn [contains]. rewrite IH.
    now rewrite (same_class_startswith (c :: s) (d :: t) marks) by (try constructor; assumption).
Qed.

Lemma same_class_search_dot s t :
  Forall2 same_class s t ->
  forall prev prev',
    lookbehind_word prev = lookbehind_word prev' ->
    search_dot_from prev s = search_dot_from prev' t.
Proof.
  induction 1 as [|c d s t Hcd Hst IH]; intros prev prev' Hprev; [reflexivity|].
  cbn [search_dot_from]. rewrite Hprev.
  assert (Hdot : (c =? ord ".") = (d =? ord "."))
    by (apply same_class_mark; [assumption|reflexivity]).
  rewrite Hdot.
  rewrite (IH (Some c) (Some d)) by (cbn [lookbehind_word]; now apply same_class_word).
  f_equal. f_equal. destruct Hst as [|c' d' s t Hcd' _]; [reflexivity|].
  cbn [lookahead_word]. now apply same_class_word.
Qed.

Lemma same_class_precheck s t :
  Forall2 same_class s t ->
  AppPrecheck.precheck_name s = AppPrecheck.precheck_name t
  /\ AppPrecheckPrompt.precheck_name s = AppPrecheckPrompt.precheck_name t.
Proof.
  intro Hst.
  assert (H1 : search_invalid_char s = search_invalid_char t).
  { unfold search_invalid_char. induction Hst as [|c d s t Hcd Hst IH]; [reflexivity|].
    cbn [existsb]. now rewrite IH, (same_class_allowed c d Hcd). }
  assert (H2 : length (findall_letters s) = length (findall_letters t)).
  { clear H1. unfold findall_letters. rewrite !length_map.
    induction Hst as [|c d s t Hcd Hst IH]; [reflexivity|].
    cbn [List.filter]. rewrite (same_class_letter c d Hcd).
    destruct (is_ascii_letter d); cbn [length]; now rewrite IH. }
  assert (H3 : contains (py "--") s = contains (py "--") t)
    by (apply same_class_contains; [assumption|repeat constructor]).
  assert (H4 : contains (py "..") s = contains (py "..") t)
    by (apply same_class_contains; [assumption|repeat constructor]).
  assert (H5 : search_dot_between_words s = search_dot_between_words t)
    by (now apply same_class_search_dot).
  unfold AppPrecheck.precheck_name, AppPrecheckPrompt.precheck_name.
  now rewrite H1, H2, H3, H4, H5.
Qed.

Lemma ascii_case_same_class c :
  is_ascii c = true ->
  exists u l, upper_char c = [u] /\ lower_char c = [l] /\ same_class c u /\ same_class c l.
Proof.
  intro Hc. unfold is_ascii in Hc. apply N.ltb_lt in Hc.
  assert (Hall : forallb (fun n => match upper_char n, lower_char n with
                                   | [u], [l] => same_classb n u && same_classb n l
                                   | _, _ => false
                                   end)
                         (List.map N.of_nat (seq 0 128)) = true)
    by (vm_compute; reflexivity).
  rewrite forallb_forall in Hall.
  assert (Hin : In c (List.map N.of_nat (seq 0 128)))
    by (rewrite <- (N2Nat.id c); apply in_map, in_seq; lia).
  specialize (Hall c Hin).
  destruct (upper_char c) as [|u [|? ?]]; try discriminate Hall.
  destruct (lower_char c) as [|l [|? ?]]; try discriminate Hall.
  apply andb_true_iff in Hall as [Hu Hl].
  exists u, l. rewrite <- !same_classb_spec. auto.
Qed.

(** Without a capital sigma, [str.lower] works code point by code point. *)
Lemma lower_from_ascii r : forall before,
  ascii_only r -> lower_from before r = flat_map lower_char r.
Proof.
  unfold ascii_only. induction r as [|c r IH]; intros before Hr; [reflexivity|].
  apply Forall_cons in Hr as [Hc Hr]. cbn [lower_from flat_map]. rewrite (IH _ Hr).
  unfold is_ascii in Hc. apply N.ltb_lt in Hc.
  destruct (N.eqb_spec c 0x3A3) as [->|_]; [lia|reflexivity].
Qed.

Lemma same_class_lower r :
  ascii_only r -> Forall2 same_class r (lower r).
Proof.
  intro Hr. unfold lower. rewrite (lower_from_ascii r [] Hr).
  unfold ascii_only in Hr. induction Hr as [|c r Hc Hr IH]; [constructor|].
  destruct (ascii_case_same_class c Hc) as (u & l & _ & El & _ & Hl).
  cbn [flat_map]. rewrite El. now constructor.
Qed.

Lemma same_class_capitalize w :
  ascii_only w -> Forall2 same_class w (AppPrecheck.capitalize_word w).
Proof.
  intro Hw. destruct Hw as [|c r Hc Hr]; [constructor|].
  destruct (ascii_case_same_class c Hc) as (u & l & Eu & _ & Hu & _).
  replace (AppPrecheck.capitalize_word (c :: r)) with (upper_char c ++ lower r).
  - rewrite Eu. constructor; [assumption|]. now apply same_class_lower.
  - unfold AppPrecheck.capitalize_word, upper. simpl. now rewrite app_nil_r.
Qed.

Lemma same_class_join L :
  Forall ascii_only L ->
  Forall2 same_class (join (py " ") L)
          (join (py " ") (List.map AppPrecheck.capitalize_word L)).
Proof.
  induction 1 as [|w L Hw HL IH]; [constructor|].
  destruct HL as [|w2 L Hw2 HL].
  - cbn [join List.map]. now apply same_class_capitalize.
  - cbn [List.map]. rewrite !join_cons by discriminate.
    apply Forall2_app; [now apply same_class_capitalize|].
    constructor; [now right|]. exact IH.
Qed.

(** X9: the pre-check does not see letter case: two names that differ
    only in which ASCII letter stands at a position get the same result
    from [precheck_name], in both endpoints.  So for an ASCII name the
    capitalisation done by app-precheck.py does not change what the
    pre-check answers. *)
Theorem precheck_ignores_letter_case :
  (forall s t : str,
      Forall2 same_class s t ->
      AppPrecheck.precheck_name s = AppPrecheck.precheck_name t
      /\ AppPrecheckPrompt.precheck_name s = AppPrecheckPrompt.precheck_name t)
  /\ (forall raw : str,
        ascii_only raw ->
        AppPrecheck.precheck_name (AppPrecheck.normalize raw)
        = AppPrecheck.precheck_name (App.normalize raw)).
Proof.
  split; [apply same_class_precheck|].
  intros raw Hraw. destruct (normalize_as_tokens raw) as (H1 & _ & H3).
  rewrite H1, H3. symmetry. apply same_class_precheck, same_class_join.
  apply split_from_Forall; [constructor|assumption].
Qed.

Lemma precheck_ignores_letter_case_witness :
  Forall2 same_class (py "MR.HANIF") (py "mr.hanif")
  /\ AppPrecheck.precheck_name (py "MR.HANIF") = AppPrecheck.precheck_name (py "mr.hanif").
Proof.
  assert (H : Forall2 same_class (py "MR.HANIF") (py "mr.hanif")).
  { vm_compute.
    repeat (constructor; [first [left; split; reflexivity|right; reflexivity]|]).
    constructor. }
  split; [exact H|].
  exact (proj1 (proj1 precheck_ignores_letter_case (py "MR.HANIF") (py "mr.hanif") H)).
Defined.

Lemma split_from_covers c s : forall cur,
  In c cur \/ (In c s /\ isspace c = false) ->
  exists w, In w (split_from cur s) /\ In c w.
Proof.
  assert (Hcur : forall cur rest, In c cur -> exists w,
               In w (match cur with [] => rest | _ => cur :: rest end) /\ In c w).
  { intros cur rest H. destruct cur as [|e cur]; [destruct H|].
    exists (e :: cur). split; [now left|exact H]. }
  induction s as [|d r IH]; intros cur H; cbn [split_from].
  - destruct H as [H|[H _]]; [|destruct H]. destruct cur as [|e cur]; [destruct H|].
    exists (e :: cur). split; [now left|exact H].
  - destruct (isspace d) eqn:Ed.
    + destruct H as [H|[[E|H] Hc]].
      * now apply Hcur.
      * subst d. congruence.
      * destruct (IH [] (or_intror (conj H Hc))) as (w & Hw & Hcw).
        exists w. split; [|exact Hcw]. destruct cur; [exact Hw|now right].
    + apply IH. destruct H as [H|[[E|H] Hc]].
      * left. apply in_or_app. now left.
      * subst d. left. apply in_or_app. right. now left.
      * right. auto.
Qed.

Lemma join_covers c w L : In w L -> In c w -> In c (join (py " ") L).
Proof.
  intros Hw Hc. induction L as [|v L IH]; [destruct Hw|].
  destruct L as [|v2 L].
  - destruct Hw as [->|[]]. exact Hc.
  - rewrite join_cons by discriminate. apply in_or_app.
    destruct Hw as [->|Hw]; [now left|]. right. right. now apply IH.
Qed.

Lemma ascii_mark_case c :
  is_ascii c = true -> is_ascii_letter c = false -> upper_char c = [c] /\ lower_char c = [c].
Proof.
  intros Hc Hl. unfold is_ascii in Hc. apply N.ltb_lt in Hc.
  assert (Hall : forallb (fun n => implb (negb (is_ascii_letter n))
                                        (bool_decide (upper_char n = [n])
                                         && bool_decide (lower_char n = [n])))
                         (List.map N.of_nat (seq 0 128)) = true)
    by (vm_compute; reflexivity).
  rewrite forallb_forall in Hall.
  assert (Hin : In c (List.map N.of_nat (seq 0 128)))
    by (rewrite <- (N2Nat.id c); apply in_map, in_seq; lia).
  specialize (Hall c Hin). rewrite Hl in Hall. cbn [negb implb] in Hall.
  apply andb_true_iff in Hall as [Hu Hlo].
  now apply bool_decide_eq_true_1 in Hu, Hlo.
Qed.

Lemma lower_from_covers c r : forall before,
  In c r -> lower_char c = [c] -> In c (lower_from before r).
Proof.
  induction r as [|d r IH]; intros before Hc Hl; [destruct Hc|].
  cbn [lower_from]. apply in_or_app. destruct Hc as [->|Hc]; [left|right; now apply IH].
  destruct (N.eqb_spec c 0x3A3) as [->|_]; [vm_compute in Hl; discriminate Hl|].
  rewrite Hl. now left.
Qed.

Lemma capitalize_word_covers c w :
  In c w -> upper_char c = [c] -> lower_char c = [c] -> In c (AppPrecheck.capitalize_word w).
Proof.
  intros Hc Hu Hl. destruct w as [|d r]; [destruct Hc|].
  replace (AppPrecheck.capitalize_word (d :: r)) with (upper_char d ++ lower r)
    by (unfold AppPrecheck.capitalize_word, upper; simpl; now rewrite app_nil_r).
  apply in_or_app. destruct Hc as [->|Hc].
  - left. rewrite Hu. now left.
  - right. unfold lower. now apply lower_from_covers.
Qed.

(** X10: a name that holds a character that is not an ASCII letter,
    whitespace, a hyphen or a dot, and that is an ASCII character (a digit,
    an underscore, an at sign, ...) or any character without upper and
    lower case (a digit or a letter of a caseless script, a symbol), is
    answered by app-precheck.py with 200 [Not Realistic] and the reason
    [Invalid characters present], without a remote call and whatever the
    model: normalisation never removes or hides such a character. *)
Theorem symbol_is_rejected_locally :
  forall (sv : services) (d : gmap str json) (raw : str) (c : char),
    d !! py "name" = Some (JStr raw) ->
    In c raw -> allowed_char c = false ->
    is_ascii c = true \/ (upper_char c = [c] /\ lower_char c = [c]) ->
    AppPrecheck.predict sv (JObj d)
    = Run [] (Resp 200 (AppPrecheck.dict
                          [(py "name", JStr (AppPrecheck.normalize raw));
                           (py "prediction", JStr (py "Not Realistic"));
                           (py "reason", JStr (py "Invalid characters present"))])).
Proof.
  intros sv d raw c Hname Hin Hbad Hcase.
  assert (Hparts : is_ascii_letter c = false /\ isspace c = false).
  { unfold allowed_char in Hbad.
    apply orb_false_elim in Hbad as [Hbad _]. apply orb_false_elim in Hbad as [Hbad _].
    now apply orb_false_elim in Hbad. }
  destruct Hparts as [Hletter Hblank].
  assert (Hfix : upper_char c = [c] /\ lower_char c = [c]).
  { destruct Hcase as [Hascii|H]; [now apply ascii_mark_case|exact H]. }
  destruct Hfix as [Hu Hl].
  assert (Hc : In c (AppPrecheck.normalize raw)).
  { destruct (normalize_as_tokens raw) as (-> & _ & _).
    destruct (split_from_covers c raw [] (or_intror (conj Hin Hblank))) as (w & Hw & Hcw).
    apply (join_covers c (AppPrecheck.capitalize_word w)).
    - now apply in_map.
    - now apply capitalize_word_covers. }
  assert (Hpre : AppPrecheck.precheck_name (AppPrecheck.normalize raw)
                 = (false, Some (py "Invalid characters present"))).
  { unfold AppPrecheck.precheck_name, search_invalid_char.
    replace (existsb _ _) with true; [reflexivity|].
    symmetry. apply existsb_exists. exists c. split; [exact Hc|]. now rewrite Hbad. }
  unfold AppPrecheck.predict.
  rewrite (truthy_with_name _ _ _ Hname), (get_default_Some _ _ _ _ Hname). cbn [negb].
  rewrite bool_decide_eq_false_2 by (intro E; rewrite E in Hc; destruct Hc).
  now rewrite Hpre.
Qed.

Lemma symbol_is_rejected_locally_witness :
  AppPrecheck.predict offline (JObj {[ py "name" := JStr (py "rahim_uddin 7") ]})
  = Run [] (Resp 200 (AppPrecheck.dict
                        [(py "name", JStr (py "Rahim_uddin 7"));
                         (py "prediction", JStr (py "Not Realistic"));
                         (py "reason", JStr (py "Invalid characters present"))])).
Proof.
  apply (symbol_is_rejected_locally
           offline {[ py "name" := JStr (py "rahim_uddin 7") ]} (py "rahim_uddin 7") (ord "_")).
  - reflexivity.
  - vm_compute. tauto.
  - reflexivity.
  - left. reflexivity.
Defined.

(** ** More on the fence pattern *)

Section MatcherSoundness.
Context {A : Type}.
Implicit Types (k : @cont A) (s : str).

Lemma star_greedy_sound p s k a :
  star_greedy p s k = Some a ->
  exists pre post, s = pre ++ post /\ Forall (fun c => p c = true) pre /\ k post = Some a.
Proof.
  induction s as [|c r IH]; cbn [star_greedy]; intro H.
  - exists [], []. auto.
  - destruct (p c) eqn:Hc; [|exists [], (c :: r); auto].
    destruct (star_greedy p r k) as [b|] eqn:E.
    + injection H as ->. destruct (IH eq_refl) as (pre & post & -> & Hpre & Hk).
      exists (c :: pre), post. auto.
    + exists [], (c :: r). auto.
Qed.

Lemma star_lazy_sound p s k a :
  star_lazy p s k = Some a ->
  exists pre post, s = pre ++ post /\ k post = Some a.
Proof.
  induction s as [|c r IH]; cbn [star_lazy]; intro H.
  - destruct (k []) eqn:E; [|discriminate H]. exists [], []. injection H as ->. auto.
  - destruct (k (c :: r)) eqn:E.
    + injection H as ->. exists [], (c :: r). auto.
    + destruct (p c); [|discriminate H].
      destruct (IH H) as (pre & post & -> & Hk). exists (c :: pre), post. auto.
Qed.

Lemma classes_sound ps s k a :
  classes ps s k = Some a ->
  exists cs rest,
    s = cs ++ rest /\ Forall2 (fun (p : N -> bool) c => p c = true) ps cs /\ k rest = Some a.
Proof.
  revert s. induction ps as [|p ps IH]; intros s H.
  - exists [], s. auto.
  - cbn [classes fold_right] in H. unfold and_then at 1, one in H.
    destruct s as [|c r]; [discriminate H|]. destruct (p c) eqn:Hc; [|discriminate H].
    destruct (IH r H) as (cs & rest & -> & Hcs & Hk).
    exists (c :: cs), rest. auto.
Qed.
End MatcherSoundness.

Lemma text_matches t cs :
  Forall2 (fun (p : N -> bool) c => p c = true) (text t) cs -> cs = t.
Proof.
  revert cs. induction t as [|x t IH]; intros cs H; inversion H as [|p c ps cs' Hp Hrest]; subst.
  - reflexivity.
  - unfold exactly in Hp. apply N.eqb_eq in Hp. subst c. f_equal. now apply IH.
Qed.

Lemma fence_match_at_sound s g :
  fence_match_at s = Some g ->
  exists ann ws1 inner ws2 post,
    s = py "```" ++ ann ++ ws1 ++ g ++ ws2 ++ py "```" ++ post
    /\ json_annotation ann
    /\ forallb isspace ws1 = true /\ forallb isspace ws2 = true
    /\ g = ord "{" :: inner ++ [ord "}"].
Proof.
  unfold fence_match_at, and_then. intro H.
  apply classes_sound in H as (t3 & s0 & -> & Ht3 & H). apply text_matches in Ht3. subst t3.
  apply classes_sound in H as (ann & s0' & -> & Hann & H).
  apply star_greedy_sound in H as (ws1 & s1 & -> & Hws1 & H).
  unfold group1, and_then in H. unfold one at 1 in H.
  destruct s1 as [|c s1]; [discriminate H|].
  destruct (exactly (ord "{") c) eqn:Hc; [|discriminate H].
  unfold exactly in Hc. apply N.eqb_eq in Hc. subst c.
  apply star_lazy_sound in H as (inner & s1' & -> & H).
  unfold one in H. destruct s1' as [|c s2]; [discriminate H|].
  destruct (exactly (ord "}") c) eqn:Hc; [|discriminate H].
  unfold exactly in Hc. apply N.eqb_eq in Hc. subst c.
  unfold closing, and_then in H.
  apply star_greedy_sound in H as (ws2 & s3 & -> & Hws2 & H).
  apply classes_sound in H as (t3 & post & -> & Ht3 & H). apply text_matches in Ht3. subst t3.
  injection H as Hg0.
  assert (Hg : take (length (ord "{" :: inner ++ ord "}" :: ws2 ++ py "```" ++ post)
                     - length (ws2 ++ py "```" ++ post))
                    (ord "{" :: inner ++ ord "}" :: ws2 ++ py "```" ++ post)
               = ord "{" :: inner ++ [ord "}"]).
  { replace (ord "{" :: inner ++ ord "}" :: ws2 ++ py "```" ++ post)
      with ((ord "{" :: inner ++ [ord "}"]) ++ ws2 ++ py "```" ++ post)
      by (cbn [app]; now rewrite <- List.app_assoc).
    replace (length ((ord "{" :: inner ++ [ord "}"]) ++ ws2 ++ py "```" ++ post)
             - length (ws2 ++ py "```" ++ post))%nat
      with (length (ord "{" :: inner ++ [ord "}"])) by (rewrite length_app; lia).
    apply take_app_length. }
  assert (Eg : g = ord "{" :: inner ++ [ord "}"]) by (rewrite <- Hg0; exact Hg).
  clear Hg Hg0. subst g. exists ann, ws1, inner, ws2, post.
  split; [|split; [exact Hann|split; [|split; [|reflexivity]]]].
  - cbn [app]. rewrite <- !List.app_assoc. reflexivity.
  - apply forallb_forall. intros x Hx. now apply (proj1 (List.Forall_forall _ _) Hws1).
  - apply forallb_forall. intros x Hx. now apply (proj1 (List.Forall_forall _ _) Hws2).
Qed.

Lemma search_fence_sound text g :
  search_fence text = Some g ->
  exists pre s, text = pre ++ s /\ fence_match_at s = Some g.
Proof.
  induction text as [|c r IH]; cbn [search_fence]; intro H.
  - destruct (fence_match_at []) eqn:E; [|discriminate H]. injection H as ->. exists [], []. auto.
  - destruct (fence_match_at (c :: r)) eqn:E.
    + injection H as ->. exists [], (c :: r). auto.
    + destruct (IH H) as (pre & s & -> & Hs). exists (c :: pre), s. auto.
Qed.

(** X11: what the fence pattern can return.  When it matches, the reply
    holds, in this order, three backquotes, the word json in any letter
    case, blanks, the returned group, blanks and three backquotes; the
    group starts with an opening brace and ends with a closing brace.  So
    the text handed to [json.loads] is always a part of the reply itself. *)
Theorem fence_group_is_braced_part_of_reply :
  forall text g : str,
    search_fence text = Some g ->
    exists pre ann ws1 inner ws2 post,
      text = pre ++ py "```" ++ ann ++ ws1 ++ g ++ ws2 ++ py "```" ++ post
      /\ json_annotation ann
      /\ forallb isspace ws1 = true /\ forallb isspace ws2 = true
      /\ g = ord "{" :: inner ++ [ord "}"].
Proof.
  intros text g H. apply search_fence_sound in H as (pre & s & -> & H).
  apply fence_match_at_sound in H as (ann & ws1 & inner & ws2 & post & -> & H).
  exists pre, ann, ws1, inner, ws2, post. auto.
Qed.

Lemma fence_group_is_braced_part_of_reply_witness :
  exists pre ann ws1 inner ws2 post,
    fenced [0x0A] plain_payload [0x0A]
    = pre ++ py "```" ++ ann ++ ws1 ++ plain_payload ++ ws2 ++ py "```" ++ post
    /\ json_annotation ann
    /\ forallb isspace ws1 = true /\ forallb isspace ws2 = true
    /\ plain_payload = ord "{" :: inner ++ [ord "}"].
Proof.
  apply (fence_group_is_braced_part_of_reply (fenced [0x0A] plain_payload [0x0A]) plain_payload).
  reflexivity.
Defined.

Lemma classes_complete {A} ps cs rest (k : @cont A) :
  Forall2 (fun (p : N -> bool) c => p c = true) ps cs ->
  classes ps (cs ++ rest) k = k rest.
Proof.
  induction 1 as [|p c ps cs Hp Hrest IH]; [reflexivity|].
  cbn [classes fold_right app]. unfold and_then at 1, one. rewrite Hp. exact IH.
Qed.

Lemma closing_matches_before s1 ws post :
  Forall (fun c => isspace c = true) ws ->
  closing s1 (ws ++ py "```" ++ post)
  = Some (take (length s1 - length (ws ++ py "```" ++ post)) s1).
Proof.
  intro Hws. unfold closing, and_then.
  apply star_greedy_skip; [assumption|].
  change (py "```" ++ post) with (96 :: 96 :: 96 :: post).
  cbn [star_greedy]. change (isspace 96) with false. cbv iota.
  rewrite classes_text. change (py "```") with [96; 96; 96].
  rewrite !startswith_cons, startswith_nil. reflexivity.
Qed.

Lemma group1_payload_before b ws post :
  contains (py "```") (0x7B :: b ++ [0x7D]) = false ->
  Forall (fun c => isspace c = true) ws ->
  group1 ((0x7B :: b ++ [0x7D]) ++ ws ++ py "```" ++ post) = Some (0x7B :: b ++ [0x7D]).
Proof.
  intros Hno Hws. set (p := 0x7B :: b ++ [0x7D]) in *.
  set (tail := ws ++ py "```" ++ post).
  unfold group1, and_then. set (s1 := p ++ tail).
  replace s1 with (0x7B :: b ++ 0x7D :: tail)
    by (unfold s1, p; cbn [app]; now rewrite <- List.app_assoc).
  unfold one at 1. change (exactly (ord "{") 123) with true. cbv iota.
  rewrite star_lazy_skip.
  - cbn [star_lazy]. unfold one at 1. change (exactly (ord "}") 125) with true. cbv iota.
    unfold tail. rewrite closing_matches_before by assumption. f_equal.
    fold tail.
    replace (123 :: b ++ 125 :: tail) with (p ++ tail)
      by (unfold p; cbn [app]; now rewrite <- List.app_assoc).
    replace (length (p ++ tail) - length tail)%nat with (length p)
      by (rewrite length_app; lia).
    apply take_app_length.
  - intros pre post' -> Hpost. destruct post' as [|c post']; [contradiction|].
    cbn [app]. unfold one, exactly.
    destruct (N.eqb_spec c (ord "}")) as [->|]; [|reflexivity].
    apply closing_fails. apply no_fence_after_blanks.
    intros pre' post'' E.
    apply (contains_suffix _ _ Hno (123 :: pre ++ [ord "}"] ++ pre') post'').
    unfold p. cbn [app]. f_equal.
    rewrite <- !List.app_assoc. cbn [app]. now rewrite E.
Qed.

Lemma search_fence_skip pre s :
  forallb (fun c => negb (c =? 0x60)) pre = true -> search_fence (pre ++ s) = search_fence s.
Proof.
  induction pre as [|c pre IH]; [reflexivity|]. cbn [forallb app]. intro H.
  apply andb_true_iff in H as [Hc H]. cbn [search_fence].
  destruct (fence_match_at (c :: pre ++ s)) eqn:E; [|now apply IH].
  apply fence_match_at_head in E. change (py "```") with [96; 96; 96] in E.
  rewrite startswith_cons in E. apply negb_true_iff in Hc. rewrite Hc in E. discriminate E.
Qed.

Lemma search_fence_in_prose pre ann ws1 p ws2 post :
  forallb (fun c => negb (c =? 0x60)) pre = true ->
  json_annotation ann ->
  startswith p (py "{") = true -> endswith p (py "}") = true ->
  contains (py "```") p = false ->
  forallb isspace ws1 = true -> forallb isspace ws2 = true ->
  search_fence (pre ++ py "```" ++ ann ++ ws1 ++ p ++ ws2 ++ py "```" ++ post) = Some p.
Proof.
  intros Hpre Hann Hs He Hno Hws1 Hws2.
  rewrite search_fence_skip by assumption.
  destruct (braces_shape p Hs He) as [b ->].
  apply Forall_isspace in Hws1, Hws2.
  assert (H : fence_match_at (py "```" ++ ann ++ ws1 ++ (0x7B :: b ++ [0x7D])
                                 ++ ws2 ++ py "```" ++ post)
              = Some (0x7B :: b ++ [0x7D])).
  { unfold fence_match_at, and_then. rewrite classes_text.
    rewrite (startswith_app (py "```") (py "```")) by reflexivity.
    rewrite drop_app_length.
    rewrite classes_complete by exact Hann.
    apply star_greedy_skip; [assumption|].
    cbn [app star_greedy]. change (isspace 123) with false. cbv iota.
    apply (group1_payload_before b ws2 post Hno Hws2). }
  destruct (py "```" ++ ann ++ ws1 ++ (123 :: b ++ [125]) ++ ws2 ++ py "```" ++ post);
    cbn [search_fence]; now rewrite H.
Qed.

(** X12: the fence is found anywhere in the reply.  When a braced payload
    without three backquotes in a row stands in a fence annotated as json
    (in any letter case), after a text without backquotes and before any
    text at all, both endpoints parse the reply as they parse the bare
    payload. *)
Theorem fence_found_inside_prose :
  forall (sv : services) (name pre ann ws1 p ws2 post : str),
    forallb (fun c => negb (c =? 0x60)) pre = true ->
    json_annotation ann ->
    startswith p (py "{") = true -> endswith p (py "}") = true ->
    contains (py "```") p = false ->
    forallb isspace ws1 = true -> forallb isspace ws2 = true ->
    let reply := pre ++ py "```" ++ ann ++ ws1 ++ p ++ ws2 ++ py "```" ++ post in
    App.extract_json_from_response reply = p
    /\ App.parse_reply sv name reply = App.parse_reply sv name p
    /\ AppPrecheck.parse_reply sv name reply = AppPrecheck.parse_reply sv name p.
Proof.
  intros sv name pre ann ws1 p ws2 post Hpre Hann Hs He Hno Hws1 Hws2 reply.
  pose proof (search_fence_in_prose pre ann ws1 p ws2 post Hpre Hann Hs He Hno Hws1 Hws2) as Hf.
  fold reply in Hf.
  pose proof (search_fence_without_backticks p Hno) as Hb.
  assert (Hx : App.extract_json_from_response reply = p)
    by (unfold App.extract_json_from_response; now rewrite Hf).
  split; [exact Hx|]. split.
  - unfold App.parse_reply. rewrite Hx. unfold App.extract_json_from_response.
    rewrite Hb, (strip_braces p Hs He), Hs, He. reflexivity.
  - unfold AppPrecheck.parse_reply, AppPrecheck.json_str. now rewrite Hf, Hb.
Qed.

Lemma fence_found_inside_prose_witness :
  App.extract_json_from_response
    (py "Here it is: " ++ py "```" ++ py "JSON" ++ [0x0A] ++ plain_payload ++ [0x0A]
     ++ py "```" ++ py " Done.")
  = plain_payload.
Proof.
  assert (Hann : json_annotation (py "JSON")).
  { unfold json_annotation. vm_compute text_nocase. vm_compute py.
    repeat (constructor; [reflexivity|]). constructor. }
  apply (fence_found_inside_prose offline (py "Zed") (py "Here it is: ") (py "JSON")
           [0x0A] plain_payload [0x0A] (py " Done.")); try reflexivity.
  exact Hann.
Defined.

Lemma no_fence_in_plain m pre a rest :
  forallb (fun c => negb (c =? 0x60)) m = true ->
  m ++ [96; 96; 96] <> pre ++ 96 :: 96 :: 96 :: a :: rest.
Proof.
  revert pre. induction m as [|c m IH]; intros pre Hm E.
  - apply (f_equal (@length _)) in E. rewrite !length_app in E. cbn [length] in E. lia.
  - cbn [forallb] in Hm. apply andb_true_iff in Hm as [Hc Hm].
    destruct pre as [|x pre]; cbn [app] in E; injection E as Ec E.
    + subst c. discriminate Hc.
    + now apply (IH pre Hm).
Qed.

Lemma search_fence_unannotated ws1 p ws2 :
  forallb isspace ws1 = true -> forallb isspace ws2 = true ->
  startswith p (py "{") = true ->
  forallb (fun c => negb (c =? 0x60)) p = true ->
  search_fence (py "```" ++ ws1 ++ p ++ ws2 ++ py "```") = None.
Proof.
  intros Hws1 Hws2 Hs Hp.
  destruct (search_fence (py "```" ++ ws1 ++ p ++ ws2 ++ py "```")) as [g|] eqn:E;
    [exfalso|reflexivity].
  apply search_fence_sound in E as (pre & s & E & Hat).
  apply fence_match_at_sound in Hat as (ann & w1 & inner & w2 & post & -> & Hann & _).
  unfold json_annotation in Hann. change (py "json") with [106; 115; 111; 110] in Hann.
  cbn [text_nocase List.map] in Hann.
  inversion Hann as [|pj a ps anns Ha Hrest]; subst. clear Hann Hrest.
  set (m := ws1 ++ p ++ ws2).
  assert (Hm : forallb (fun c => negb (c =? 0x60)) m = true).
  { unfold m. rewrite !forallb_app, Hp. cbn [andb]. apply andb_true_iff.
    split; apply forallb_forall; intros c Hc.
    - apply (proj1 (forallb_forall _ _) Hws1) in Hc.
      destruct (N.eqb_spec c 96) as [->|]; [discriminate Hc|reflexivity].
    - apply (proj1 (forallb_forall _ _) Hws2) in Hc.
      destruct (N.eqb_spec c 96) as [->|]; [discriminate Hc|reflexivity]. }
  assert (Hhead : exists c m', m = c :: m' /\ (c =? 96) = false /\ nocase 106 c = false).
  { unfold m. destruct ws1 as [|c ws1].
    - destruct p as [|c p]; [discriminate Hs|]. change (py "{") with [123] in Hs.
      rewrite startswith_cons in Hs. apply andb_true_iff in Hs as [Hc _].
      apply N.eqb_eq in Hc. subst c. exists 123, (p ++ ws2). auto.
    - cbn [forallb] in Hws1. apply andb_true_iff in Hws1 as [Hc _].
      exists c, (ws1 ++ p ++ ws2). split; [reflexivity|].
      cbn [forallb app] in Hm. apply andb_true_iff in Hm as [Hq _].
      apply negb_true_iff in Hq. split; [exact Hq|].
      unfold nocase, ascii_lower.
      destruct (is_upper_ascii c) eqn:Eu.
      + unfold is_upper_ascii in Eu. apply andb_true_iff in Eu as [E1 E2].
        apply N.leb_le in E1, E2. exfalso. revert Hc. unfold isspace.
        repeat match goal with
               | |- context [N.leb ?a ?b] => destruct (N.leb_spec a b); try lia
               | |- context [N.eqb ?a ?b] => destruct (N.eqb_spec a b); try lia
               end.
        all: try (cbn; discriminate).
      + cbn [andb orb]. rewrite orb_false_r.
        destruct (N.eqb_spec c 106) as [->|]; [discriminate Hc|reflexivity]. }
  destruct Hhead as (c & m' & Em & Hc96 & Hcj).
  change (py "```") with [96; 96; 96] in E.
  replace ([96; 96; 96] ++ ws1 ++ p ++ ws2 ++ [96; 96; 96])
    with (96 :: 96 :: 96 :: m ++ [96; 96; 96]) in E
    by (unfold m; cbn [app]; now rewrite <- !List.app_assoc).
  rewrite Em in E, Hm. cbn [app] in E.
  destruct pre as [|x1 [|x2 [|x3 pre]]]; cbn [app] in E.
  - injection E as E _. subst a. congruence.
  - injection E as _ E _. subst c. discriminate Hc96.
  - injection E as _ _ E _. subst c. discriminate Hc96.
  - injection E as _ _ _ E.
    change (c :: m' ++ [96; 96; 96]) with ((c :: m') ++ [96; 96; 96]) in E.
    now apply no_fence_in_plain in E.
Qed.

(** X13: a fence without the json annotation is not unwrapped.  For a
    payload without backquotes that starts with a brace, wrapped in three
    backquotes with only blanks around it, both endpoints hand the whole
    reply, backquotes included, to [json.loads]. *)
Theorem unannotated_fence_is_not_unwrapped :
  forall ws1 p ws2 : str,
    forallb isspace ws1 = true -> forallb isspace ws2 = true ->
    startswith p (py "{") = true ->
    forallb (fun c => negb (c =? 0x60)) p = true ->
    let reply := py "```" ++ ws1 ++ p ++ ws2 ++ py "```" in
    AppPrecheck.json_str reply = reply /\ App.extract_json_from_response reply = reply.
Proof.
  intros ws1 p ws2 Hws1 Hws2 Hs Hp reply.
  pose proof (search_fence_unannotated ws1 p ws2 Hws1 Hws2 Hs Hp) as Hnone.
  fold reply in Hnone. unfold AppPrecheck.json_str. rewrite Hnone. split; [reflexivity|].
  unfold App.extract_json_from_response. rewrite Hnone.
  assert (Hstrip : strip reply = reply).
  { unfold reply, strip. change (py "```") with [96; 96; 96]. cbn [app lstrip].
    change (isspace 96) with false. cbv iota.
    replace (96 :: 96 :: 96 :: ws1 ++ p ++ ws2 ++ [96; 96; 96])
      with ((96 :: 96 :: 96 :: ws1 ++ p ++ ws2 ++ [96; 96]) ++ [96])
      by (cbn [app]; now rewrite <- !List.app_assoc).
    now apply rstrip_snoc. }
  cbv zeta. rewrite Hstrip. now destruct (_ && _).
Qed.

Lemma unannotated_fence_is_not_unwrapped_witness :
  App.extract_json_from_response (py "```" ++ [0x0A] ++ plain_payload ++ [0x0A] ++ py "```")
  = py "```" ++ [0x0A] ++ plain_payload ++ [0x0A] ++ py "```".
Proof.
  apply (unannotated_fence_is_not_unwrapped [0x0A] plain_payload [0x0A]); reflexivity.
Defined.

(** ** The test harness *)


Lemma retry_unfold (left : nat) (fn : posting attempt_result) (log : list json) :
  retry left fn log
  = match fn log with
    | (Answer v, log') => (Answer v, log')
    | (Failed msg, log') =>
        match left with
        | O => (Failed msg, log')
        | S n => retry n fn log'
        end
    end.
Proof.
  destruct left; cbn [retry]; unfold bind, ret; destruct (fn log) as [[v|msg] log']; reflexivity.
Qed.

Lemma retry_post (left : nat) (net : network) (payload : json) (log : list json) :
  retry left (post net payload) log
  = match net log payload with
    | Answer v => (Answer v, log ++ [payload])
    | Failed msg =>
        match left with
        | O => (Failed msg, log ++ [payload])
        | S n => retry n (post net payload) (log ++ [payload])
        end
    end.
Proof. rewrite retry_unfold. reflexivity. Qed.

Lemma retry_spec (net : network) (payload : json) (left : nat) (log : list json) :
  exists k,
    (1 <= k <= S left)%nat
    /\ snd (retry left (post net payload) log) = log ++ replicate k payload
    /\ fst (retry left (post net payload) log) = net (log ++ replicate (k - 1) payload) payload
    /\ (forall j, (j < k - 1)%nat ->
                  exists msg, net (log ++ replicate j payload) payload = Failed msg)
    /\ ((exists msg, fst (retry left (post net payload) log) = Failed msg) -> k = S left).
Proof.
  revert log. induction left as [|left IH]; intro log; rewrite retry_post.
  - exists 1%nat.
    destruct (net log payload) as [v|msg] eqn:E; cbn [fst snd replicate Nat.sub].
    all: rewrite app_nil_r, E.
    all: split; [lia|split; [reflexivity|split; [reflexivity|split; [intros j Hj; lia|auto]]]].
  - destruct (net log payload) as [v|msg] eqn:E.
    + exists 1%nat. cbn [fst snd replicate Nat.sub]. rewrite app_nil_r, E.
      split; [lia|split; [reflexivity|split; [reflexivity|split; [intros j Hj; lia|]]]].
      intros [m Hm]. discriminate Hm.
    + destruct (IH (log ++ [payload])) as (k & Hk & Hlog & Hres & Hfail & Hlast).
      exists (S k).
      assert (Hshift : forall j, (log ++ [payload]) ++ replicate j payload
                                 = log ++ replicate (S j) payload).
      { intro j. rewrite <- List.app_assoc. reflexivity. }
      rewrite Hshift in Hlog.
      split; [lia|split; [exact Hlog|split; [|split]]].
      * rewrite Hres, Hshift. do 2 f_equal. f_equal. lia.
      * intros j Hj. destruct j as [|j]; [cbn [replicate]; rewrite app_nil_r; eauto|].
        rewrite <- Hshift. apply Hfail. lia.
      * intro H. f_equal. now apply Hlast.
Qed.

Lemma predicted_value_cases (r : attempt_result) :
  (predicted_value r = 1%Z \/ predicted_value r = 0%Z)
  /\ TestModelsParallel.predicted_value r = predicted_value r.
Proof.
  destruct r as [v|msg]; [|split; [now right|reflexivity]].
  destruct v; try (split; [now right|reflexivity]).
  - cbn [predicted_value TestModelsParallel.predicted_value py_in subscript].
    destruct (contains _ _); split; solve [now right|reflexivity].
  - cbn [predicted_value TestModelsParallel.predicted_value py_in subscript].
    destruct (existsb _ _); split; solve [now right|reflexivity].
  - cbn [predicted_value TestModelsParallel.predicted_value py_in subscript]. unfold get.
    destruct (m !! py "prediction") as [p|]; cbn [default from_option id].
    + rewrite bool_decide_eq_true_2 by eauto.
      destruct (eq_str p (py "Realistic")); split; solve [now left|now right|reflexivity].
    + rewrite bool_decide_eq_false_2 by (intros [x Hx]; discriminate Hx).
      split; solve [now right|reflexivity].
Qed.

Lemma posted_length counts names model :
  length counts = length names ->
  Forall (fun k => 1 <= k <= 3)%nat counts ->
  (length names <= length (posted counts names model) <= 3 * length names)%nat.
Proof.
  intros Hlen Hk. revert names Hlen. induction Hk as [|k counts Hk1 Hk IH]; intros names Hlen.
  - destruct names; [cbn; lia|discriminate Hlen].
  - destruct names as [|name names]; [discriminate Hlen|].
    injection Hlen as Hlen. specialize (IH names Hlen).
    cbn [posted length]. rewrite length_app, length_replicate. lia.
Qed.

Lemma predict_rows_spec (net : network) (model : str) (names : list json) :
  forall (predictions : list Z) (log : list json),
  exists (new : list Z) (counts : list nat),
    fst (predict_rows net model names predictions log) = predictions ++ new
    /\ snd (predict_rows net model names predictions log) = log ++ posted counts names model
    /\ length new = length names
    /\ Forall (fun p => p = 1%Z \/ p = 0%Z) new
    /\ length counts = length names
    /\ Forall (fun k => 1 <= k <= 3)%nat counts.
Proof.
  induction names as [|name rest IH]; intros predictions log.
  - exists [], []. cbn. rewrite !app_nil_r. repeat split; constructor.
  - cbn [predict_rows]. unfold bind, send_prediction_request.
    destruct (retry_spec net (payload_of name model) (stop_max_attempt_number - 1) log)
      as (k & Hk & Hlog & _).
    destruct (retry (stop_max_attempt_number - 1) (post net (payload_of name model)) log)
      as [r log'] eqn:E.
    cbn [snd] in Hlog. subst log'. cbv beta iota.
    destruct (IH (predictions ++ [predicted_value r]) (log ++ replicate k (payload_of name model)))
      as (new & counts & Hp & Hl & Hnew & Hbits & Hc & Hks).
    exists (predicted_value r :: new), (k :: counts).
    rewrite Hp, Hl. cbn [posted length]. rewrite <- !List.app_assoc.
    split; [reflexivity|]. split; [reflexivity|]. split; [now rewrite Hnew|].
    split; [constructor; [apply predicted_value_cases|assumption]|].
    split; [now rewrite Hc|].
    constructor; [|assumption]. cbn in Hk. lia.
Qed.

(** X14: [send_prediction_request] posts the same payload
    [{name, model}] at least once and at most three times: it stops at the
    first attempt that returns, every attempt before the one whose outcome
    it gives has raised, and it lets an exception out only after the third
    attempt.  The parallel harness makes the same request. *)
Theorem request_is_tried_at_most_three_times
  (net : network) (name : json) (model : str) (log : list json) :
  let payload := payload_of name model in
  let outcome := TestModels.send_prediction_request net name model log in
  exists k,
    (1 <= k <= 3)%nat
    /\ snd outcome = log ++ replicate k payload
    /\ fst outcome = net (log ++ replicate (k - 1) payload) payload
    /\ (forall j, (j < k - 1)%nat ->
                  exists msg, net (log ++ replicate j payload) payload = Failed msg)
    /\ ((exists msg, fst outcome = Failed msg) -> k = 3%nat)
    /\ (log = [] -> TestModelsParallel.send_prediction_request net name model = fst outcome).
Proof.
  intros payload outcome.
  destruct (retry_spec net payload (stop_max_attempt_number - 1) log)
    as (k & Hk & Hlog & Hres & Hfail & Hlast).
  exists k. repeat split; try assumption; try (cbn in Hk; lia).
  intros ->. reflexivity.
Qed.

(** X15: a row is scored 1 exactly when the request returns a JSON object
    whose [prediction] is the string [Realistic]; it is scored 0 in every
    other case (another prediction, no prediction, an answer that is not
    an object, a request that failed three times).  The sequential and the
    parallel harness score every outcome alike. *)
Theorem row_scores_one_iff_realistic (r : attempt_result) :
  (TestModels.predicted_value r = 1%Z
   <-> exists d, r = Answer (JObj d) /\ d !! py "prediction" = Some (JStr (py "Realistic")))
  /\ (TestModels.predicted_value r = 1%Z \/ TestModels.predicted_value r = 0%Z)
  /\ TestModelsParallel.predicted_value r = TestModels.predicted_value r.
Proof.
  destruct r as [v|msg].
  2:{ split; [|split; [now right|reflexivity]].
      split; [discriminate|intros (d & H & _); discriminate H]. }
  destruct v.
  all: try (split; [|split; [now right|reflexivity]];
            split; [discriminate|intros (d & H & _); discriminate H]).
  - (* str *)
    cbn [predicted_value TestModelsParallel.predicted_value py_in subscript].
    destruct (contains _ _);
      (split; [split; [discriminate|intros (d & H & _); discriminate H]
              |split; [now right|reflexivity]]).
  - (* list *)
    cbn [predicted_value TestModelsParallel.predicted_value py_in subscript].
    destruct (existsb _ _);
      (split; [split; [discriminate|intros (d & H & _); discriminate H]
              |split; [now right|reflexivity]]).
  - (* dict *)
    cbn [predicted_value TestModelsParallel.predicted_value py_in subscript]. unfold get.
    destruct (m !! py "prediction") as [p|] eqn:Hp; cbn [default from_option id].
    + rewrite bool_decide_eq_true_2 by eauto.
      destruct (eq_str p (py "Realistic")) eqn:Ep.
      * apply eq_str_true in Ep. subst p. split; [|split; [now left|reflexivity]].
        split; [intros _; eauto|reflexivity].
      * split; [|split; [now right|reflexivity]].
        split; [discriminate|]. intros (d & [= <-] & Hd). rewrite Hp in Hd.
        injection Hd as ->. cbn in Ep. rewrite bool_decide_eq_true_2 in Ep by reflexivity.
        discriminate Ep.
    + rewrite bool_decide_eq_false_2 by (intros [x Hx]; discriminate Hx).
      split; [|split; [now right|reflexivity]].
      split; [discriminate|]. intros (d & [= <-] & Hd). rewrite Hp in Hd. discriminate Hd.
Qed.

(** X16: the sequential [evaluate_model] never stops early: whatever the
    service does, it returns one prediction, 0 or 1, for every row of the
    [Name] column, scored against [Is_Valid] by [accuracy_score]; the
    requests it posts are, row after row in the order of the dataset,
    one to three copies of the row's payload, so between n and 3n posts
    for n rows. *)
Theorem sequential_run_scores_every_row
  {A} (accuracy_score : list json -> list Z -> A)
  (net : network) (df : dataset) (model : str) (log : list json) :
  let out := TestModels.evaluate_model accuracy_score net df model log in
  let predictions := snd (fst out) in
  fst (fst out) = accuracy_score (Is_Valid df) predictions
  /\ length predictions = length (Name df)
  /\ Forall (fun p => p = 1%Z \/ p = 0%Z) predictions
  /\ exists counts,
       snd out = log ++ posted counts (Name df) model
       /\ length counts = length (Name df)
       /\ Forall (fun k => 1 <= k <= 3)%nat counts
       /\ (length log + length (Name df) <= length (snd out)
           <= length log + 3 * length (Name df))%nat.
Proof.
  intros out predictions. subst predictions out.
  unfold TestModels.evaluate_model, bind, ret.
  destruct (predict_rows_spec net model (Name df) [] log)
    as (new & counts & Hp & Hl & Hnew & Hbits & Hc & Hks).
  destruct (predict_rows net model (Name df) [] log) as [predictions log'].
  cbn [fst snd] in *. subst predictions log'.
  split; [reflexivity|]. split; [assumption|]. split; [assumption|].
  exists counts. split; [reflexivity|]. split; [assumption|]. split; [assumption|].
  rewrite length_app. pose proof (posted_length counts (Name df) model Hc Hks). lia.
Qed.

Lemma collect_spec (futures : list attempt_result) (completed : list nat) :
  forall predictions : list (option Z),
  length predictions = length futures ->
  Forall (fun i => i < length futures)%nat completed ->
  exists out,
    TestModelsParallel.collect futures completed predictions = Some out
    /\ length out = length futures
    /\ forall i, out !! i
                 = if bool_decide (i ∈ completed)
                   then (fun r => Some (TestModelsParallel.predicted_value r)) <$> futures !! i
                   else predictions !! i.
Proof.
  induction completed as [|idx rest IH]; intros predictions Hlen Hin.
  - exists predictions. split; [reflexivity|]. split; [assumption|].
    intro i. rewrite bool_decide_eq_false_2; [reflexivity|]. apply not_elem_of_nil.
  - apply Forall_cons in Hin as [Hidx Hrest].
    destruct (lookup_lt_is_Some_2 futures idx Hidx) as [r Hr].
    cbn [TestModelsParallel.collect]. rewrite Hr.
    unfold TestModelsParallel.set_item.
    rewrite (proj2 (Nat.ltb_lt _ _)) by lia.
    destruct (IH (<[idx := Some (TestModelsParallel.predicted_value r)]> predictions))
      as (out & Hout & Hlen' & Hget); [now rewrite length_insert|assumption|].
    exists out. split; [assumption|]. split; [assumption|].
    intro i. rewrite Hget.
    destruct (decide (i ∈ rest)) as [Hi|Hi].
    + rewrite !bool_decide_eq_true_2; [reflexivity|now apply list_elem_of_further|assumption].
    + rewrite (bool_decide_eq_false_2 (i ∈ rest)) by assumption.
      destruct (decide (i = idx)) as [->|Hne].
      * rewrite bool_decide_eq_true_2 by apply list_elem_of_here.
        rewrite Hr. cbn [fmap option_fmap option_map].
        apply list_lookup_insert_eq. lia.
      * rewrite bool_decide_eq_false_2.
        -- apply list_lookup_insert_ne. congruence.
        -- intro H. apply elem_of_cons in H as [H|H]; [congruence|contradiction].
Qed.

(** X17: the parallel [evaluate_model] does not depend on the order in
    which the futures finish: when every future finishes once, the
    prediction at each index is the score of the request made for the name
    at that index, no entry is left at [None], and there are as many
    predictions as names. *)
Theorem parallel_run_ignores_completion_order
  {A} (accuracy_score : list json -> list (option Z) -> A)
  (nets : nat -> network) (df : dataset) (model : str) (completed : list nat) :
  Permutation completed (seq 0 (length (Name df))) ->
  let futures := imap (fun idx name =>
                         TestModelsParallel.send_prediction_request (nets idx) name model)
                      (Name df) in
  let predictions := map (fun r => Some (TestModelsParallel.predicted_value r)) futures in
  TestModelsParallel.evaluate_model accuracy_score nets df model completed
  = Some (accuracy_score (Is_Valid df) predictions, predictions)
  /\ length predictions = length (Name df).
Proof.
  intros Hperm futures predictions.
  assert (Hn : length futures = length (Name df)) by apply length_imap.
  split; [|unfold predictions; now rewrite length_map].
  unfold TestModelsParallel.evaluate_model. fold futures.
  destruct (collect_spec futures completed (replicate (length (Name df)) None))
    as (out & Hout & Hlen & Hget).
  { now rewrite length_replicate. }
  { apply List.Forall_forall. intros i Hi.
    apply (Permutation_in _ Hperm), in_seq in Hi. lia. }
  rewrite Hout.
  assert (Heq : out = predictions); [|now rewrite Heq].
  apply list_eq. intro i. rewrite Hget. unfold predictions.
  rewrite list_lookup_fmap.
  destruct (decide (i < length futures)%nat) as [Hi|Hi].
  - rewrite bool_decide_eq_true_2.
    + destruct (futures !! i) as [r|]; reflexivity.
    + apply list_elem_of_In. apply (Permutation_in _ (Permutation_sym Hperm)).
      apply in_seq. lia.
  - rewrite bool_decide_eq_false_2.
    + rewrite (proj1 (lookup_replicate_None _ _ _)) by lia.
      rewrite (lookup_ge_None_2 futures) by lia. reflexivity.
    + intro H. apply list_elem_of_In in H.
      apply (Permutation_in _ Hperm), in_seq in H. lia.
Qed.

Lemma parallel_run_ignores_completion_order_witness :
  TestModelsParallel.evaluate_model (fun _ predictions => predictions) (fun _ => by_name)
                                    two_rows (py "gpt-4o-mini") [1; 0]%nat
  = Some ([Some 1%Z; Some 0%Z], [Some 1%Z; Some 0%Z]).
Proof.
  assert (Hperm : Permutation [1; 0]%nat (seq 0 (length (Name two_rows))))
    by apply perm_swap.
  exact (proj1 (parallel_run_ignores_completion_order
                  (fun _ predictions => predictions) (fun _ => by_name)
                  two_rows (py "gpt-4o-mini") [1; 0]%nat Hperm)).
Defined.

Lemma retry_stateless (net : network) (payload : json) (left : nat) (log : list json) :
  (forall log1 log2 p, net log1 p = net log2 p) ->
  fst (retry left (post net payload) log) = net [] payload.
Proof.
  intro Hnet. destruct (retry_spec net payload left log) as (k & _ & _ & Hres & _).
  rewrite Hres. apply Hnet.
Qed.

Lemma predict_rows_stateless (net : network) (model : str) (names : list json) :
  (forall log1 log2 p, net log1 p = net log2 p) ->
  forall (predictions : list Z) (log : list json),
  fst (predict_rows net model names predictions log)
  = predictions
    ++ map (fun name => TestModels.predicted_value (net [] (payload_of name model))) names.
Proof.
  intro Hnet. induction names as [|name rest IH]; intros predictions log.
  - cbn. now rewrite app_nil_r.
  - cbn [predict_rows]. unfold bind, TestModels.send_prediction_request.
    pose proof (retry_stateless net (payload_of name model)
                  (stop_max_attempt_number - 1) log Hnet) as Hr.
    destruct (retry (stop_max_attempt_number - 1) (post net (payload_of name model)) log)
      as [r log'].
    cbn [fst] in Hr. subst r. rewrite IH, <- List.app_assoc. reflexivity.
Qed.

(** X18: on a service whose answer to a payload does not depend on what
    was posted before, the two harnesses agree: the sequential predictions
    are the scores of the service's answers row by row, and the parallel
    run returns the same predictions, in the same order, whatever the
    order in which the futures finish. *)
Theorem harnesses_agree_on_stateless_service
  {A B} (score : list json -> list Z -> A) (pscore : list json -> list (option Z) -> B)
  (net : network) (df : dataset) (model : str)
  (log : list json) (completed : list nat) :
  (forall log1 log2 p, net log1 p = net log2 p) ->
  Permutation completed (seq 0 (length (Name df))) ->
  let sequential := snd (fst (TestModels.evaluate_model score net df model log)) in
  sequential
  = map (fun name => TestModels.predicted_value (net [] (payload_of name model))) (Name df)
  /\ TestModelsParallel.evaluate_model pscore (fun _ => net) df model completed
     = Some (pscore (Is_Valid df) (map Some sequential), map Some sequential).
Proof.
  intros Hnet Hperm sequential.
  assert (Hseq : sequential
                 = map (fun name => TestModels.predicted_value (net [] (payload_of name model)))
                       (Name df)).
  { unfold sequential, TestModels.evaluate_model, bind, ret.
    pose proof (predict_rows_stateless net model (Name df) Hnet [] log) as H.
    destruct (predict_rows net model (Name df) [] log) as [p l]. exact H. }
  split; [exact Hseq|].
  unfold TestModelsParallel.evaluate_model.
  destruct (collect_spec
              (imap (fun idx name =>
                       TestModelsParallel.send_prediction_request ((fun _ => net) idx) name model)
                    (Name df))
              completed (replicate (length (Name df)) None))
    as (out & Hout & Hlen & Hget).
  { now rewrite length_replicate, length_imap. }
  { apply List.Forall_forall. intros i Hi.
    apply (Permutation_in _ Hperm), in_seq in Hi. rewrite length_imap. lia. }
  cbv beta in Hout. rewrite Hout.
  assert (Heq : out = map Some sequential); [|now rewrite Heq].
  rewrite length_imap in Hlen.
  apply list_eq. intro i. rewrite Hget, Hseq, list_lookup_imap, !list_lookup_fmap.
  destruct (decide (i < length (Name df))%nat) as [Hi|Hi].
  - rewrite bool_decide_eq_true_2.
    + destruct (Name df !! i) as [name|]; [|reflexivity].
      cbn. do 2 f_equal.
      unfold TestModelsParallel.send_prediction_request.
      rewrite retry_stateless by assumption. apply predicted_value_cases.
    + apply list_elem_of_In. apply (Permutation_in _ (Permutation_sym Hperm)).
      apply in_seq. lia.
  - rewrite bool_decide_eq_false_2.
    + rewrite (proj1 (lookup_replicate_None _ _ _)) by lia.
      rewrite (lookup_ge_None_2 (Name df)) by lia. reflexivity.
    + intro H. apply list_elem_of_In in H.
      apply (Permutation_in _ Hperm), in_seq in H. lia.
Qed.

Lemma harnesses_agree_on_stateless_service_witness :
  snd (fst (TestModels.evaluate_model (fun _ _ => tt) by_name two_rows (py "gpt-4o-mini") []))
  = [1%Z; 0%Z]
  /\ TestModelsParallel.evaluate_model (fun _ predictions => predictions) (fun _ => by_name)
                                       two_rows (py "gpt-4o-mini") [1; 0]%nat
     = Some ([Some 1%Z; Some 0%Z], [Some 1%Z; Some 0%Z]).
Proof.
  assert (Hperm : Permutation [1; 0]%nat (seq 0 (length (Name two_rows))))
    by apply perm_swap.
  assert (Hnet : forall log1 log2 p, by_name log1 p = by_name log2 p) by reflexivity.
  exact (harnesses_agree_on_stateless_service
           (fun _ _ => tt) (fun _ predictions => predictions) by_name
           two_rows (py "gpt-4o-mini") [] [1; 0]%nat Hnet Hperm).
Defined.
